(** * Moody surface plate analysis: a model of [moody.c] and its worksheet laws

    The program fills eight worksheets (two diagonals, four perimeter lines,
    two center lines) held in the global array [ws[8][9][MAX_STATIONS]].
    This development embeds the numerical pipeline of [moody.c] as state
    transformers over a record holding the program's globals, keeps the C
    arithmetic abstract behind an interface with two implementations
    (IEEE binary32/binary64 as the compiled program uses them, and exact
    rational arithmetic), and proves the worksheet properties. *)

From Stdlib Require Import ZArith QArith Qcanon Qround Lia List String Ascii
  Bool Arith.
From Stdlib Require Import Floats.SpecFloat.
Import ListNotations.

(** ** The arithmetic of the C program

    [moody.c] computes with [float] variables, but every expression that
    mentions a floating constant ([0.5], [-1.0], [1000.0], [2.54], ...) is
    evaluated in [double] and converted back on assignment.  The interface
    keeps the two types apart so that each C expression can be transcribed
    operator by operator.  The order laws are what the search for the low
    point relies on; they hold for IEEE comparison (also in the presence of
    NaN) and for the rationals. *)

Class CArith : Type := {
  float : Type;
  double : Type;
  (* float operators *)
  fadd : float -> float -> float;
  fsub : float -> float -> float;
  fmul : float -> float -> float;
  fdiv : float -> float -> float;
  flt : float -> float -> bool;
  float_of_int : Z -> float;
  (* conversions performed by the usual arithmetic conversions and by
     assignment *)
  to_double : float -> double;
  to_float : double -> float;
  (* double operators *)
  dsub : double -> double -> double;
  dmul : double -> double -> double;
  ddiv : double -> double -> double;
  dlt : double -> double -> bool;
  dabs : double -> double;
  double_of_int : Z -> double;
  (* the double nearest to the decimal constant n/d *)
  dlit : Z -> positive -> double;
  (* comparison is a strict order *)
  flt_irrefl : forall x, flt x x = false;
  flt_trans : forall x y z, flt x y = true -> flt y z = true -> flt x z = true
}.

(** ** Constants of the program *)

(** [#define MAX_STATIONS 128] *)
Definition MAX_STATIONS : nat := 128.

(** [#define MAX_LINELEN 1024] *)
Definition MAX_LINELEN : nat := 1024.

Definition NW_SE : nat := 0.
Definition NE_SW : nat := 1.
Definition NE_NW : nat := 2.
Definition NE_SE : nat := 3.
Definition SE_SW : nat := 4.
Definition NW_SW : nat := 5.
Definition N_S : nat := 7.

(** [const char *filenames[]] *)
Definition filenames : list string :=
  ["NW_SE.txt"; "NE_SW.txt"; "NE_NW.txt"; "NE_SE.txt";
   "SE_SW.txt"; "NW_SW.txt"; "E_W.txt"; "N_S.txt"]%string.

Definition filename (which_file : nat) : string :=
  nth which_file filenames EmptyString.

(** ** Loops

    [for (j = lo; j <= hi; j++) body] and [for (j = hi; j > 0; j--) body],
    the only two loop shapes of the numerical code. *)

Section Loops.
Variable St : Type.
Variable body : nat -> St -> St.

Fixpoint for_count (n j : nat) (s : St) : St :=
  match n with
  | O => s
  | S n' => for_count n' (S j) (body j s)
  end.

(** [for (j = lo; j <= hi; j++)] *)
Definition for_up (lo hi : nat) (s : St) : St :=
  for_count (S hi - lo) lo s.

(** [for (j = hi; j > 0; j--)] *)
Fixpoint for_down (hi : nat) (s : St) : St :=
  match hi with
  | O => s
  | S j' => for_down j' (body hi s)
  end.
End Loops.

Arguments for_count {St} body n j s.
Arguments for_up {St} body lo hi s.
Arguments for_down {St} body hi s.

(** ** Fatal errors and printed diagnostics *)

(** The four ways [read_data] calls [exit(EXIT_FAILURE)]; every message
    names the file. *)
Inductive fatal : Type :=
| Unable_to_open (fname : string)
| Unable_to_parse (file_line : nat) (fname : string)
| Too_many_stations (limit : nat) (fname : string)
| Too_few_lines (lines_read : nat) (fname : string).

Definition fatal_names (e : fatal) : string :=
  match e with
  | Unable_to_open f => f
  | Unable_to_parse _ f => f
  | Too_many_stations _ f => f
  | Too_few_lines _ f => f
  end.

(** The file system as [fopen]/[fgets] present it: a file that cannot be
    opened, or the successive buffers returned by [fgets], each of at
    most [MAX_LINELEN]-1 characters (one per text line, for lines shorter
    than [MAX_LINELEN]; a longer line comes in several buffers). *)
Definition files : Type := nat -> option (list string).

Section Moody.
Context {A : CArith}.

(** The conversion [sscanf(head, "%f%s\n", &x, remaining)] of the C
    library: [Some x] when it returns 1 (a number and nothing after it),
    [None] for every other return value. *)
Variable sscanf_f : string -> option float.

(** *** Program state: the globals of [moody.c] *)

Record state : Type := mkState {
  ws : nat -> nat -> nat -> float;   (* float ws[8][9][MAX_STATIONS] *)
  num_dat : nat -> nat;              (* int num_dat[8] *)
  metric : Z;                        (* int metric *)
  foot_spacing : float               (* float foot_spacing *)
}.

(** [ws[i][c][j] = v] *)
Definition store (st : state) (i c j : nat) (v : float) : state :=
  mkState
    (fun i' c' j' =>
       if (i' =? i)%nat && (c' =? c)%nat && (j' =? j)%nat
       then v else ws st i' c' j')
    (num_dat st) (metric st) (foot_spacing st).

Definition set_num_dat (st : state) (i n : nat) : state :=
  mkState (ws st)
    (fun i' => if (i' =? i)%nat then n else num_dat st i')
    (metric st) (foot_spacing st).

Definition set_foot_spacing (st : state) (v : float) : state :=
  mkState (ws st) (num_dat st) (metric st) v.

(** Objects of static storage duration start out as zero; [metric] is
    initialised to -1. *)
Definition initial_state : state :=
  mkState (fun _ _ _ => float_of_int 0) (fun _ => O) (-1)%Z (float_of_int 0).

(** Moody's columns, by their place in [ws] (the source indexes columns
    from zero; column 6a of the center lines lives at index 8). *)
Definition col1 (st : state) (i j : nat) : float := ws st i 0 j.
Definition col2 (st : state) (i j : nat) : float := ws st i 1 j.
Definition col3 (st : state) (i j : nat) : float := ws st i 2 j.
Definition col4 (st : state) (i j : nat) : float := ws st i 3 j.
Definition col5 (st : state) (i j : nat) : float := ws st i 4 j.
Definition col6 (st : state) (i j : nat) : float := ws st i 5 j.
Definition col7 (st : state) (i j : nat) : float := ws st i 6 j.
Definition col8 (st : state) (i j : nat) : float := ws st i 7 j.
Definition col6a (st : state) (i j : nat) : float := ws st i 8 j.

(** [const float arcsec = 2.0*3.141592/(360.0*60*60);] *)
Definition arcsec : float :=
  to_float
    (ddiv (dmul (dlit 2 1) (dlit 3141592 1000000))
          (dmul (dmul (dlit 360 1) (double_of_int 60)) (double_of_int 60))).

(** *** [read_data] *)

(** [isspace] in the C locale. *)
Definition isspace (c : ascii) : bool :=
  let n := nat_of_ascii c in
  (n =? 32)%nat || ((9 <=? n)%nat && (n <=? 13)%nat).

Definition is_newline (c : ascii) : bool := (nat_of_ascii c =? 10)%nat.
Definition is_hash (c : ascii) : bool := (nat_of_ascii c =? 35)%nat.

(** [while (isspace( *head) && *head!='\n') head++;] *)
Fixpoint skip_space (head : string) : string :=
  match head with
  | String c rest =>
      if isspace c && negb (is_newline c) then skip_space rest else head
  | EmptyString => head
  end.

(** [buf[sizeof(buf)-1]='\n';] on a buffer that [fgets] has filled.  The
    last byte of the array is where [fgets] puts the terminating NUL of a
    full buffer, one of [MAX_LINELEN]-1 characters; the assignment
    replaces it by a newline.  In a shorter buffer that byte lies behind
    the NUL and the string is as it was.  (Past the newline of a full
    buffer the array ends: what a conversion that reads on finds there
    is not defined by C, and the string ends with the newline here.) *)
Definition guarantee_newline (buf : string) : string :=
  if (String.length buf <? MAX_LINELEN - 1)%nat then buf
  else (substring 0 (MAX_LINELEN - 1) buf
        ++ String (ascii_of_nat 10) EmptyString)%string.

(** [*head=='\n' || *head=='#'] *)
Definition comment_or_end (head : string) : bool :=
  match head with
  | String c _ => is_newline c || is_hash c
  | EmptyString => false
  end.

(** The [while (fgets(...))] loop of [read_data]; [bufs] are the buffers
    still to come.  [file_line] and [lines_read] are natural numbers: the
    [int]s of the source hold them as long as a file has fewer than 2^31
    lines. *)
Fixpoint read_loop (which_file : nat) (bufs : list string)
         (file_line lines_read : nat) (st : state)
  : fatal + (nat * state) :=
  match bufs with
  | [] => inr (lines_read, st)
  | buf :: rest =>
      let file_line := S file_line in
      let buf := guarantee_newline buf in
      let head := skip_space buf in
      if comment_or_end head
      then read_loop which_file rest file_line lines_read st
      else
        match sscanf_f head with
        | None => inl (Unable_to_parse file_line (filename which_file))
        | Some x =>
            let st := store st which_file 1 (lines_read + 1) x in
            let lines_read := S lines_read in
            if (MAX_STATIONS - 2 <=? lines_read)%nat
            then inl (Too_many_stations (MAX_STATIONS - 2)
                                        (filename which_file))
            else read_loop which_file rest file_line lines_read st
        end
  end.

Definition read_data (fs : files) (which_file : nat) (st : state)
  : fatal + state :=
  match fs which_file with
  | None => inl (Unable_to_open (filename which_file))
  | Some bufs =>
      match read_loop which_file bufs 0 0 st with
      | inl e => inl e
      | inr (lines_read, st) =>
          if (lines_read <? 3)%nat
          then inl (Too_few_lines lines_read (filename which_file))
          else inr (set_num_dat st which_file lines_read)
      end
  end.

(** *** [mid_value] *)

Definition mid_value (st : state) (which_sheet which_column : nat) : float :=
  let ndat := num_dat st which_sheet in
  if (ndat mod 2 =? 0)%nat
  then ws st which_sheet which_column (ndat / 2)
  else
    let a := ws st which_sheet which_column ((ndat - 1) / 2) in
    let b := ws st which_sheet which_column ((ndat + 1) / 2) in
    to_float (dmul (dlit 5 10) (to_double (fadd a b))).

(** *** [shift_lines] *)

Definition shift_body (i : nat) (correction_factor : float)
           (j : nat) (st : state) : state :=
  let st := store st i 4 j (fadd (ws st i 4 (j + 1)) correction_factor) in
  store st i 5 j (fadd (ws st i 4 j) (ws st i 3 j)).

Definition shift_lines (which_sheet : nat) (st : state) : state :=
  let i := which_sheet in
  let ndat := num_dat st i in
  let st := store st i 4 ndat (fsub (ws st i 5 ndat) (ws st i 3 ndat)) in
  let correction_factor :=
    fdiv (fsub (ws st i 4 0) (ws st i 4 ndat))
         (float_of_int (Z.of_nat ndat)) in
  let st := for_down (shift_body i correction_factor) (ndat - 1) st in
  if (which_sheet =? 6)%nat || (which_sheet =? 7)%nat
  then
    let should_be_zero := mid_value st which_sheet 5 in
    for_up (fun j st =>
              store st which_sheet 8 j
                    (fsub (ws st which_sheet 5 j) should_be_zero))
           0 ndat st
  else st.

(** *** [diagonal_correction] *)

Definition diagonal_correction (which_sheet : nat) (st : state) : state :=
  let ndat := num_dat st which_sheet in
  let a :=
    to_float (ddiv (dmul (dlit (-1) 1)
                         (to_double (ws st which_sheet 3 ndat)))
                   (double_of_int (Z.of_nat ndat))) in
  let b :=
    to_float (dsub (dmul (dlit 5 10)
                         (to_double (ws st which_sheet 3 ndat)))
                   (to_double (mid_value st which_sheet 3))) in
  for_up (fun j st =>
            let st :=
              store st which_sheet 4 j
                    (fadd (fmul a (float_of_int (Z.of_nat j))) b) in
            store st which_sheet 5 j
                  (fadd (ws st which_sheet 3 j) (ws st which_sheet 4 j)))
         0 ndat st.

(** *** [first_four_columns] *)

Definition first_four_columns (which_sheet : nat) (st : state) : state :=
  let ndat := num_dat st which_sheet in
  let st :=
    for_up (fun j st =>
              store st which_sheet 0 j (float_of_int (Z.of_nat j + 1)))
           0 ndat st in
  let st :=
    for_up (fun j st =>
              store st which_sheet 2 j
                    (fsub (ws st which_sheet 1 j) (ws st which_sheet 1 1)))
           1 ndat st in
  let st := store st which_sheet 3 0 (to_float (dlit 0 1)) in
  let st := store st which_sheet 3 1 (to_float (dlit 0 1)) in
  for_up (fun j st =>
            store st which_sheet 3 j
                  (fadd (ws st which_sheet 3 (j - 1)) (ws st which_sheet 2 j)))
         2 ndat st.

(** *** [return_low_and_high_point] *)

(** The value the search looks at in row [j] of sheet [i]: column 6,
    except column 6a for the center lines. *)
Definition selected (st : state) (i j : nat) : float :=
  if (i =? 6)%nat || (i =? 7)%nat then ws st i 8 j else ws st i 5 j.

Definition low_high_step (st : state) (i j : nat) (mm : float * float)
  : float * float :=
  let tmp := selected st i j in
  let min := if flt tmp (fst mm) then tmp else fst mm in
  let max := if flt (snd mm) tmp then tmp else snd mm in
  (min, max).

(** Returns the pair [( *pmin, *pmax)]. *)
Definition return_low_and_high_point (st : state) : float * float :=
  for_up (fun i mm => for_up (low_high_step st i) 0 (num_dat st i) mm)
         0 7 (ws st 0 5 0, ws st 0 5 0).

(** *** Columns 5 and 6 of all eight sheets, in Moody's order

    The part of [main] between reading the data and computing column 7. *)

(** [ws[2][4][0] = ws[2][5][0] = ws[3][4][0] = ws[3][5][0] = ws[1][5][0];] *)
Definition copy_NE_corner (st : state) : state :=
  let v := ws st 1 5 0 in
  let st := store st 3 5 0 v in
  let st := store st 3 4 0 v in
  let st := store st 2 5 0 v in
  store st 2 4 0 v.

(** [ws[4][5][num_dat[4]] = ws[5][5][num_dat[5]] = ws[1][5][num_dat[1]];] *)
Definition copy_SW_corner (st : state) : state :=
  let v := ws st 1 5 (num_dat st 1) in
  let st := store st 5 5 (num_dat st 5) v in
  store st 4 5 (num_dat st 4) v.

(** [ws[2][5][num_dat[2]]= ws[5][4][0]= ws[5][5][0]= ws[0][5][0];] *)
Definition copy_NW_corner (st : state) : state :=
  let v := ws st 0 5 0 in
  let st := store st 5 5 0 v in
  let st := store st 5 4 0 v in
  store st 2 5 (num_dat st 2) v.

(** [ws[3][5][num_dat[3]] = ws[4][4][0] = ws[4][5][0] = ws[0][5][num_dat[0]];] *)
Definition copy_SE_corner (st : state) : state :=
  let v := ws st 0 5 (num_dat st 0) in
  let st := store st 4 5 0 v in
  let st := store st 4 4 0 v in
  store st 3 5 (num_dat st 3) v.

Definition seed_perimeter (st : state) : state :=
  let st := copy_NE_corner st in
  let st := copy_SW_corner st in
  let st := copy_NW_corner st in
  copy_SE_corner st.

Definition seed_center (st : state) : state :=
  (* Copy midpoints of perimeter E-W (East end) *)
  let v := mid_value st 3 5 in
  let st := store st 6 5 0 v in
  let st := store st 6 4 0 v in
  (* Copy E-W (West end) *)
  let st := store st 6 5 (num_dat st 6) (mid_value st 5 5) in
  (* Copy N-S (North end) *)
  let v := mid_value st 2 5 in
  let st := store st 7 5 0 v in
  let st := store st 7 4 0 v in
  (* Copy N-S (South end) *)
  store st 7 5 (num_dat st 7) (mid_value st 4 5).

Definition solve_lines (st : state) : state :=
  (* Step through all eight worksheets, doing first four columns *)
  let st := for_up first_four_columns 0 7 st in
  (* Moody columns 5 and 6 for diagonal lines *)
  let st := for_up diagonal_correction 0 1 st in
  (* Moody columns 5 and 6 for perimeter lines *)
  let st := seed_perimeter st in
  let st := for_up shift_lines 2 5 st in
  (* Moody columns 5 and 6 for center lines *)
  let st := seed_center st in
  for_up shift_lines 6 7 st.

(** *** Columns 7 and 8

    The part of [main] from [return_low_and_high_point] to the loop
    filling column 8. *)

Definition column7 (lowest : float) (src : nat) (i : nat) (st : state)
  : state :=
  for_up (fun j st => store st i 6 j (fsub (ws st i src j) lowest))
         0 (num_dat st i) st.

Definition column8 (i : nat) (st : state) : state :=
  for_up (fun j st =>
            store st i 7 j
                  (fmul (fmul (ws st i 6 j) arcsec) (foot_spacing st)))
         0 (num_dat st i) st.

(** [foot_spacing *= 1000.0] or [foot_spacing *= 100000.0] *)
Definition scale_foot_spacing (st : state) : state :=
  if negb (metric st =? 0)%Z
  then set_foot_spacing st
         (to_float (dmul (to_double (foot_spacing st)) (dlit 1000 1)))
  else set_foot_spacing st
         (to_float (dmul (to_double (foot_spacing st)) (dlit 100000 1))).

Definition columns_7_8 (lowest : float) (st : state) : state :=
  (* For diagonals and perimeter lines *)
  let st := for_up (column7 lowest 5) 0 5 st in
  (* and for the center lines *)
  let st := for_up (column7 lowest 8) 6 7 st in
  (* To convert from angle to distance *)
  let st := scale_foot_spacing st in
  (* Now fill in column 8 *)
  for_up column8 0 7 st.

(** The low point found by [return_low_and_high_point], then columns 7
    and 8. *)
Definition normalize (st : state) : state :=
  columns_7_8 (fst (return_low_and_high_point st)) st.

(** *** [do_moody_consistency_checks] *)

(** What the function prints, apart from the fixed banner text. *)
Inductive message : Type :=
| Height_microns (fname : string) (v : double)
| Height_micro_inches (fname : string) (v : double)
| Warning_errors_too_large
| Errors_acceptable.

(** [float error = mid_value(i, 5)*arcsec*foot_spacing;] *)
Definition center_error (st : state) (i : nat) : float :=
  fmul (fmul (mid_value st i 5) arcsec) (foot_spacing st).

(** The test that sets [printwarning]. *)
Definition out_of_tolerance (st : state) (i : nat) : bool :=
  if negb (metric st =? 0)%Z
  then dlt (dlit 254 100) (dabs (to_double (center_error st i)))
  else dlt (dlit 10 1) (dabs (to_double (center_error st i))).

Definition check_center (st : state) (i : nat) (acc : bool * list message)
  : bool * list message :=
  let error := center_error st i in
  let line :=
    if negb (metric st =? 0)%Z
    then Height_microns (filename i) (to_double error)
    else Height_micro_inches (filename i)
           (to_double (fmul (float_of_int 10) error)) in
  (if out_of_tolerance st i then true else fst acc, snd acc ++ [line]).

Definition do_moody_consistency_checks (st : state) : list message :=
  let acc := for_up (check_center st) 6 7 (false, []) in
  snd acc ++ [if fst acc then Warning_errors_too_large
              else Errors_acceptable].

(** *** [main]

    The numerical part of [main], from the first [read_data] to the call
    of [output_gnuplot].  [st] is the state [read_config_file] leaves
    behind ([metric] and [foot_spacing] set).  The result is the final
    state of the globals, the diagnostics of [do_moody_consistency_checks]
    and the height handed to [output_gnuplot].  The station-count
    warnings of [do_consistency_checks], the tables and the gnuplot
    files do not change the globals; they, and the exits of
    [read_config_file] and [output_gnuplot], are part of [moody] below,
    the whole program. *)

Fixpoint read_files (fs : files) (n i : nat) (st : state) : fatal + state :=
  match n with
  | O => inr st
  | S n' =>
      match read_data fs i st with
      | inl e => inl e
      | inr st => read_files fs n' (S i) st
      end
  end.

Definition main (fs : files) (st : state)
  : fatal + (state * list message * float) :=
  match read_files fs 8 0 st with
  | inl e => inl e
  | inr st =>
      let st := solve_lines st in
      let '(lowest, highest) := return_low_and_high_point st in
      let st := columns_7_8 lowest st in
      let out := do_moody_consistency_checks st in
      let highest :=
        fmul (fmul (fsub highest lowest) arcsec) (foot_spacing st) in
      inr (st, out, highest)
  end.
End Moody.

(** ** Notions used to state the worksheet laws *)

Local Open Scope nat_scope.

Section Notions.
Context {A : CArith}.
Variable sscanf_f : string -> option float.
Implicit Types st : state.

(** Two states that differ in worksheet cells only. *)
Definition same_globals st st' : Prop :=
  num_dat st' = num_dat st /\ metric st' = metric st
  /\ foot_spacing st' = foot_spacing st.

(** The slope [a] and intercept [b] as the source computes them. *)
Definition slope st (w : nat) : float :=
  to_float (ddiv (dmul (dlit (-1) 1)
                       (to_double (ws st w 3 (num_dat st w))))
                 (double_of_int (Z.of_nat (num_dat st w)))).

Definition intercept st (w : nat) : float :=
  to_float (dsub (dmul (dlit 5 10)
                       (to_double (ws st w 3 (num_dat st w))))
                 (to_double (mid_value st w 3))).

(** The uniform correction factor, computed after the endpoint shift
    has been stored. *)
Definition correction_factor st (w : nat) : float :=
  let ndat := num_dat st w in
  let st1 := store st w 4 ndat (fsub (ws st w 5 ndat) (ws st w 3 ndat)) in
  fdiv (fsub (ws st1 w 4 0) (ws st1 w 4 ndat)) (float_of_int (Z.of_nat ndat)).

Definition is_center (w : nat) : bool := (w =? 6) || (w =? 7).

(** [m] is a lowest point of the plate: it is the selected value of some
    station of some line, and no station of any line lies below it. *)
Definition is_lowest st (m : float) : Prop :=
  (exists i j, i <= 7 /\ j <= num_dat st i /\ m = selected st i j)
  /\ (forall i j, i <= 7 -> j <= num_dat st i ->
         flt (selected st i j) m = false).

(** [foot_spacing] after the unit conversion. *)
Definition scaled_foot_spacing st : float :=
  if negb (metric st =? 0)%Z
  then to_float (dmul (to_double (foot_spacing st)) (dlit 1000 1))
  else to_float (dmul (to_double (foot_spacing st)) (dlit 100000 1)).

(** The buffers that are neither blank nor comments. *)
Definition data_lines (bufs : list string) : list string :=
  filter (fun buf =>
            negb (comment_or_end (skip_space (guarantee_newline buf))))
         bufs.

(** Every data line holds one number and nothing else. *)
Definition all_parse (bufs : list string) : Prop :=
  Forall (fun buf => sscanf_f (skip_space (guarantee_newline buf)) <> None)
         (data_lines bufs).

(** The state of [main] once both diagonals are solved, before the
    corners are copied to the perimeter lines. *)
Definition diagonals_solved st : state :=
  for_up diagonal_correction 0 1 (for_up first_four_columns 0 7 st).

(** The numbers a file holds, in order: what [sscanf] converts on its
    data lines. *)
Definition parsed (bufs : list string) : list (option float) :=
  map (fun buf => sscanf_f (skip_space (guarantee_newline buf)))
      (data_lines bufs).

(** The middle value as the worksheet instructions word it: for an even
    station count the element at index N/2, for an odd one the average
    of the elements at indices (N-1)/2 and (N+1)/2. *)
Definition middle (N : nat) (col : nat -> float) : float :=
  if Nat.even N
  then col (N / 2)%nat
  else to_float (dmul (dlit 5 10)
                      (to_double (fadd (col ((N - 1) / 2)%nat)
                                       (col ((N + 1) / 2)%nat)))).



(** The claim that the two ends of column 6 are symmetric about its
    middle value: (col6[0] + col6[N])/2 = middle(col6). *)
Definition ends_symmetric_about_middle st (w : nat) : Prop :=
  fdiv (fadd (col6 st w 0) (col6 st w (num_dat st w))) (float_of_int 2)
  = mid_value st w 5.
End Notions.

(** ** The two arithmetics *)

(** *** IEEE 754: [float] is binary32, [double] is binary64

    Operations are those of the standard library's executable
    specification of IEEE arithmetic (round to nearest, ties to even), as
    a compiler evaluating each operation in the precision of its operand
    type produces them. *)
Module IEEE.
Definition prec32 : Z := 24.
Definition emax32 : Z := 128.
Definition prec64 : Z := 53.
Definition emax64 : Z := 1024.

(** Conversion between formats: exact when widening, rounded when
    narrowing. *)
Definition convert (prec emax : Z) (x : spec_float) : spec_float :=
  match x with
  | S754_finite s m e => binary_round prec emax s m e
  | _ => x
  end.

Definition of_int (prec emax : Z) (n : Z) : spec_float :=
  binary_normalize prec emax n 0 false.

Definition literal (n : Z) (d : positive) : spec_float :=
  SFdiv prec64 emax64 (of_int prec64 emax64 n) (of_int prec64 emax64 (Zpos d)).

(** Zero or finite: neither an infinity nor a NaN. *)
Definition is_number (x : spec_float) : bool :=
  match x with
  | S754_zero _ | S754_finite _ _ _ => true
  | _ => false
  end.

Lemma SFltb_irrefl (x : spec_float) : SFltb x x = false.
Proof.
  unfold SFltb, SFcompare.
  destruct x as [s|s| |s m e]; try destruct s; try reflexivity;
    rewrite Z.compare_refl, Pos.compare_cont_refl; reflexivity.
Qed.

Lemma SFltb_trans (x y z : spec_float) :
  SFltb x y = true -> SFltb y z = true -> SFltb x z = true.
Proof.
  unfold SFltb, SFcompare.
  destruct x as [sx|sx| |sx mx ex], y as [sy|sy| |sy my ey],
           z as [sz|sz| |sz mz ez];
    try destruct sx; try destruct sy; try destruct sz;
    try reflexivity; try discriminate;
    fold (Pos.compare mx my); fold (Pos.compare my mz);
    fold (Pos.compare mx mz);
    destruct (Z.compare_spec ex ey); destruct (Z.compare_spec ey ez);
    destruct (Z.compare_spec ex ez);
    try discriminate; try reflexivity; try lia;
    destruct (Pos.compare_spec mx my); destruct (Pos.compare_spec my mz);
    destruct (Pos.compare_spec mx mz);
    simpl; try discriminate; try reflexivity; try lia.
Qed.

Definition arith : CArith := {|
  float := spec_float;
  double := spec_float;
  fadd := SFadd prec32 emax32;
  fsub := SFsub prec32 emax32;
  fmul := SFmul prec32 emax32;
  fdiv := SFdiv prec32 emax32;
  flt := SFltb;
  float_of_int := of_int prec32 emax32;
  to_double := convert prec64 emax64;
  to_float := convert prec32 emax32;
  dsub := SFsub prec64 emax64;
  dmul := SFmul prec64 emax64;
  ddiv := SFdiv prec64 emax64;
  dlt := SFltb;
  dabs := SFabs;
  double_of_int := of_int prec64 emax64;
  dlit := literal;
  flt_irrefl := SFltb_irrefl;
  flt_trans := SFltb_trans
|}.
End IEEE.

(** *** Exact arithmetic: both types are the rationals *)
Module Exact.
Definition Qcltb (x y : Qc) : bool :=
  match (x ?= y)%Qc with Lt => true | _ => false end.

Lemma Qcltb_irrefl (x : Qc) : Qcltb x x = false.
Proof.
  unfold Qcltb. rewrite (proj1 (Qceq_alt x x) eq_refl). reflexivity.
Qed.

Lemma Qcltb_lt (x y : Qc) : Qcltb x y = true <-> (x < y)%Qc.
Proof.
  unfold Qcltb. rewrite Qclt_alt.
  destruct (x ?= y)%Qc; split; congruence.
Qed.

Lemma Qcltb_trans (x y z : Qc) :
  Qcltb x y = true -> Qcltb y z = true -> Qcltb x z = true.
Proof. rewrite !Qcltb_lt. apply Qclt_trans. Qed.

Definition Qcabs (x : Qc) : Qc := if Qcltb x 0 then (- x)%Qc else x.

(** The value of the constant [0.5]. *)
Definition half : Qc := Q2Qc (5 # 10).

(** The station index [n] as a rational. *)
Definition rat (n : nat) : Qc := Q2Qc (inject_Z (Z.of_nat n)).

Definition arith : CArith := {|
  float := Qc;
  double := Qc;
  fadd := Qcplus;
  fsub := Qcminus;
  fmul := Qcmult;
  fdiv := Qcdiv;
  flt := Qcltb;
  float_of_int := fun n => Q2Qc (inject_Z n);
  to_double := fun x => x;
  to_float := fun x => x;
  dsub := Qcminus;
  dmul := Qcmult;
  ddiv := Qcdiv;
  dlt := Qcltb;
  dabs := Qcabs;
  double_of_int := fun n => Q2Qc (inject_Z n);
  dlit := fun n d => Q2Qc (n # d);
  flt_irrefl := Qcltb_irrefl;
  flt_trans := Qcltb_trans
|}.
End Exact.

(** ** Sample input

    A stand-in for the [%f] conversion that understands optionally
    signed decimal integers followed by white space only, and a few small
    plates written the way the data files are. *)
Module Sample.
Definition digit (c : ascii) : option Z :=
  let n := nat_of_ascii c in
  if (48 <=? n) && (n <=? 57) then Some (Z.of_nat (n - 48)) else None.

Fixpoint all_space (s : string) : bool :=
  match s with
  | EmptyString => true
  | String c rest => isspace c && all_space rest
  end.

Fixpoint scan_digits (s : string) (acc : Z) : option Z :=
  match s with
  | EmptyString => Some acc
  | String c rest =>
      match digit c with
      | Some d => scan_digits rest (10 * acc + d)
      | None => if all_space s then Some acc else None
      end
  end.

Definition scan_int (s : string) : option Z :=
  match s with
  | String c rest =>
      match digit c with
      | Some _ => scan_digits s 0
      | None =>
          if (nat_of_ascii c =? 45)
          then match rest with
               | String d _ =>
                   match digit d with
                   | Some _ => option_map Z.opp (scan_digits rest 0)
                   | None => None
                   end
               | EmptyString => None
               end
          else None
      end
  | EmptyString => None
  end.

Definition sscanf_int {A : CArith} (s : string) : option float :=
  option_map float_of_int (scan_int s).

(** Text lines as [fgets] returns them, newline included. *)
Definition text (lines : list string) : list string :=
  map (fun l => (l ++ String (ascii_of_nat 10) EmptyString)%string) lines.

(** The globals after [read_config_file] has read "M x" or "I x". *)
Definition after_config {A : CArith} (M : bool) (spacing : Z) : state :=
  mkState (ws initial_state) (num_dat initial_state)
          (if M then 1%Z else 0%Z) (float_of_int spacing).

(** Metric mode with a foot spacing of 66 mm. *)
Definition start {A : CArith} : state := after_config true 66.

(** Every line reads 0, 10, 20. *)
Definition ramp : files :=
  fun _ => Some (text ["0"; "10"; "20"]%string).

(** A flat plate, except for one reading of 40 on the E_W center line. *)
Definition bump : files :=
  fun i =>
    match i with
    | 6 => Some (text ["# E_W"; "0"; "40"; "0"; "0"]%string)
    | _ => Some (text ["0"; "0"; "0"; "0"]%string)
    end.

(** Readings 5, 7, 9 on every line. *)
Definition steps : files :=
  fun _ => Some (text ["5"; "7"; "9"]%string).

(** A file of [n] data lines, each reading 0. *)
Definition zeros (n : nat) : files :=
  fun _ => Some (text (repeat "0"%string n)).

(** Empty worksheets for eight lines of [n] readings each. *)
Definition blank {A : CArith} (n : nat) : state :=
  mkState (ws initial_state) (fun _ => n) 1%Z (float_of_int 66).

(** The result of a run that did not fail. *)
Definition final {A : CArith} (r : fatal + (state * list message * float))
  : state * list message * float :=
  match r with
  | inr x => x
  | inl _ => (initial_state, [], float_of_int 0)
  end.

Definition read_state {A : CArith} (r : fatal + state) : state :=
  match r with
  | inr s => s
  | inl _ => initial_state
  end.

Definition is_inr {X Y : Type} (r : X + Y) : bool :=
  match r with inr _ => true | inl _ => false end.


Definition is_some {X : Type} (o : option X) : bool :=
  match o with Some _ => true | None => false end.

(** Readings large enough for binary32 rounding to show. *)
Definition wide : files :=
  fun _ => Some (text ["0"; "4000019"; "9333269"]%string).

End Sample.

(** ** The configuration file, the station-count checks and the plot *)

(** The three ways [read_config_file] calls [exit(EXIT_FAILURE)]. *)
Inductive config_fatal : Type :=
| Config_unable_to_open (fname : string)
| Config_unable_to_parse (file_line : nat) (fname : string)
| Config_must_specify (fname : string).

(** The warnings of [do_consistency_checks]. *)
Inductive count_warning : Type :=
| Diagonals_differ (f1 f2 : string)
| Lines_differ (f1 f2 f3 : string)
| Pythagoras_deviates (x y z : nat).

Section Surroundings.
Context {A : CArith}.

(** The conversion [sscanf(head, "%c %f %s\n", &flag, &foot_spacing,
    remaining)] of the C library: [Some (flag, x)] when it returns 2 (a
    character, a number and nothing after them), [None] for every other
    return value. *)
Variable sscanf_cf : string -> option (ascii * float).

(** The conversion [sscanf(head, "%f%s\n", &x, remaining)], as in
    [read_data]. *)
Variable sscanf_f : string -> option float.

(** [sqrt] of the C library, on [double]. *)
Variable sqrt : double -> double.

(** Addition of two [double]s, and the conversion [(int)] of a [double],
    which discards the fractional part. *)
Variable dadd : double -> double -> double.
Variable int_of_double : double -> Z.

(** The conversion [(int)] of a [float]. *)
Variable int_of_float : float -> Z.

(** Whether [fopen(fname, "w")] gives a stream. *)
Variable fopen_w : string -> bool.

(** *** [read_config_file] *)

Definition set_metric (st : state) (m : Z) : state :=
  mkState (ws st) (num_dat st) m (foot_spacing st).

(** [const char fname[]="Config.txt";] *)
Definition config_fname : string := "Config.txt".

(** [flag == 'M'] and [flag == 'I'] *)
Definition is_M (flag : ascii) : bool := (nat_of_ascii flag =? 77)%nat.
Definition is_I (flag : ascii) : bool := (nat_of_ascii flag =? 73)%nat.

(** The [while (fgets(...))] loop of [read_config_file]; falling out of
    the loop is the must-specify error. *)
Fixpoint config_loop (bufs : list string) (file_line : nat) (st : state)
  : config_fatal + state :=
  match bufs with
  | [] => inl (Config_must_specify config_fname)
  | buf :: rest =>
      let file_line := S file_line in
      let buf := guarantee_newline buf in
      let head := skip_space buf in
      if comment_or_end head
      then config_loop rest file_line st
      else
        match sscanf_cf head with
        | Some (flag, x) =>
            if negb (is_M flag || is_I flag)
            then inl (Config_unable_to_parse file_line config_fname)
            else
              if is_M flag
              then inr (set_metric (set_foot_spacing st x) 1)
              else inr (set_metric (set_foot_spacing st x) 0)
        | None => inl (Config_unable_to_parse file_line config_fname)
        end
  end.

(** [cfg] is what [fopen]/[fgets] give for Config.txt. *)
Definition read_config_file (cfg : option (list string)) (st : state)
  : config_fatal + state :=
  match cfg with
  | None => inl (Config_unable_to_open config_fname)
  | Some bufs => config_loop bufs 0 st
  end.

(** *** [do_consistency_checks] *)

(** The first loop: the three lines running the same way should have
    the same number of stations. *)
Definition check_three_lines (st : state) (i : nat) (out : list count_warning)
  : list count_warning :=
  let stat1 := (2 + i)%nat in
  let stat2 := (4 + i)%nat in
  let stat3 := (6 + i)%nat in
  if negb (num_dat st stat1 =? num_dat st stat2)%nat
     || negb (num_dat st stat2 =? num_dat st stat3)%nat
     || negb (num_dat st stat1 =? num_dat st stat3)%nat
  then out ++ [Lines_differ (filename stat1) (filename stat2) (filename stat3)]
  else out.

(** [float diag_len = sqrt((float)x*(float)x+(float)y*(float)y);] *)
Definition diag_len (x y : nat) : float :=
  to_float
    (sqrt (to_double
             (fadd (fmul (float_of_int (Z.of_nat x)) (float_of_int (Z.of_nat x)))
                   (fmul (float_of_int (Z.of_nat y))
                         (float_of_int (Z.of_nat y)))))).

(** [fabs(diag_len - z) > 1.5] *)
Definition off_pythagoras (x y z : nat) : bool :=
  dlt (dlit 15 10)
      (dabs (to_double (fsub (diag_len x y) (float_of_int (Z.of_nat z))))).

(** The second loop: data sets 2,3,0 and 4,5,1. *)
Definition check_pythagoras (st : state) (i : nat) (out : list count_warning)
  : list count_warning :=
  let x := num_dat st (2 * i + 2) in
  let y := num_dat st (2 * i + 3) in
  let z := num_dat st i in
  if off_pythagoras x y z then out ++ [Pythagoras_deviates x y z] else out.

Definition do_consistency_checks (st : state) : list count_warning :=
  let out :=
    if negb (num_dat st 0 =? num_dat st 1)%nat
    then [Diagonals_differ (filename 0) (filename 1)]
    else [] in
  let out := for_up (check_three_lines st) 0 1 out in
  for_up (check_pythagoras st) 0 1 out.

(** *** [max] *)

Definition max (a b c : Z) : Z :=
  let max := a in
  let max := if (max <? b)%Z then b else max in
  let max := if (max <? c)%Z then c else max in
  max.

(** *** [output_gnuplot] *)

(** One line of gnuplot.dat: ["%f %f %f\n"]. *)
Definition point : Type := float * float * float.

(** One block of gnuplot.dat: the comment line naming the data file and
    the points under it. *)
Definition block : Type := string * list point.

(** [int max_x = max(num_dat[2], num_dat[4], num_dat[6]);] *)
Definition max_x (st : state) : Z :=
  max (Z.of_nat (num_dat st 2)) (Z.of_nat (num_dat st 4))
      (Z.of_nat (num_dat st 6)).

(** [int max_y = max(num_dat[3], num_dat[5], num_dat[7]);] *)
Definition max_y (st : state) : Z :=
  max (Z.of_nat (num_dat st 3)) (Z.of_nat (num_dat st 5))
      (Z.of_nat (num_dat st 7)).

(** [extent*((float)(max-j))/max] *)
Definition from_far_end (extent : Z) (max j : nat) : float :=
  fdiv (fmul (float_of_int extent) (float_of_int (Z.of_nat (max - j))))
       (float_of_int (Z.of_nat max)).

(** [extent*((float)j)/max] *)
Definition from_near_end (extent : Z) (max j : nat) : float :=
  fdiv (fmul (float_of_int extent) (float_of_int (Z.of_nat j)))
       (float_of_int (Z.of_nat max)).

(** The body of the loop over the two diagonals. *)
Definition diagonal_block (st : state) (i : nat) : block :=
  let max := num_dat st i in
  (filename i,
   for_up (fun j out =>
             let y := from_far_end (max_y st) max j in
             let x0 := from_near_end (max_x st) max j in
             let x1 := from_far_end (max_x st) max j in
             out ++ [((if (i =? 0)%nat then x0 else x1), y, ws st i 7 j)])
          0 max []).

(** The body of the loop over the three East to West lines. *)
Definition east_west_block (st : state) (i : nat) : block :=
  let max := num_dat st i in
  let y :=
    if (i =? 2)%nat then float_of_int (max_y st)
    else if (i =? 4)%nat then float_of_int 0
    else to_float (dmul (dlit 5 10) (double_of_int (max_y st))) in
  (filename i,
   for_up (fun j out =>
             let x := from_far_end (max_x st) max j in
             out ++ [(x, y, ws st i 7 j)])
          0 max []).

(** The body of the loop over the three North to South lines. *)
Definition north_south_block (st : state) (i : nat) : block :=
  let max := num_dat st i in
  let x :=
    if (i =? 3)%nat then float_of_int (max_x st)
    else if (i =? 5)%nat then float_of_int 0
    else to_float (dmul (dlit 5 10) (double_of_int (max_x st))) in
  (filename i,
   for_up (fun j out =>
             let y := from_far_end (max_y st) max j in
             out ++ [(x, y, ws st i 7 j)])
          0 max []).

(** The blocks of gnuplot.dat, in the order they are written: the two
    diagonals, then [for (i=2; i<=6; i+=2)], then [for (i=3; i<=7; i+=2)]. *)
Definition gnuplot_dat (st : state) : list block :=
  let out := for_up (fun i out => out ++ [diagonal_block st i]) 0 1 [] in
  let out :=
    for_up (fun k out => out ++ [east_west_block st (2 + 2 * k)]) 0 2 out in
  for_up (fun k out => out ++ [north_south_block st (3 + 2 * k)]) 0 2 out.

(** What gnuplot.cmd says, apart from its fixed text: where the four
    labels go, the z range, the z label and the three ranges of the
    [splot] command. *)
Record plot_commands : Type := mkCommands {
  label_N : double * double * double;
  label_S : double * double * double;
  label_E : double * double * double;
  label_W : double * double * double;
  zrange : Z;
  zlabel : option string;
  splot_ranges : Z * Z * Z
}.

(** [const char *zlabels[2]] *)
Definition zlabels : list string :=
  ["height\nin\ntens of\nmicroinch"; "height\nin\nmicrons"]%string.

(** [int max_z = (int)(1.0+biggest);] *)
Definition max_z (biggest : float) : Z :=
  int_of_double (dadd (dlit 1 1) (to_double biggest)).

(** The arguments of the [fprintf] that writes gnuplot.cmd.
    [zlabels[metric]] is [None] when [metric] is not an index of the
    array. *)
Definition gnuplot_cmd (st : state) (biggest : float) : plot_commands :=
  mkCommands
    (dmul (dlit 5 10) (double_of_int (max_x st)),
     dmul (dlit 11 10) (double_of_int (max_y st)), dlit 0 1)
    (dmul (dlit 5 10) (double_of_int (max_x st)),
     dmul (dlit (-1) 10) (double_of_int (max_y st)), dlit 0 1)
    (dmul (dlit 11 10) (double_of_int (max_x st)),
     dmul (dlit 5 10) (double_of_int (max_y st)), dlit 0 1)
    (dmul (dlit (-1) 10) (double_of_int (max_x st)),
     dmul (dlit 5 10) (double_of_int (max_y st)), dlit 0 1)
    (max_z biggest)
    (if (0 <=? metric st)%Z && (metric st <? 2)%Z
     then nth_error zlabels (Z.to_nat (metric st)) else None)
    (max_x st, max_y st, max_z biggest).

(** The two ways [output_gnuplot] calls [exit(EXIT_FAILURE)]:
    gnuplot.cmd cannot be opened for writing, or gnuplot.dat cannot, and
    then gnuplot.cmd has been written. *)
Inductive plot_fatal : Type :=
| Unable_to_write_cmd (fname : string)
| Unable_to_write_dat (fname : string) (cmd : plot_commands).

Definition plot_fatal_names (e : plot_fatal) : string :=
  match e with
  | Unable_to_write_cmd f => f
  | Unable_to_write_dat f _ => f
  end.

(** Both files, each opened, written and closed in turn. *)
Definition output_gnuplot (st : state) (biggest : float)
  : plot_fatal + plot_commands * list block :=
  let fname := "gnuplot.cmd"%string in
  if negb (fopen_w fname) then inl (Unable_to_write_cmd fname)
  else
    let cmd := gnuplot_cmd st biggest in
    let fname := "gnuplot.dat"%string in
    if negb (fopen_w fname) then inl (Unable_to_write_dat fname cmd)
    else inr (cmd, gnuplot_dat st).

(** *** [print_table] *)

(** The four headings, line by line: without and with column 6a, for
    inches ([h1], [h2]) and for metric units ([h3], [h4]). *)
Definition h1 : list string :=
  ["   1       2       3       4       5       6       7       8   ";
   "---------------------------------------------------------------";
   "Station  Auto-   Angle  Sum of   Cumul   Delta   Delta   Delta ";
   " Num-    Corr    Displ   Displ   Corr    Datum    Base    Base ";
   " ber    ArcSec  ArcSec  ArcSec   Factor  ArcSec  ArcSec 10^-5in";
   "---------------------------------------------------------------"]%string.

Definition h2 : list string :=
  ["   1       2       3       4       5       6       6a      7       8   ";
   "-----------------------------------------------------------------------";
   "Station  Auto-   Angle  Sum of   Cumul   Delta    Error  Delta   Delta ";
   " Num-    Corr    Displ   Displ   Corr    Datum    Shift   Base    Base ";
   " ber    ArcSec  ArcSec  ArcSec   Factor  ArcSec    Out   ArcSec 10^-5in";
   "-----------------------------------------------------------------------"]%string.

Definition h3 : list string :=
  ["   1       2       3       4       5       6       7       8   ";
   "---------------------------------------------------------------";
   "Station  Auto-   Angle  Sum of   Cumul   Delta   Delta   Delta ";
   " Num-    Corr    Displ   Displ   Corr    Datum    Base    Base ";
   " ber    ArcSec  ArcSec  ArcSec   Factor  ArcSec  ArcSec  micron";
   "---------------------------------------------------------------"]%string.

Definition h4 : list string :=
  ["   1       2       3       4       5       6       6a      7       8   ";
   "-----------------------------------------------------------------------";
   "Station  Auto-   Angle  Sum of   Cumul   Delta    Error  Delta   Delta ";
   " Num-    Corr    Displ   Displ   Corr    Datum    Shift   Base    Base ";
   " ber    ArcSec  ArcSec  ArcSec   Factor  ArcSec    Out   ArcSec  micron";
   "-----------------------------------------------------------------------"]%string.

(** One line of a table: the station number printed with ["%6d"] and the
    cells printed with ["%8.1f"], columns 2 to 6, then 6a for the two
    center lines, then 7 and 8. *)
Definition table_row (st : state) (which_file j : nat) : Z * list float :=
  (int_of_float (ws st which_file 0 j),
   for_up (fun i out => out ++ [ws st which_file i j]) 1 5 []
   ++ (if (5 <? which_file)%nat then [ws st which_file 8 j] else [])
   ++ for_up (fun i out => out ++ [ws st which_file i j]) 6 7 []).

(** The table of one line: the file name after the word TABLE, the
    heading and the rows. *)
Definition print_table (st : state) (which_file : nat)
  : string * list string * list (Z * list float) :=
  let header1 := if negb (metric st =? 0)%Z then h3 else h1 in
  let header2 := if negb (metric st =? 0)%Z then h4 else h2 in
  (filename which_file,
   (if (which_file <? 6)%nat then header1 else header2),
   for_up (fun j out => out ++ [table_row st which_file j])
          0 (num_dat st which_file) []).

(** *** The whole of [main]

    From [read_config_file] to [output_gnuplot], the licence text left
    out.  A run ends in one of the fatal errors or with everything the
    program has computed and printed. *)
Record results : Type := mkResults {
  worksheets : state;
  count_warnings : list count_warning;
  verdict : list message;
  tables : list (string * list string * list (Z * list float));
  plot : plot_commands * list block
}.

(** Where a run that calls [exit(EXIT_FAILURE)] does so; the exit in
    [output_gnuplot] comes after everything else has been computed and
    printed. *)
Inductive exit_failure : Type :=
| In_read_config_file (e : config_fatal)
| In_read_data (e : fatal)
| In_output_gnuplot
    (e : plot_fatal) (worksheets : state)
    (count_warnings : list count_warning) (verdict : list message)
    (tables : list (string * list string * list (Z * list float))).

Definition moody (cfg : option (list string)) (fs : files)
  : exit_failure + results :=
  (* Read configuration file *)
  match read_config_file cfg initial_state with
  | inl e => inl (In_read_config_file e)
  | inr st =>
      (* Read data from input files *)
      match read_files sscanf_f fs 8 0 st with
      | inl e => inl (In_read_data e)
      | inr st =>
          (* Check for consistency of the input data *)
          let warnings := do_consistency_checks st in
          let st := solve_lines st in
          let '(lowest, highest) := return_low_and_high_point st in
          let st := columns_7_8 lowest st in
          (* Check if the middle of the center lines falls at zero *)
          let out := do_moody_consistency_checks st in
          (* Print out the completed worksheet *)
          let printed :=
            for_up (fun i printed => printed ++ [print_table st i]) 0 7 [] in
          (* Maximum height over plate, with units *)
          let highest :=
            fmul (fmul (fsub highest lowest) arcsec) (foot_spacing st) in
          (* Output a surface plot *)
          match output_gnuplot st highest with
          | inl e => inl (In_output_gnuplot e st warnings out printed)
          | inr written => inr (mkResults st warnings out printed written)
          end
      end
  end.
End Surroundings.

(** *** Library functions for the two arithmetics *)

(** The 32-bit [int] of the program. *)
Definition INT_MIN : Z := (- 2 ^ 31)%Z.
Definition INT_MAX : Z := (2 ^ 31 - 1)%Z.

(** The end of a conversion [(int)x]: the integer part [z] of [x] when
    it is an [int].  C leaves the conversion of any other value
    undefined; the conversion instructions of the x86-64 processors
    (cvttss2si, cvttsd2si) deliver [INT_MIN] then, and that is what the
    compiled program prints. *)
Definition int_of_integer_part (z : Z) : Z :=
  if (INT_MIN <=? z)%Z && (z <=? INT_MAX)%Z then z else INT_MIN.

Module IEEELib.
Import IEEE.

(** [(int)x]: the integer part, rounded toward zero, of a finite [x];
    an infinity or a NaN converts like a value out of range. *)
Definition truncate (x : spec_float) : Z :=
  match x with
  | S754_finite s m e =>
      let n := if (0 <=? e)%Z then Z.shiftl (Zpos m) e
               else Z.shiftr (Zpos m) (- e) in
      int_of_integer_part (if s then (- n)%Z else n)
  | S754_zero _ => 0%Z
  | _ => INT_MIN
  end.

Definition dadd : spec_float -> spec_float -> spec_float :=
  SFadd prec64 emax64.

Definition sqrt : spec_float -> spec_float := SFsqrt prec64 emax64.
End IEEELib.

Module ExactLib.
(** [(int)x]: the integer part, rounded toward zero. *)
Definition truncate (x : Qc) : Z :=
  int_of_integer_part (Z.quot (Qnum x) (Zpos (Qden x))).

Definition dadd : Qc -> Qc -> Qc := Qcplus.

(** The C integer [z] as a rational. *)
Definition int (z : Z) : Qc := Q2Qc (inject_Z z).
End ExactLib.

(** ** More notions used to state the laws *)

Section MoreNotions.
Context {A : CArith}.
Implicit Types st : state.

(** [m] is a highest point of the plate: it is the selected value of
    some station of some line, and no station of any line lies above
    it. *)
Definition is_highest st (m : float) : Prop :=
  (exists i j, i <= 7 /\ j <= num_dat st i /\ m = selected st i j)
  /\ (forall i j, i <= 7 -> j <= num_dat st i ->
         flt m (selected st i j) = false).

(** The sum [x2 + x3 + ... + xj] as the loop of [first_four_columns]
    accumulates it, starting from [0.0]. *)
Definition running_sum (x : nat -> float) (j : nat) : float :=
  fold_left fadd (map x (seq 2 (j - 1))) (to_float (dlit 0 1)).

(** The cells of [ws] that belong to the worksheets: line [i], column
    index [c], station [j] of a line with [num_dat[i]] readings. *)
Definition on_worksheet st (i c j : nat) : Prop :=
  i <= 7 /\ c <= 8 /\ j <= num_dat st i.

(** The block of gnuplot.dat that plots line [i]. *)
Definition line_block st (i : nat) : block :=
  if i <=? 1 then diagonal_block st i
  else if Nat.even i then east_west_block st i
  else north_south_block st i.

(** The point plotted for station [j] of line [i], if there is one. *)
Definition plotted st (i j : nat) : option point :=
  nth_error (snd (line_block st i)) j.

(** The order in which the lines are written to gnuplot.dat. *)
Definition write_order : list nat := [0; 1; 2; 4; 6; 3; 5; 7].
(** Two states with the same globals whose worksheets agree in every
    column but the readings (column 2) and their differences
    (column 3). *)
Definition agree_past_column3 st st' : Prop :=
  (forall i, num_dat st' i = num_dat st i)
  /\ metric st' = metric st
  /\ foot_spacing st' = foot_spacing st
  /\ forall i c j, c <> 1 -> c <> 2 -> ws st' i c j = ws st i c j.

(** A state whose worksheets hold zero in every column past the
    readings; [ws], of static storage duration, starts out like this. *)
Definition zero_past_column2 st : Prop :=
  forall i c j, c <> 0 -> c <> 1 -> ws st i c j = float_of_int 0.
End MoreNotions.

(** ** More sample input *)
Module Fixtures.
Import Sample.

(** White space as the directive [" "] of [sscanf] skips it. *)
Fixpoint skip_white (s : string) : string :=
  match s with
  | String c rest => if isspace c then skip_white rest else s
  | EmptyString => s
  end.

(** A stand-in for the conversion ["%c %f %s"]: one character, white
    space, an optionally signed decimal integer, white space only. *)
Definition sscanf_flag_int {A : CArith} (s : string) : option (ascii * float) :=
  match s with
  | String flag rest =>
      option_map (fun n => (flag, float_of_int n)) (scan_int (skip_white rest))
  | EmptyString => None
  end.

(** A configuration file asking for metric units, 66 mm foot spacing. *)
Definition metric_config : list string :=
  text ["# foot spacing of the reflector"; ""; "M 66"; "I 4"]%string.

(** A configuration file without a data line. *)
Definition empty_config : list string :=
  text ["# nothing here"; "   "]%string.

(** A data file with a comment, a blank line and three readings. *)
Definition commented : list string :=
  text ["# first line"; "0"; ""; "  10"; "20"]%string.


(** A buffer that [fgets] has filled to the last byte with blanks, and
    data files and a configuration file that start with it. *)
Definition full_blank_buffer : string :=
  string_of_list_ascii (repeat (ascii_of_nat 32) (MAX_LINELEN - 1)).

Definition blank_first : files :=
  fun _ => Some (full_blank_buffer :: text ["42"; "7"; "8"]%string).

Definition blank_first_config : list string :=
  full_blank_buffer :: text ["M 66"]%string.

(** One reading of 10^11 arcseconds in the middle of every line. *)
Definition tall : files :=
  fun _ => Some (text ["0"; "100000000000"; "0"]%string).

(** Every line reads 0, 10, 20, but NE_SE.txt is missing. *)
Definition one_missing : files :=
  fun i => match i with
           | 3 => None
           | _ => Some (text ["0"; "10"; "20"]%string)
           end.

(** A sheet whose column 4 is the straight line 2 + 3 j. *)
Definition sloped : @state Exact.arith :=
  @mkState Exact.arith
           (fun _ _ j => (Q2Qc 2 + Q2Qc 3 * Exact.rat j)%Qc)
           (fun _ => 5) 1%Z (Q2Qc 66).

(** The state a successful [read_config_file] returns. *)
Definition configured {A : CArith} (r : config_fatal + state) : state :=
  match r with inr s => s | inl _ => initial_state end.

Definition failure {X Y : Type} (r : X + Y) : option X :=
  match r with inl e => Some e | inr _ => None end.


(** The failure of a run of the whole program that did not complete. *)
Definition failed {A : CArith} (r : exit_failure + results) : exit_failure :=
  match r with
  | inl e => e
  | inr _ => In_read_config_file (Config_must_specify EmptyString)
  end.

(** A directory in which every file can be written, and one in which
    gnuplot.dat cannot. *)
Definition all_writable : string -> bool := fun _ => true.
Definition dat_refused : string -> bool :=
  fun fname => negb (String.eqb fname "gnuplot.dat").

(** The point of a line of gnuplot.dat that was written. *)
Definition written {A : CArith} (p : option point) : point :=
  match p with
  | Some x => x
  | None => (float_of_int 0, float_of_int 0, float_of_int 0)
  end.

(** The readings of [ramp] with the autocollimator zero moved: by 5 on
    the diagonals and by 7 on the other lines. *)
Definition raised : files :=
  fun i =>
    if i <=? 1 then Some (text ["5"; "15"; "25"]%string)
    else Some (text ["7"; "17"; "27"]%string).

(** Constant readings on every line: 4 on the diagonals, 9 elsewhere. *)
Definition level : files :=
  fun i =>
    if i <=? 1 then Some (text ["4"; "4"; "4"]%string)
    else Some (text ["9"; "9"; "9"]%string).
End Fixtures.

(** ** Reasoning about loops *)

Section LoopFacts.
Variable St : Type.
Variable body : nat -> St -> St.

Lemma for_count_inv (P : nat -> St -> Prop) (n : nat) :
  forall j s,
    P j s ->
    (forall k s', j <= k < j + n -> P k s' -> P (S k) (body k s')) ->
    P (j + n) (for_count body n j s).
Proof.
  induction n as [|n IH]; intros j s H0 Hstep; simpl.
  - now rewrite Nat.add_0_r.
  - rewrite <- Nat.add_succ_comm. apply IH.
    + apply Hstep; [lia | assumption].
    + intros k s' Hk. apply Hstep. lia.
Qed.

Lemma for_up_inv (P : nat -> St -> Prop) (lo hi : nat) (s : St) :
  lo <= S hi ->
  P lo s ->
  (forall k s', lo <= k <= hi -> P k s' -> P (S k) (body k s')) ->
  P (S hi) (for_up body lo hi s).
Proof.
  intros Hle H0 Hstep. unfold for_up.
  replace (S hi) with (lo + (S hi - lo)) at 1 by lia.
  apply for_count_inv; [assumption|].
  intros k s' Hk. apply Hstep. lia.
Qed.

Lemma for_up_empty (lo hi : nat) (s : St) :
  hi < lo -> for_up body lo hi s = s.
Proof.
  intros H. unfold for_up. replace (S hi - lo) with 0 by lia. reflexivity.
Qed.

Lemma for_down_inv (P : nat -> St -> Prop) (hi : nat) :
  forall s,
    P hi s ->
    (forall k s', 1 <= k <= hi -> P k s' -> P (k - 1) (body k s')) ->
    P 0 (for_down body hi s).
Proof.
  induction hi as [|hi IH]; intros s H0 Hstep; simpl.
  - assumption.
  - apply IH.
    + replace hi with (S hi - 1) at 1 by lia. apply Hstep; [lia|assumption].
    + intros k s' Hk. apply Hstep. lia.
Qed.
End LoopFacts.

(** ** Facts about the state and the worksheet functions *)

Section Facts.
Context {A : CArith}.
Implicit Types st : state.

Lemma same_globals_refl st : same_globals st st.
Proof. repeat split. Qed.

Lemma same_globals_trans st1 st2 st3 :
  same_globals st1 st2 -> same_globals st2 st3 -> same_globals st1 st3.
Proof.
  intros (a1 & b1 & c1) (a2 & b2 & c2).
  repeat split; congruence.
Qed.

Lemma same_globals_store st i c j v : same_globals st (store st i c j v).
Proof. repeat split. Qed.

Lemma ws_store st i c j v i' c' j' :
  ws (store st i c j v) i' c' j'
  = if (i' =? i)%nat && (c' =? c)%nat && (j' =? j)%nat
    then v else ws st i' c' j'.
Proof. reflexivity. Qed.

Lemma ws_store_same st i c j v : ws (store st i c j v) i c j = v.
Proof. rewrite ws_store, !Nat.eqb_refl. reflexivity. Qed.

Lemma ws_store_other st i c j v i' c' j' :
  i' <> i \/ c' <> c \/ j' <> j ->
  ws (store st i c j v) i' c' j' = ws st i' c' j'.
Proof.
  intros H. rewrite ws_store.
  destruct (Nat.eqb_spec i' i), (Nat.eqb_spec c' c), (Nat.eqb_spec j' j);
    simpl; try reflexivity.
  exfalso. destruct H as [H|[H|H]]; contradiction.
Qed.

(** A loop that writes one cell of column [c] of sheet [i] per
    iteration.  Row [j] receives [f] evaluated in the state of iteration
    [j], which is the initial state overlaid with the rows already
    written. *)
Lemma fill_spec (i c : nat) (f : nat -> state -> float) (lo hi : nat) st :
  let st' := for_up (fun j s => store s i c j (f j s)) lo hi st in
  same_globals st st'
  /\ (forall i' c' j',
         ~ (i' = i /\ c' = c /\ lo <= j' <= hi) ->
         ws st' i' c' j' = ws st i' c' j')
  /\ (forall j, lo <= j <= hi ->
         exists sj,
           ws st' i c j = f j sj
           /\ same_globals st sj
           /\ (forall i' c' j',
                  ~ (i' = i /\ c' = c /\ lo <= j' < j) ->
                  ws sj i' c' j' = ws st i' c' j')
           /\ (forall j', lo <= j' < j -> ws sj i c j' = ws st' i c j')).
Proof.
  intros st'.
  destruct (Nat.le_gt_cases lo (S hi)) as [Hle|Hgt].
  2:{ subst st'. rewrite for_up_empty by lia.
      split; [apply same_globals_refl|]. split; [reflexivity|].
      intros j Hj. lia. }
  set (P := fun (k : nat) (s : state) =>
    same_globals st s
    /\ (forall i' c' j', ~ (i' = i /\ c' = c /\ lo <= j' < k) ->
           ws s i' c' j' = ws st i' c' j')
    /\ (forall j, lo <= j < k ->
           exists sj,
             ws s i c j = f j sj
             /\ same_globals st sj
             /\ (forall i' c' j', ~ (i' = i /\ c' = c /\ lo <= j' < j) ->
                    ws sj i' c' j' = ws st i' c' j')
             /\ (forall j', lo <= j' < j -> ws sj i c j' = ws s i c j'))).
  assert (HP : P (S hi) st').
  { apply for_up_inv; [assumption| |].
    - split; [apply same_globals_refl|]. split; [reflexivity|].
      intros j Hj. lia.
    - intros k s Hk (Hg & Hfr & Hval).
      split; [eapply same_globals_trans; [exact Hg|apply same_globals_store]|].
      split.
      + intros i' c' j' Hn. rewrite ws_store_other.
        * apply Hfr. intros (-> & -> & Hr). apply Hn. repeat split; lia.
        * destruct (Nat.eq_dec i' i) as [->|]; [|now left].
          destruct (Nat.eq_dec c' c) as [->|]; [|now right; left].
          right; right. intros ->. apply Hn. repeat split; lia.
      + intros j Hj. destruct (Nat.eq_dec j k) as [->|Hne].
        * exists s. rewrite ws_store_same. split; [reflexivity|].
          split; [assumption|]. split; [assumption|].
          intros j' Hj'. rewrite ws_store_other by lia. reflexivity.
        * destruct (Hval j) as (sj & E & Hg' & Hfr' & Hprev); [lia|].
          exists sj. rewrite ws_store_other by lia.
          split; [assumption|]. split; [assumption|]. split; [assumption|].
          intros j' Hj'. rewrite ws_store_other by lia. apply Hprev. lia. }
  destruct HP as (Hg & Hfr & Hval).
  split; [assumption|]. split.
  - intros i' c' j' Hn. apply Hfr. intros (-> & -> & Hr). apply Hn.
    repeat split; lia.
  - intros j Hj. apply Hval. lia.
Qed.

(** *** [first_four_columns] *)

Lemma first_four_columns_spec (w : nat) st :
  let N := num_dat st w in
  let st' := first_four_columns w st in
  same_globals st st'
  /\ (forall i c j,
         ~ (i = w /\ (c = 0 \/ c = 2 \/ c = 3)) ->
         ws st' i c j = ws st i c j)
  /\ ws st' w 2 0 = ws st w 2 0
  /\ (forall j, 1 <= j <= N ->
         ws st' w 2 j = fsub (ws st w 1 j) (ws st w 1 1))
  /\ ws st' w 3 0 = to_float (dlit 0 1)
  /\ ws st' w 3 1 = to_float (dlit 0 1)
  /\ (forall j, 2 <= j <= N ->
         ws st' w 3 j = fadd (ws st' w 3 (j - 1)) (ws st' w 2 j)).
Proof.
  intros N st'. subst st'. unfold first_four_columns. fold N.
  destruct (fill_spec w 0 (fun j _ => float_of_int (Z.of_nat j + 1)) 0 N st)
    as (G1 & F1 & _).
  cbv beta zeta in G1, F1.
  set (s1 := for_up _ 0 N st) in *.
  destruct (fill_spec w 2 (fun j s => fsub (ws s w 1 j) (ws s w 1 1)) 1 N s1)
    as (G2 & F2 & V2).
  cbv beta zeta in G2, F2, V2.
  set (s2 := for_up _ 1 N s1) in *.
  set (s3 := store s2 w 3 0 (to_float (dlit 0 1))).
  set (s4 := store s3 w 3 1 (to_float (dlit 0 1))).
  destruct (fill_spec w 3 (fun j s => fadd (ws s w 3 (j - 1)) (ws s w 2 j))
                      2 N s4) as (G5 & F5 & V5).
  cbv beta zeta in G5, F5, V5.
  set (s5 := for_up _ 2 N s4) in *.
  assert (S43 : forall i c j, c <> 3 -> ws s4 i c j = ws s2 i c j).
  { intros i c j Hc. subst s4 s3. rewrite !ws_store_other by lia.
    reflexivity. }
  split.
  { eapply same_globals_trans; [|exact G5].
    eapply same_globals_trans; [exact G1|].
    eapply same_globals_trans; [exact G2|]. repeat split. }
  split.
  { intros i c j Hn. rewrite F5 by lia.
    subst s4 s3. rewrite !ws_store_other by lia.
    rewrite F2 by lia. apply F1. lia. }
  split.
  { rewrite F5 by lia. rewrite S43 by lia. rewrite F2 by lia.
    apply F1. lia. }
  split.
  { intros j Hj. rewrite F5 by lia. rewrite S43 by lia.
    destruct (V2 j Hj) as (sj & E & _ & Fj & _). rewrite E.
    rewrite !Fj by lia. rewrite !F1 by lia. reflexivity. }
  split.
  { rewrite F5 by lia. subst s4 s3.
    rewrite ws_store_other by lia. apply ws_store_same. }
  split.
  { rewrite F5 by lia. subst s4. apply ws_store_same. }
  intros j Hj. destruct (V5 j Hj) as (sj & E & _ & Fj & Pj). rewrite E.
  f_equal.
  - destruct (Nat.eq_dec j 2) as [->|].
    + simpl. rewrite Fj by lia. rewrite F5 by lia. reflexivity.
    + apply Pj. lia.
  - rewrite Fj by lia. rewrite F5 by lia. reflexivity.
Qed.

(** *** [mid_value] *)

Lemma half_le (n : nat) : n / 2 <= n.
Proof. apply Nat.Div0.div_le_upper_bound. lia. Qed.

Lemma half_pred_le (n : nat) : (n - 1) / 2 <= n.
Proof. apply Nat.Div0.div_le_upper_bound. lia. Qed.

Lemma half_succ_le (n : nat) : n mod 2 <> 0 -> (n + 1) / 2 <= n.
Proof.
  intros H. apply Nat.Div0.div_le_upper_bound.
  destruct n; [simpl in H; congruence | lia].
Qed.

(** [mid_value] reads the station count and rows [0..N] of one column. *)
Lemma mid_value_ext st st' (w c c' : nat) :
  num_dat st' w = num_dat st w ->
  (forall j, j <= num_dat st w -> ws st' w c' j = ws st w c j) ->
  mid_value st' w c' = mid_value st w c.
Proof.
  intros HN Hws. unfold mid_value. rewrite HN.
  destruct (Nat.eqb_spec (num_dat st w mod 2) 0) as [E|E].
  - apply Hws, half_le.
  - rewrite !Hws; [reflexivity | now apply half_succ_le | apply half_pred_le].
Qed.

(** *** [diagonal_correction] *)

Lemma diagonal_correction_spec (w : nat) st :
  let N := num_dat st w in
  let st' := diagonal_correction w st in
  same_globals st st'
  /\ (forall i c j,
         ~ (i = w /\ (c = 4 \/ c = 5) /\ j <= N) ->
         ws st' i c j = ws st i c j)
  /\ (forall j, j <= N ->
         ws st' w 4 j
         = fadd (fmul (slope st w) (float_of_int (Z.of_nat j)))
                (intercept st w)
         /\ ws st' w 5 j = fadd (ws st w 3 j) (ws st' w 4 j)).
Proof.
  intros N st'. subst st'. unfold diagonal_correction.
  fold N. fold (slope st w). fold (intercept st w).
  set (val := fun j => fadd (fmul (slope st w) (float_of_int (Z.of_nat j)))
                            (intercept st w)).
  set (P := fun (k : nat) (s : state) =>
    same_globals st s
    /\ (forall i c j, ~ (i = w /\ (c = 4 \/ c = 5) /\ j < k) ->
           ws s i c j = ws st i c j)
    /\ (forall j, j < k ->
           ws s w 4 j = val j /\ ws s w 5 j = fadd (ws st w 3 j) (val j))).
  match goal with |- context [for_up ?b 0 N st] =>
    assert (HP : P (S N) (for_up b 0 N st)) end.
  { apply for_up_inv; [lia| |].
    - split; [apply same_globals_refl|]. split; [reflexivity|].
      intros j Hj. lia.
    - intros k s Hk (Hg & Hfr & Hval).
      split; [eapply same_globals_trans; [exact Hg|repeat split]|].
      split.
      + intros i c j Hn. rewrite !ws_store_other by lia. apply Hfr. lia.
      + intros j Hj. destruct (Nat.eq_dec j k) as [->|Hne].
        * rewrite !ws_store, !Nat.eqb_refl. simpl.
          rewrite Hfr by lia. split; reflexivity.
        * rewrite !ws_store_other by lia. apply Hval. lia. }
  destruct HP as (Hg & Hfr & Hval).
  split; [assumption|]. split.
  - intros i c j Hn. apply Hfr. lia.
  - intros j Hj. destruct (Hval j) as [E4 E5]; [lia|].
    rewrite E4, E5. split; reflexivity.
Qed.

(** *** [shift_lines] *)

Lemma shift_loop_spec (w : nat) (cf : float) (k : nat) st :
  let st' := for_down (shift_body w cf) k st in
  same_globals st st'
  /\ (forall i c j,
         ~ (i = w /\ (c = 4 \/ c = 5) /\ 1 <= j <= k) ->
         ws st' i c j = ws st i c j)
  /\ (forall j, 1 <= j <= k ->
         ws st' w 4 j = fadd (ws st' w 4 (j + 1)) cf
         /\ ws st' w 5 j = fadd (ws st' w 4 j) (ws st w 3 j)).
Proof.
  intros st'. subst st'.
  set (P := fun (m : nat) (s : state) =>
    same_globals st s
    /\ (forall i c j, ~ (i = w /\ (c = 4 \/ c = 5) /\ m < j <= k) ->
           ws s i c j = ws st i c j)
    /\ (forall j, m < j <= k ->
           ws s w 4 j = fadd (ws s w 4 (j + 1)) cf
           /\ ws s w 5 j = fadd (ws s w 4 j) (ws st w 3 j))).
  assert (HP : P 0 (for_down (shift_body w cf) k st)).
  { apply for_down_inv.
    - split; [apply same_globals_refl|]. split; [reflexivity|].
      intros j Hj. lia.
    - intros m s Hm (Hg & Hfr & Hval). unfold shift_body.
      split; [eapply same_globals_trans; [exact Hg|repeat split]|].
      split.
      + intros i c j Hn. rewrite !ws_store_other by lia. apply Hfr. lia.
      + intros j Hj. destruct (Nat.eq_dec j m) as [->|Hne].
        * rewrite !ws_store, !Nat.eqb_refl. simpl.
          replace (m + 1 =? m) with false
            by (symmetry; apply Nat.eqb_neq; lia).
          rewrite (Hfr w 3 m) by lia. split; reflexivity.
        * rewrite !ws_store_other by lia. apply Hval. lia. }
  destruct HP as (Hg & Hfr & Hval).
  split; [assumption|]. split.
  - intros i c j Hn. apply Hfr. lia.
  - intros j Hj. apply Hval. lia.
Qed.

Lemma correction_factor_eq st (w : nat) :
  1 <= num_dat st w ->
  correction_factor st w
  = fdiv (fsub (ws st w 4 0)
               (fsub (ws st w 5 (num_dat st w)) (ws st w 3 (num_dat st w))))
         (float_of_int (Z.of_nat (num_dat st w))).
Proof.
  intros H. unfold correction_factor. cbv zeta.
  rewrite ws_store_same, ws_store_other by lia. reflexivity.
Qed.

Lemma shift_lines_spec (w : nat) st :
  let N := num_dat st w in
  let st' := shift_lines w st in
  same_globals st st'
  /\ (forall i c j,
         ~ (i = w /\ ((c = 4 /\ (1 <= j <= N \/ j = N))
                      \/ (c = 5 /\ 1 <= j <= N - 1)
                      \/ (c = 8 /\ is_center w = true /\ j <= N))) ->
         ws st' i c j = ws st i c j)
  /\ ws st' w 4 N = fsub (ws st w 5 N) (ws st w 3 N)
  /\ (forall j, 1 <= j <= N - 1 ->
         ws st' w 4 j = fadd (ws st' w 4 (j + 1)) (correction_factor st w)
         /\ ws st' w 5 j = fadd (ws st' w 4 j) (ws st w 3 j))
  /\ (is_center w = true ->
       forall j, j <= N ->
         ws st' w 8 j = fsub (ws st' w 5 j) (mid_value st' w 5)).
Proof.
  intros N st'. subst st'. unfold shift_lines. cbv zeta.
  fold N. fold (correction_factor st w). fold (is_center w).
  set (s1 := store st w 4 N (fsub (ws st w 5 N) (ws st w 3 N))).
  destruct (shift_loop_spec w (correction_factor st w) (N - 1) s1)
    as (G2 & F2 & V2). cbv zeta in G2, F2, V2.
  set (s2 := for_down _ (N - 1) s1) in *.
  assert (G12 : same_globals st s2).
  { eapply same_globals_trans; [|exact G2]. repeat split. }
  assert (Fr2 : forall i c j,
             ~ (i = w /\ ((c = 4 /\ (1 <= j <= N \/ j = N))
                          \/ (c = 5 /\ 1 <= j <= N - 1))) ->
             ws s2 i c j = ws st i c j).
  { intros i c j Hn. rewrite F2 by lia. subst s1.
    apply ws_store_other. lia. }
  assert (E4N : ws s2 w 4 N = fsub (ws st w 5 N) (ws st w 3 N)).
  { rewrite F2 by lia. apply ws_store_same. }
  assert (V2' : forall j, 1 <= j <= N - 1 ->
             ws s2 w 4 j = fadd (ws s2 w 4 (j + 1)) (correction_factor st w)
             /\ ws s2 w 5 j = fadd (ws s2 w 4 j) (ws st w 3 j)).
  { intros j Hj. destruct (V2 j Hj) as [E4 E5]. split; [exact E4|].
    rewrite E5. subst s1. rewrite ws_store_other by lia. reflexivity. }
  destruct (is_center w) eqn:Hc.
  - destruct (fill_spec w 8 (fun j s => fsub (ws s w 5 j) (mid_value s2 w 5))
                        0 N s2) as (G3 & F3 & V3).
    cbv beta zeta in G3, F3, V3.
    set (s3 := for_up _ 0 N s2) in *.
    assert (E3 : forall i c j, c <> 8 -> ws s3 i c j = ws s2 i c j).
    { intros i c j Hne. apply F3. lia. }
    split; [eapply same_globals_trans; eassumption|].
    split.
    { intros i c j Hn. rewrite F3 by lia. apply Fr2. lia. }
    split; [rewrite E3 by lia; exact E4N|].
    split.
    { intros j Hj. rewrite !E3 by lia. apply V2'. exact Hj. }
    intros _ j Hj.
    destruct (V3 j) as (sj & E & _ & Fj & _); [lia|]. rewrite E.
    rewrite Fj by lia. rewrite E3 by lia. f_equal.
    symmetry. apply mid_value_ext.
    + destruct G3 as (HN & _). now rewrite HN.
    + intros j' _. apply E3. lia.
  - split; [assumption|].
    split; [intros i c j Hn; apply Fr2; lia|].
    split; [assumption|]. split; [assumption|]. discriminate.
Qed.

(** *** [return_low_and_high_point] *)

Lemma keep_min (x tmp m : float) :
  flt x m = false -> flt x (if flt tmp m then tmp else m) = false.
Proof.
  intros H. destruct (flt tmp m) eqn:E; [|assumption].
  destruct (flt x tmp) eqn:E'; [|reflexivity].
  rewrite (flt_trans _ _ _ E' E) in H. discriminate.
Qed.

Lemma new_min (tmp m : float) :
  flt tmp (if flt tmp m then tmp else m) = false.
Proof. destruct (flt tmp m) eqn:E; [apply flt_irrefl | assumption]. Qed.

Lemma return_low_point_lowest st :
  is_lowest st (fst (return_low_and_high_point st)).
Proof.
  unfold return_low_and_high_point.
  set (P := fun (k : nat) (mm : float * float) =>
    (exists i j, i <= 7 /\ j <= num_dat st i /\ fst mm = selected st i j)
    /\ (forall i j, i < k -> j <= num_dat st i ->
           flt (selected st i j) (fst mm) = false)).
  match goal with |- is_lowest st (fst (for_up ?b 0 7 ?s0)) =>
    assert (HP : P 8 (for_up b 0 7 s0)) end.
  { apply for_up_inv; [lia| |].
    - split; [|intros i j Hi; lia].
      exists 0, 0. repeat split; lia.
    - intros k mm Hk (Hatt & Hlow).
      set (Q := fun (l : nat) (mm' : float * float) =>
        (exists i j, i <= 7 /\ j <= num_dat st i
                     /\ fst mm' = selected st i j)
        /\ (forall i j, i < k -> j <= num_dat st i ->
               flt (selected st i j) (fst mm') = false)
        /\ (forall j, j < l -> flt (selected st k j) (fst mm') = false)).
      assert (HQ : Q (S (num_dat st k))
                     (for_up (low_high_step st k) 0 (num_dat st k) mm)).
      { apply for_up_inv; [lia| |].
        - split; [assumption|]. split; [assumption|]. intros j Hj; lia.
        - intros l mm' Hl (Hatt' & Hlow' & Hrow). unfold low_high_step.
          cbn [fst snd]. split; [|split].
          + destruct (flt (selected st k l) (fst mm')); [|assumption].
            exists k, l. repeat split; lia.
          + intros i j Hi Hj. apply keep_min. now apply Hlow'.
          + intros j Hj. destruct (Nat.eq_dec j l) as [->|Hne].
            * apply new_min.
            * apply keep_min. apply Hrow. lia. }
      destruct HQ as (Hatt' & Hlow' & Hrow).
      split; [assumption|].
      intros i j Hi Hj. destruct (Nat.eq_dec i k) as [->|Hne].
      + apply Hrow. lia.
      + apply Hlow'; [lia|assumption]. }
  destruct HP as (Hatt & Hlow). split; [assumption|].
  intros i j Hi Hj. apply Hlow; [lia|assumption].
Qed.

(** *** Loops over sheets

    A pass that, for each sheet [i] of [lo..hi], fills rows [0..N] of
    column [c] with a value that does not depend on column [c]. *)
Lemma sheets_spec (body : nat -> state -> state) (c : nat)
      (val : state -> nat -> nat -> float) (lo hi : nat) st :
  (forall i s,
      same_globals s (body i s)
      /\ (forall i' c' j, ~ (i' = i /\ c' = c /\ j <= num_dat s i) ->
             ws (body i s) i' c' j = ws s i' c' j)
      /\ (forall j, j <= num_dat s i -> ws (body i s) i c j = val s i j)) ->
  (forall s s' i j,
      same_globals s s' ->
      (forall i' c' j', c' <> c -> ws s' i' c' j' = ws s i' c' j') ->
      val s' i j = val s i j) ->
  let st' := for_up body lo hi st in
  same_globals st st'
  /\ (forall i c' j,
         ~ (lo <= i <= hi /\ c' = c /\ j <= num_dat st i) ->
         ws st' i c' j = ws st i c' j)
  /\ (forall i j, lo <= i <= hi -> j <= num_dat st i ->
         ws st' i c j = val st i j).
Proof.
  intros Hbody Hext st'. subst st'.
  destruct (Nat.le_gt_cases lo (S hi)) as [Hle|Hgt].
  2:{ rewrite for_up_empty by lia.
      split; [apply same_globals_refl|]. split; [reflexivity|].
      intros i j Hi. lia. }
  set (P := fun (k : nat) (s : state) =>
    same_globals st s
    /\ (forall i c' j, ~ (lo <= i < k /\ c' = c /\ j <= num_dat st i) ->
           ws s i c' j = ws st i c' j)
    /\ (forall i j, lo <= i < k -> j <= num_dat st i ->
           ws s i c j = val st i j)).
  assert (HP : P (S hi) (for_up body lo hi st)).
  { apply for_up_inv; [assumption| |].
    - split; [apply same_globals_refl|]. split; [reflexivity|].
      intros i j Hi. lia.
    - intros k s Hk (Hg & Hfr & Hval).
      destruct (Hbody k s) as (Gb & Fb & Vb).
      assert (HN : num_dat s = num_dat st) by apply Hg.
      split; [eapply same_globals_trans; eassumption|]. split.
      + intros i c' j Hn.
        assert (i <> k \/ c' <> c \/ num_dat st k < j).
        { destruct (Nat.eq_dec i k) as [->|]; lia. }
        rewrite Fb by (rewrite HN; lia).
        apply Hfr. lia.
      + intros i j Hi Hj. destruct (Nat.eq_dec i k) as [->|Hne].
        * rewrite Vb by (rewrite HN; lia).
          apply Hext; [assumption|]. intros i' c' j' Hc. apply Hfr. lia.
        * rewrite Fb by lia. apply Hval; [lia|assumption]. }
  destruct HP as (Hg & Hfr & Hval).
  split; [assumption|]. split.
  - intros i c' j Hn. apply Hfr. lia.
  - intros i j Hi Hj. apply Hval; [lia|assumption].
Qed.

(** *** Columns 7 and 8 *)

Lemma column7_spec (lowest : float) (src : nat) (i : nat) st :
  src <> 6 ->
  same_globals st (column7 lowest src i st)
  /\ (forall i' c' j, ~ (i' = i /\ c' = 6 /\ j <= num_dat st i) ->
         ws (column7 lowest src i st) i' c' j = ws st i' c' j)
  /\ (forall j, j <= num_dat st i ->
         ws (column7 lowest src i st) i 6 j = fsub (ws st i src j) lowest).
Proof.
  intros Hsrc. unfold column7.
  destruct (fill_spec i 6 (fun j s => fsub (ws s i src j) lowest)
                      0 (num_dat st i) st) as (G & F & V).
  cbv beta zeta in G, F, V.
  split; [assumption|]. split.
  - intros i' c' j Hn. apply F. lia.
  - intros j Hj. destruct (V j) as (sj & E & _ & Fj & _); [lia|].
    rewrite E, Fj by lia. reflexivity.
Qed.

Lemma column8_spec (i : nat) st :
  same_globals st (column8 i st)
  /\ (forall i' c' j, ~ (i' = i /\ c' = 7 /\ j <= num_dat st i) ->
         ws (column8 i st) i' c' j = ws st i' c' j)
  /\ (forall j, j <= num_dat st i ->
         ws (column8 i st) i 7 j
         = fmul (fmul (ws st i 6 j) arcsec) (foot_spacing st)).
Proof.
  unfold column8.
  destruct (fill_spec i 7
              (fun j s => fmul (fmul (ws s i 6 j) arcsec) (foot_spacing s))
              0 (num_dat st i) st) as (G & F & V).
  cbv beta zeta in G, F, V.
  split; [assumption|]. split.
  - intros i' c' j Hn. apply F. lia.
  - intros j Hj. destruct (V j) as (sj & E & (_ & _ & Gj) & Fj & _); [lia|].
    rewrite E, Fj, Gj by lia. reflexivity.
Qed.

Lemma selected_diag_perimeter st (i j : nat) :
  i <= 5 -> selected st i j = ws st i 5 j.
Proof.
  intros H. unfold selected.
  replace (i =? 6) with false by (symmetry; apply Nat.eqb_neq; lia).
  replace (i =? 7) with false by (symmetry; apply Nat.eqb_neq; lia).
  reflexivity.
Qed.

Lemma selected_center st (i j : nat) :
  6 <= i <= 7 -> selected st i j = ws st i 8 j.
Proof.
  intros H. unfold selected.
  assert (E : i = 6 \/ i = 7) by lia. destruct E as [-> | ->]; reflexivity.
Qed.

Lemma normalize_spec st :
  let lowest := fst (return_low_and_high_point st) in
  let st' := normalize st in
  num_dat st' = num_dat st
  /\ metric st' = metric st
  /\ foot_spacing st' = scaled_foot_spacing st
  /\ (forall i c j, c <> 6 -> c <> 7 -> ws st' i c j = ws st i c j)
  /\ (forall i j, i <= 7 -> j <= num_dat st i ->
         ws st' i 6 j = fsub (selected st i j) lowest
         /\ ws st' i 7 j
            = fmul (fmul (ws st' i 6 j) arcsec) (foot_spacing st')).
Proof.
  intros lowest st'. subst st'. unfold normalize, columns_7_8. cbv zeta.
  fold lowest.
  destruct (sheets_spec (column7 lowest 5) 6
              (fun s i j => fsub (ws s i 5 j) lowest) 0 5 st)
    as (G1 & F1 & V1).
  { intros i s. apply column7_spec. lia. }
  { intros s s' i j _ H. cbv beta. rewrite H by lia. reflexivity. }
  cbv beta zeta in G1, F1, V1.
  set (s1 := for_up (column7 lowest 5) 0 5 st) in *.
  destruct (sheets_spec (column7 lowest 8) 6
              (fun s i j => fsub (ws s i 8 j) lowest) 6 7 s1)
    as (G2 & F2 & V2).
  { intros i s. apply column7_spec. lia. }
  { intros s s' i j _ H. cbv beta. rewrite H by lia. reflexivity. }
  cbv beta zeta in G2, F2, V2.
  set (s2 := for_up (column7 lowest 8) 6 7 s1) in *.
  set (s3 := scale_foot_spacing s2).
  assert (W3 : ws s3 = ws s2).
  { subst s3. unfold scale_foot_spacing.
    destruct (negb (metric s2 =? 0)%Z); reflexivity. }
  assert (N3 : num_dat s3 = num_dat s2).
  { subst s3. unfold scale_foot_spacing.
    destruct (negb (metric s2 =? 0)%Z); reflexivity. }
  assert (M3 : metric s3 = metric s2).
  { subst s3. unfold scale_foot_spacing.
    destruct (negb (metric s2 =? 0)%Z); reflexivity. }
  assert (G02 : same_globals st s2)
    by (eapply same_globals_trans; eassumption).
  destruct G02 as (N02 & M02 & S02).
  assert (S3 : foot_spacing s3 = scaled_foot_spacing st).
  { subst s3. unfold scale_foot_spacing, scaled_foot_spacing.
    rewrite M02, S02. destruct (negb (metric st =? 0)%Z); reflexivity. }
  destruct (sheets_spec column8 7
              (fun s i j => fmul (fmul (ws s i 6 j) arcsec) (foot_spacing s))
              0 7 s3) as (G4 & F4 & V4).
  { intros i s. apply column8_spec. }
  { intros s s' i j (_ & _ & Gs) H. cbv beta.
    rewrite H, Gs by lia. reflexivity. }
  cbv beta zeta in G4, F4, V4.
  set (s4 := for_up column8 0 7 s3) in *.
  destruct G4 as (N4 & M4 & S4).
  assert (N12 : num_dat s1 = num_dat st) by (destruct G1 as (E & _); exact E).
  split; [congruence|]. split; [congruence|]. split; [congruence|]. split.
  - intros i c j H6 H7. rewrite F4 by lia. rewrite W3.
    rewrite F2 by lia. apply F1. lia.
  - intros i j Hi Hj.
    assert (E6 : ws s4 i 6 j = fsub (selected st i j) lowest).
    { rewrite F4 by lia. rewrite W3.
      destruct (Nat.le_gt_cases i 5) as [Hd|Hc].
      - rewrite F2 by lia. rewrite V1 by lia.
        rewrite selected_diag_perimeter by lia. reflexivity.
      - rewrite V2 by (rewrite ?N12; lia). rewrite F1 by lia.
        rewrite selected_center by lia. reflexivity. }
    split; [exact E6|].
    rewrite V4 by (rewrite ?N3, ?N02; lia).
    rewrite F4 by lia. rewrite S4. reflexivity.
Qed.
End Facts.

(** ** Facts about reading the data files *)

Section ReadFacts.
Context {A : CArith}.
Variable sscanf_f : string -> option float.
Implicit Types st : state.

Lemma read_loop_inr (w : nat) (bufs : list string) :
  forall file_line lines_read st n st',
    read_loop sscanf_f w bufs file_line lines_read st = inr (n, st') ->
    lines_read <= n
    /\ (lines_read <= MAX_STATIONS - 3 -> n <= MAX_STATIONS - 3)
    /\ same_globals st st'
    /\ (forall i c j, ~ (i = w /\ c = 1) -> ws st' i c j = ws st i c j).
Proof.
  induction bufs as [|buf rest IH]; intros file_line lines_read st n st' H;
    cbn [read_loop] in H.
  - inversion H; subst. split; [lia|]. split; [tauto|].
    split; [apply same_globals_refl | reflexivity].
  - destruct (comment_or_end (skip_space (guarantee_newline buf))).
    + eapply IH. exact H.
    + destruct (sscanf_f (skip_space (guarantee_newline buf))) as [x|]; [|discriminate].
      destruct (Nat.leb_spec (MAX_STATIONS - 2) (S lines_read)) as [Hm|Hm];
        [discriminate|].
      apply IH in H. destruct H as (H1 & H2 & H3 & H4).
      unfold MAX_STATIONS in *.
      split; [lia|]. split; [intros _; apply H2; simpl; lia|].
      split.
      * eapply same_globals_trans; [|exact H3]. repeat split.
      * intros i c j Hn. rewrite H4 by assumption.
        apply ws_store_other. lia.
Qed.

Lemma read_data_inr (fs : files) (w : nat) st st' :
  read_data sscanf_f fs w st = inr st' ->
  3 <= num_dat st' w <= MAX_STATIONS - 3
  /\ (forall i, i <> w -> num_dat st' i = num_dat st i)
  /\ metric st' = metric st
  /\ foot_spacing st' = foot_spacing st
  /\ (forall i c j, ~ (i = w /\ c = 1) -> ws st' i c j = ws st i c j).
Proof.
  unfold read_data. intros H.
  destruct (fs w) as [bufs|]; [|discriminate].
  destruct (read_loop sscanf_f w bufs 0 0 st) as [e|[n s1]] eqn:E;
    [discriminate|].
  destruct (Nat.ltb_spec n 3) as [Hn|Hn]; [discriminate|].
  inversion H; subst st'; clear H.
  apply read_loop_inr in E. destruct E as (_ & H2 & (HN & HM & HF) & H4).
  unfold set_num_dat; simpl. rewrite Nat.eqb_refl.
  split; [split; [assumption | apply H2; unfold MAX_STATIONS; simpl; lia]|].
  split.
  { intros i Hi. apply Nat.eqb_neq in Hi. rewrite Hi.
    congruence. }
  auto.
Qed.

Lemma read_files_inr (fs : files) (n : nat) :
  forall i st st',
    read_files sscanf_f fs n i st = inr st' ->
    (forall k, i <= k < i + n -> 3 <= num_dat st' k <= MAX_STATIONS - 3)
    /\ (forall k, ~ (i <= k < i + n) -> num_dat st' k = num_dat st k)
    /\ metric st' = metric st
    /\ foot_spacing st' = foot_spacing st
    /\ (forall k c j, c <> 1 -> ws st' k c j = ws st k c j).
Proof.
  induction n as [|n IH]; intros i st st' H; cbn [read_files] in H.
  - inversion H; subst. split; [intros k Hk; lia|]. repeat split.
  - destruct (read_data sscanf_f fs i st) as [e|s1] eqn:E; [discriminate|].
    apply read_data_inr in E. destruct E as (B1 & O1 & M1 & S1 & W1).
    apply IH in H. destruct H as (B2 & O2 & M2 & S2 & W2).
    split.
    { intros k Hk. destruct (Nat.eq_dec k i) as [->|Hne].
      - rewrite O2 by lia. exact B1.
      - apply B2. lia. }
    split.
    { intros k Hk. rewrite O2 by lia. apply O1. lia. }
    split; [congruence|]. split; [congruence|].
    intros k c j Hc. rewrite W2 by assumption. apply W1. lia.
Qed.

(** How the number of data lines decides the outcome of the reading
    loop, for a file whose data lines all parse. *)
Lemma read_loop_by_length (w : nat) (bufs : list string) :
  forall file_line lines_read st,
    all_parse sscanf_f bufs ->
    lines_read <= MAX_STATIONS - 3 ->
    let n := lines_read + List.length (data_lines bufs) in
    (n <= MAX_STATIONS - 3 ->
     exists st', read_loop sscanf_f w bufs file_line lines_read st
                 = inr (n, st'))
    /\ (MAX_STATIONS - 2 <= n ->
        read_loop sscanf_f w bufs file_line lines_read st
        = inl (Too_many_stations (MAX_STATIONS - 2) (filename w))).
Proof.
  unfold all_parse, data_lines.
  induction bufs as [|buf rest IH]; intros file_line lines_read st Hp Hl;
    cbn [read_loop filter List.length].
  - rewrite Nat.add_0_r. split.
    + intros _. eexists. reflexivity.
    + unfold MAX_STATIONS in *. lia.
  - cbn [filter] in Hp.
    destruct (comment_or_end (skip_space (guarantee_newline buf))); cbn [negb] in *.
    + apply IH; assumption.
    + inversion Hp as [|? ? Hx Hrest]; subst. cbn [List.length].
      destruct (sscanf_f (skip_space (guarantee_newline buf))) as [x|]; [|congruence].
      destruct (Nat.leb_spec (MAX_STATIONS - 2) (S lines_read)) as [Hm|Hm].
      * split; [unfold MAX_STATIONS in *; lia | reflexivity].
      * replace (lines_read + S (List.length (filter
                   (fun buf0 => negb (comment_or_end (skip_space (guarantee_newline buf0))))
                   rest)))
          with (S lines_read + List.length (filter
                   (fun buf0 => negb (comment_or_end (skip_space (guarantee_newline buf0))))
                   rest)) by lia.
        apply IH; [assumption | unfold MAX_STATIONS in *; lia].
Qed.

Lemma read_data_by_length (fs : files) (w : nat) (bufs : list string) st :
  fs w = Some bufs ->
  all_parse sscanf_f bufs ->
  let n := List.length (data_lines bufs) in
  (n < 3 ->
   read_data sscanf_f fs w st = inl (Too_few_lines n (filename w)))
  /\ (3 <= n <= MAX_STATIONS - 3 ->
      exists st', read_data sscanf_f fs w st = inr st'
                  /\ num_dat st' w = n)
  /\ (MAX_STATIONS - 2 <= n ->
      read_data sscanf_f fs w st
      = inl (Too_many_stations (MAX_STATIONS - 2) (filename w))).
Proof.
  intros Hf Hp n. unfold read_data. rewrite Hf.
  destruct (read_loop_by_length w bufs 0 0 st Hp) as [Hok Hbad];
    [unfold MAX_STATIONS; lia|].
  cbn [Nat.add] in Hok, Hbad. fold n in Hok, Hbad.
  split; [|split].
  - intros Hn. destruct Hok as [st' E]; [unfold MAX_STATIONS; lia|].
    rewrite E. apply Nat.ltb_lt in Hn. rewrite Hn. reflexivity.
  - intros Hn. destruct Hok as [st' E]; [lia|]. rewrite E.
    replace (n <? 3) with false by (symmetry; apply Nat.ltb_ge; lia).
    eexists. split; [reflexivity|].
    unfold set_num_dat; simpl. now rewrite Nat.eqb_refl.
  - intros Hn. rewrite Hbad by assumption. reflexivity.
Qed.
Lemma read_loop_stores (w : nat) (bufs : list string) :
  forall file_line lines_read st n st',
    read_loop sscanf_f w bufs file_line lines_read st = inr (n, st') ->
    exists readings : list float,
      parsed sscanf_f bufs = map Some readings
      /\ n = lines_read + List.length readings
      /\ (forall k, k < List.length readings ->
            ws st' w 1 (lines_read + k + 1) = nth k readings (float_of_int 0))
      /\ (forall j, j <= lines_read -> ws st' w 1 j = ws st w 1 j).
Proof.
  unfold parsed, data_lines.
  induction bufs as [|buf rest IH]; intros file_line lines_read st n st' H;
    cbn [read_loop filter map] in *.
  - inversion H; subst. exists []. cbn [List.length map].
    split; [reflexivity|]. split; [lia|]. split; [intros k Hk; lia|].
    reflexivity.
  - destruct (comment_or_end (skip_space (guarantee_newline buf))); cbn [negb map].
    + eapply IH. exact H.
    + destruct (sscanf_f (skip_space (guarantee_newline buf))) as [x|] eqn:Ex; [|discriminate].
      destruct (Nat.leb_spec (MAX_STATIONS - 2) (S lines_read)) as [Hm|Hm];
        [discriminate|].
      apply IH in H. destruct H as (rs & Hp & Hn & Hv & Hf).
      exists (x :: rs). cbn [List.length map nth].
      split; [rewrite Hp; reflexivity|]. split; [lia|]. split.
      * intros k Hk. destruct k as [|k].
        -- rewrite Hf by lia. rewrite Nat.add_0_r. apply ws_store_same.
        -- replace (lines_read + S k + 1) with (S lines_read + k + 1) by lia.
           apply Hv. lia.
      * intros j Hj. rewrite Hf by lia. apply ws_store_other. lia.
Qed.

(** A file that [read_data] accepts leaves its [N] numbers in rows
    [1..N] of column 2 and does not write row 0. *)
Lemma read_data_stores (fs : files) (w : nat) st st' :
  read_data sscanf_f fs w st = inr st' ->
  exists (bufs : list string) (readings : list float),
    fs w = Some bufs
    /\ parsed sscanf_f bufs = map Some readings
    /\ num_dat st' w = List.length readings
    /\ (forall k, k < List.length readings ->
          ws st' w 1 (k + 1) = nth k readings (float_of_int 0))
    /\ ws st' w 1 0 = ws st w 1 0.
Proof.
  unfold read_data. intros H.
  destruct (fs w) as [bufs|]; [|discriminate].
  destruct (read_loop sscanf_f w bufs 0 0 st) as [e|[n s1]] eqn:E;
    [discriminate|].
  destruct (Nat.ltb_spec n 3) as [Hn|Hn]; [discriminate|].
  inversion H; subst st'; clear H.
  apply read_loop_stores in E. destruct E as (rs & Hp & Hl & Hv & Hf).
  exists bufs, rs. split; [reflexivity|]. split; [assumption|].
  unfold set_num_dat; cbn [num_dat ws]. rewrite Nat.eqb_refl.
  split; [lia|]. split.
  - intros k Hk. apply (Hv k Hk).
  - apply Hf. lia.
Qed.
End ReadFacts.

(** ** Facts about the pipeline of [main] *)

Section PipelineFacts.
Context {A : CArith}.
Implicit Types st : state.

Lemma num_dat_store st i c j v : num_dat (store st i c j v) = num_dat st.
Proof. reflexivity. Qed.

(** A pass that treats sheets [lo..hi] one after the other, each step
    touching its own sheet only: the result on a sheet is the step run on
    a state that agrees with the initial one on that sheet. *)
Lemma sheets_local (body : nat -> state -> state) (lo hi : nat) st :
  (forall w s,
      same_globals s (body w s)
      /\ (forall i c j, i <> w -> ws (body w s) i c j = ws s i c j)) ->
  let st' := for_up body lo hi st in
  same_globals st st'
  /\ (forall i c j, ~ (lo <= i <= hi) -> ws st' i c j = ws st i c j)
  /\ (forall w, lo <= w <= hi ->
         exists s,
           same_globals st s
           /\ (forall c j, ws s w c j = ws st w c j)
           /\ (forall c j, ws st' w c j = ws (body w s) w c j)).
Proof.
  intros Hbody st'. subst st'.
  destruct (Nat.le_gt_cases lo (S hi)) as [Hle|Hgt].
  2:{ rewrite for_up_empty by lia.
      split; [apply same_globals_refl|]. split; [reflexivity|].
      intros w Hw. lia. }
  set (P := fun (k : nat) (s : state) =>
    same_globals st s
    /\ (forall i c j, ~ (lo <= i < k) -> ws s i c j = ws st i c j)
    /\ (forall w, lo <= w < k ->
           exists s0,
             same_globals st s0
             /\ (forall c j, ws s0 w c j = ws st w c j)
             /\ (forall c j, ws s w c j = ws (body w s0) w c j))).
  assert (HP : P (S hi) (for_up body lo hi st)).
  { apply for_up_inv; [assumption| |].
    - split; [apply same_globals_refl|]. split; [reflexivity|].
      intros w Hw. lia.
    - intros k s Hk (Hg & Hfr & Hval).
      destruct (Hbody k s) as (Gb & Fb).
      split; [eapply same_globals_trans; eassumption|]. split.
      + intros i c j Hn. rewrite Fb by lia. apply Hfr. lia.
      + intros w Hw. destruct (Nat.eq_dec w k) as [->|Hne].
        * exists s. split; [assumption|]. split; [|reflexivity].
          intros c j. apply Hfr. lia.
        * destruct (Hval w) as (s0 & G0 & E0 & V0); [lia|].
          exists s0. split; [assumption|]. split; [assumption|].
          intros c j. rewrite Fb by lia. apply V0. }
  destruct HP as (Hg & Hfr & Hval).
  split; [assumption|]. split.
  - intros i c j Hn. apply Hfr. lia.
  - intros w Hw. apply Hval. lia.
Qed.

Lemma first_four_columns_local (w : nat) st :
  same_globals st (first_four_columns w st)
  /\ (forall i c j, i <> w -> ws (first_four_columns w st) i c j = ws st i c j).
Proof.
  destruct (first_four_columns_spec w st) as (G & F & _).
  split; [assumption|]. intros i c j Hi. apply F. lia.
Qed.

Lemma diagonal_correction_local (w : nat) st :
  same_globals st (diagonal_correction w st)
  /\ (forall i c j, i <> w ->
         ws (diagonal_correction w st) i c j = ws st i c j).
Proof.
  destruct (diagonal_correction_spec w st) as (G & F & _).
  split; [assumption|]. intros i c j Hi. apply F. lia.
Qed.

Lemma shift_lines_local (w : nat) st :
  same_globals st (shift_lines w st)
  /\ (forall i c j, i <> w -> ws (shift_lines w st) i c j = ws st i c j).
Proof.
  destruct (shift_lines_spec w st) as (G & F & _).
  split; [assumption|]. intros i c j Hi. apply F. lia.
Qed.

(** [shift_lines] never writes the two ends of column 6. *)
Lemma shift_lines_col6_ends (w j : nat) st :
  j = 0 \/ num_dat st w <= j ->
  ws (shift_lines w st) w 5 j = ws st w 5 j.
Proof.
  intros Hj. destruct (shift_lines_spec w st) as (_ & F & _).
  apply F. lia.
Qed.

Lemma shift_pass_spec (lo hi : nat) st :
  let st' := for_up shift_lines lo hi st in
  same_globals st st'
  /\ (forall i c j, ~ (lo <= i <= hi) -> ws st' i c j = ws st i c j)
  /\ (forall w j, lo <= w <= hi -> j = 0 \/ num_dat st w <= j ->
         ws st' w 5 j = ws st w 5 j).
Proof.
  destruct (sheets_local shift_lines lo hi st shift_lines_local)
    as (G & F & V).
  split; [assumption|]. split; [assumption|].
  intros w j Hw Hj. destruct (V w Hw) as (s & (HN & _) & E & Vw).
  rewrite Vw. rewrite shift_lines_col6_ends by (rewrite HN; assumption).
  apply E.
Qed.

Ltac store_simpl :=
  repeat first [ rewrite num_dat_store
               | rewrite ws_store_same
               | rewrite ws_store_other by lia ].

Lemma copy_NE_corner_spec st :
  let st' := copy_NE_corner st in
  same_globals st st'
  /\ (forall i c j, ~ (2 <= i <= 3 /\ 4 <= c <= 5 /\ j = 0) ->
         ws st' i c j = ws st i c j)
  /\ ws st' 2 5 0 = ws st 1 5 0
  /\ ws st' 3 5 0 = ws st 1 5 0.
Proof.
  unfold copy_NE_corner. cbv zeta.
  split; [repeat split|].
  split; [intros i c j Hi; store_simpl; reflexivity|].
  split; store_simpl; reflexivity.
Qed.

Lemma copy_SW_corner_spec st :
  let st' := copy_SW_corner st in
  same_globals st st'
  /\ (forall i c j, ~ (4 <= i <= 5 /\ c = 5 /\ j = num_dat st i) ->
         ws st' i c j = ws st i c j)
  /\ ws st' 4 5 (num_dat st 4) = ws st 1 5 (num_dat st 1)
  /\ ws st' 5 5 (num_dat st 5) = ws st 1 5 (num_dat st 1).
Proof.
  unfold copy_SW_corner. cbv zeta.
  split; [repeat split|].
  split.
  { intros i c j Hi.
    assert (i <> 4 \/ c <> 5 \/ j <> num_dat st 4)
      by (destruct (Nat.eq_dec i 4) as [->|]; lia).
    assert (i <> 5 \/ c <> 5 \/ j <> num_dat st 5)
      by (destruct (Nat.eq_dec i 5) as [->|]; lia).
    store_simpl. reflexivity. }
  split; store_simpl; reflexivity.
Qed.

Lemma copy_NW_corner_spec st :
  1 <= num_dat st 2 ->
  let st' := copy_NW_corner st in
  same_globals st st'
  /\ (forall i c j,
         ~ ((i = 5 /\ 4 <= c <= 5 /\ j = 0)
            \/ (i = 2 /\ c = 5 /\ j = num_dat st 2)) ->
         ws st' i c j = ws st i c j)
  /\ ws st' 2 5 (num_dat st 2) = ws st 0 5 0
  /\ ws st' 5 5 0 = ws st 0 5 0.
Proof.
  intros HN. unfold copy_NW_corner. cbv zeta.
  split; [repeat split|].
  split; [intros i c j Hi; store_simpl; reflexivity|].
  split; store_simpl; reflexivity.
Qed.

Lemma copy_SE_corner_spec st :
  1 <= num_dat st 3 ->
  let st' := copy_SE_corner st in
  same_globals st st'
  /\ (forall i c j,
         ~ ((i = 4 /\ 4 <= c <= 5 /\ j = 0)
            \/ (i = 3 /\ c = 5 /\ j = num_dat st 3)) ->
         ws st' i c j = ws st i c j)
  /\ ws st' 3 5 (num_dat st 3) = ws st 0 5 (num_dat st 0)
  /\ ws st' 4 5 0 = ws st 0 5 (num_dat st 0).
Proof.
  intros HN. unfold copy_SE_corner. cbv zeta.
  split; [repeat split|].
  split; [intros i c j Hi; store_simpl; reflexivity|].
  split; store_simpl; reflexivity.
Qed.

Lemma seed_perimeter_spec st :
  (forall i, 2 <= i <= 5 -> 1 <= num_dat st i) ->
  let st' := seed_perimeter st in
  same_globals st st'
  /\ (forall i c j, ~ (2 <= i <= 5) -> ws st' i c j = ws st i c j)
  /\ ws st' 2 5 0 = ws st 1 5 0
  /\ ws st' 3 5 0 = ws st 1 5 0
  /\ ws st' 4 5 (num_dat st 4) = ws st 1 5 (num_dat st 1)
  /\ ws st' 5 5 (num_dat st 5) = ws st 1 5 (num_dat st 1)
  /\ ws st' 2 5 (num_dat st 2) = ws st 0 5 0
  /\ ws st' 5 5 0 = ws st 0 5 0
  /\ ws st' 3 5 (num_dat st 3) = ws st 0 5 (num_dat st 0)
  /\ ws st' 4 5 0 = ws st 0 5 (num_dat st 0).
Proof.
  intros HN st'. subst st'. unfold seed_perimeter. cbv zeta.
  pose proof (HN 2 ltac:(lia)). pose proof (HN 3 ltac:(lia)).
  pose proof (HN 4 ltac:(lia)). pose proof (HN 5 ltac:(lia)).
  destruct (copy_NE_corner_spec st) as (G1 & F1 & A1 & A2).
  cbv zeta in G1, F1, A1, A2.
  set (s1 := copy_NE_corner st) in *.
  assert (N1 : num_dat s1 = num_dat st) by (destruct G1 as (E & _); exact E).
  destruct (copy_SW_corner_spec s1) as (G2 & F2 & B1 & B2).
  cbv zeta in G2, F2, B1, B2.
  set (s2 := copy_SW_corner s1) in *.
  assert (N2 : num_dat s2 = num_dat st)
    by (destruct G2 as (E & _); congruence).
  destruct (copy_NW_corner_spec s2) as (G3 & F3 & C1 & C2);
    [rewrite N2; assumption|].
  cbv zeta in G3, F3, C1, C2.
  set (s3 := copy_NW_corner s2) in *.
  assert (N3 : num_dat s3 = num_dat st)
    by (destruct G3 as (E & _); congruence).
  destruct (copy_SE_corner_spec s3) as (G4 & F4 & D1 & D2);
    [rewrite N3; assumption|].
  cbv zeta in G4, F4, D1, D2.
  set (s4 := copy_SE_corner s3) in *.
  rewrite N1 in *. rewrite N2 in *. rewrite N3 in *.
  split.
  { eapply same_globals_trans; [exact G1|].
    eapply same_globals_trans; [exact G2|].
    eapply same_globals_trans; [exact G3|exact G4]. }
  split.
  { intros i c j Hi. rewrite F4, F3, F2, F1 by lia. reflexivity. }
  repeat match goal with |- _ /\ _ => split end.
  - rewrite F4, F3, F2 by lia. exact A1.
  - rewrite F4, F3, F2 by lia. exact A2.
  - rewrite F4, F3 by lia. rewrite B1. apply F1. lia.
  - rewrite F4, F3 by lia. rewrite B2. apply F1. lia.
  - rewrite F4 by lia. rewrite C1. rewrite F2, F1 by lia. reflexivity.
  - rewrite F4 by lia. rewrite C2. rewrite F2, F1 by lia. reflexivity.
  - rewrite D1. rewrite F3, F2, F1 by lia. reflexivity.
  - rewrite D2. rewrite F3, F2, F1 by lia. reflexivity.
Qed.

Lemma mid_value_store_other st (i c j : nat) (v : float) (w c' : nat) :
  i <> w \/ c <> c' ->
  mid_value (store st i c j v) w c' = mid_value st w c'.
Proof.
  intros H. apply mid_value_ext; [reflexivity|].
  intros j' _. apply ws_store_other. lia.
Qed.

Lemma seed_center_spec st :
  (forall i, 6 <= i <= 7 -> 1 <= num_dat st i) ->
  let st' := seed_center st in
  same_globals st st'
  /\ (forall i c j, ~ (6 <= i <= 7) -> ws st' i c j = ws st i c j)
  /\ ws st' 6 5 0 = mid_value st 3 5
  /\ ws st' 6 5 (num_dat st 6) = mid_value st 5 5
  /\ ws st' 7 5 0 = mid_value st 2 5
  /\ ws st' 7 5 (num_dat st 7) = mid_value st 4 5.
Proof.
  intros HN st'. subst st'. unfold seed_center. cbv zeta.
  pose proof (HN 6 ltac:(lia)). pose proof (HN 7 ltac:(lia)).
  split; [repeat split|].
  split; [intros i c j Hi; store_simpl; reflexivity|].
  repeat split; store_simpl;
    rewrite ?mid_value_store_other by lia; reflexivity.
Qed.
Lemma solve_lines_unfold st :
  solve_lines st
  = for_up shift_lines 6 7
      (seed_center (for_up shift_lines 2 5
                      (seed_perimeter (diagonals_solved st)))).
Proof.
  unfold solve_lines. cbv zeta. unfold diagonals_solved. reflexivity.
Qed.

Lemma diagonals_solved_globals st : same_globals st (diagonals_solved st).
Proof.
  unfold diagonals_solved.
  destruct (sheets_local first_four_columns 0 7 st first_four_columns_local)
    as (G1 & _).
  destruct (sheets_local diagonal_correction 0 1
              (for_up first_four_columns 0 7 st) diagonal_correction_local)
    as (G2 & _).
  eapply same_globals_trans; eassumption.
Qed.

(** After all lines are solved, the ends of column 6 of the perimeter
    and center lines hold the values copied into them. *)
Lemma solve_lines_seeds st :
  (forall i, 2 <= i <= 7 -> 1 <= num_dat st i) ->
  let st' := solve_lines st in
  same_globals st st'
  /\ ws st' 2 5 0 = ws st' 1 5 0
  /\ ws st' 3 5 0 = ws st' 1 5 0
  /\ ws st' 4 5 (num_dat st 4) = ws st' 1 5 (num_dat st 1)
  /\ ws st' 5 5 (num_dat st 5) = ws st' 1 5 (num_dat st 1)
  /\ ws st' 2 5 (num_dat st 2) = ws st' 0 5 0
  /\ ws st' 5 5 0 = ws st' 0 5 0
  /\ ws st' 3 5 (num_dat st 3) = ws st' 0 5 (num_dat st 0)
  /\ ws st' 4 5 0 = ws st' 0 5 (num_dat st 0)
  /\ ws st' 6 5 0 = mid_value st' 3 5
  /\ ws st' 6 5 (num_dat st 6) = mid_value st' 5 5
  /\ ws st' 7 5 0 = mid_value st' 2 5
  /\ ws st' 7 5 (num_dat st 7) = mid_value st' 4 5.
Proof.
  intros HN st'. subst st'. rewrite solve_lines_unfold.
  pose proof (diagonals_solved_globals st) as GD.
  set (D := diagonals_solved st) in *.
  assert (ND : num_dat D = num_dat st) by (destruct GD as (E & _); exact E).
  destruct (seed_perimeter_spec D)
    as (Gp & Fp & P1 & P2 & P3 & P4 & P5 & P6 & P7 & P8).
  { intros i Hi. rewrite ND. apply HN. lia. }
  cbv zeta in Gp, Fp, P1, P2, P3, P4, P5, P6, P7, P8.
  set (sp := seed_perimeter D) in *.
  assert (Np : num_dat sp = num_dat st)
    by (destruct Gp as (E & _); congruence).
  destruct (shift_pass_spec 2 5 sp) as (G4 & F4 & V4).
  cbv zeta in G4, F4, V4.
  set (s4 := for_up shift_lines 2 5 sp) in *.
  assert (N4 : num_dat s4 = num_dat st)
    by (destruct G4 as (E & _); congruence).
  destruct (seed_center_spec s4) as (Gc & Fc & C1 & C2 & C3 & C4).
  { intros i Hi. rewrite N4. apply HN. lia. }
  cbv zeta in Gc, Fc, C1, C2, C3, C4.
  set (sc := seed_center s4) in *.
  assert (Nc : num_dat sc = num_dat st)
    by (destruct Gc as (E & _); congruence).
  destruct (shift_pass_spec 6 7 sc) as (G6 & F6 & V6).
  cbv zeta in G6, F6, V6.
  set (s6 := for_up shift_lines 6 7 sc) in *.
  assert (N6 : num_dat s6 = num_dat st)
    by (destruct G6 as (E & _); congruence).
  rewrite ND in *. rewrite Np in V4. rewrite N4 in *. rewrite Nc in V6.
  assert (Low : forall i c j, i <= 5 -> ws s6 i c j = ws s4 i c j).
  { intros i c j Hi. rewrite F6 by lia. apply Fc. lia. }
  assert (Diag : forall i c j, i <= 1 -> ws s6 i c j = ws D i c j).
  { intros i c j Hi. rewrite Low by lia. rewrite F4 by lia.
    apply Fp. lia. }
  assert (Mid : forall w, w <= 5 -> mid_value s6 w 5 = mid_value s4 w 5).
  { intros w Hw. apply mid_value_ext; [congruence|].
    intros j _. apply Low. assumption. }
  split.
  { eapply same_globals_trans; [exact GD|].
    eapply same_globals_trans; [exact Gp|].
    eapply same_globals_trans; [exact G4|].
    eapply same_globals_trans; [exact Gc|exact G6]. }
  repeat split;
    repeat first [ rewrite Diag by lia | rewrite Mid by lia
                 | rewrite V6 by lia | rewrite Low by lia
                 | rewrite V4 by lia ];
    assumption.
Qed.

Lemma seed_perimeter_globals st : same_globals st (seed_perimeter st).
Proof.
  unfold seed_perimeter. cbv zeta.
  eapply same_globals_trans; [apply copy_NE_corner_spec|].
  eapply same_globals_trans; [apply copy_SW_corner_spec|].
  generalize (copy_SW_corner (copy_NE_corner st)). intros s.
  eapply same_globals_trans; [|repeat split].
  repeat split.
Qed.

Lemma seed_center_globals st : same_globals st (seed_center st).
Proof. repeat split. Qed.

Lemma solve_lines_globals st : same_globals st (solve_lines st).
Proof.
  rewrite solve_lines_unfold.
  eapply same_globals_trans; [apply diagonals_solved_globals|].
  generalize (diagonals_solved st). intros D.
  eapply same_globals_trans; [apply seed_perimeter_globals|].
  generalize (seed_perimeter D). intros sp.
  eapply same_globals_trans; [apply (shift_pass_spec 2 5 sp)|].
  generalize (for_up shift_lines 2 5 sp). intros s4.
  eapply same_globals_trans; [apply seed_center_globals|].
  apply (shift_pass_spec 6 7 (seed_center s4)).
Qed.

(** *** [main] *)

Variable sscanf_f : string -> option float.

(** [main] once the eight files are read. *)
Lemma main_read (fs : files) st sr :
  read_files sscanf_f fs 8 0 st = inr sr ->
  main sscanf_f fs st
  = inr (normalize (solve_lines sr),
         do_moody_consistency_checks (normalize (solve_lines sr)),
         fmul (fmul (fsub (snd (return_low_and_high_point (solve_lines sr)))
                          (fst (return_low_and_high_point (solve_lines sr))))
                    arcsec)
              (foot_spacing (normalize (solve_lines sr)))).
Proof.
  intros Hr. unfold main, normalize. rewrite Hr.
  generalize (solve_lines sr). intros s.
  destruct (return_low_and_high_point s) as [lo hi]. reflexivity.
Qed.

(** What a successful run of [main] went through. *)
Lemma main_inr (fs : files) st stf (out : list message) (h : float) :
  main sscanf_f fs st = inr (stf, out, h) ->
  exists sr,
    read_files sscanf_f fs 8 0 st = inr sr
    /\ stf = normalize (solve_lines sr)
    /\ out = do_moody_consistency_checks stf
    /\ num_dat stf = num_dat sr
    /\ (forall i, i <= 7 -> 3 <= num_dat sr i <= MAX_STATIONS - 3)
    /\ metric sr = metric st
    /\ foot_spacing sr = foot_spacing st.
Proof.
  intros H.
  destruct (read_files sscanf_f fs 8 0 st) as [e|sr] eqn:Hr;
    [unfold main in H; rewrite Hr in H; discriminate|].
  rewrite (main_read fs st sr Hr) in H.
  remember (normalize (solve_lines sr)) as sf eqn:Ef.
  remember (do_moody_consistency_checks sf) as o eqn:Eo.
  assert (E : sf = stf /\ o = out) by (split; congruence).
  destruct E as [<- <-]. clear H. exists sr.
  apply read_files_inr in Hr. destruct Hr as (B & _ & M & S & _).
  destruct (normalize_spec (solve_lines sr)) as (N1 & _).
  destruct (solve_lines_globals sr) as (N2 & _).
  cbv zeta in N1. rewrite <- Ef in N1.
  split; [reflexivity|]. split; [assumption|]. split; [assumption|].
  split; [congruence|].
  split; [intros i Hi; apply B; lia|]. split; assumption.
Qed.
End PipelineFacts.

(** ** The solved diagonals *)

Section DiagonalFacts.
Context {A : CArith}.
Implicit Types st : state.

(** Both diagonals after [diagonal_correction], as [main] reaches them:
    column 4 starts at zero and columns 5 and 6 follow the linear
    correction computed from the sheet's own column 4. *)
Lemma diagonals_solved_spec st (w : nat) :
  w <= 1 ->
  let D := diagonals_solved st in
  num_dat D = num_dat st
  /\ ws D w 3 0 = to_float (dlit 0 1)
  /\ (forall j, j <= num_dat D w ->
         ws D w 4 j
         = fadd (fmul (slope D w) (float_of_int (Z.of_nat j))) (intercept D w)
         /\ ws D w 5 j = fadd (ws D w 3 j) (ws D w 4 j)).
Proof.
  intros Hw D. subst D. unfold diagonals_solved.
  destruct (sheets_local first_four_columns 0 7 st first_four_columns_local)
    as (G1 & _ & V1).
  set (F := for_up first_four_columns 0 7 st) in *.
  destruct (sheets_local diagonal_correction 0 1 F diagonal_correction_local)
    as (G2 & _ & V2).
  set (D := for_up diagonal_correction 0 1 F) in *.
  assert (NF : num_dat F = num_dat st) by (destruct G1 as (E & _); exact E).
  assert (ND : num_dat D = num_dat F) by (destruct G2 as (E & _); exact E).
  destruct (V1 w ltac:(lia)) as (s1 & _ & _ & E1).
  destruct (V2 w ltac:(lia)) as (s2 & (N2 & _) & E2 & ED).
  destruct (first_four_columns_spec w s1) as (_ & _ & _ & _ & Z0 & _).
  destruct (diagonal_correction_spec w s2) as (_ & Fd & Vd).
  cbv zeta in Z0, Fd, Vd.
  assert (C3 : forall j, ws D w 3 j = ws s2 w 3 j).
  { intros j. rewrite ED. apply Fd. lia. }
  assert (Esl : slope D w = slope s2 w).
  { unfold slope. rewrite ND, N2, C3. reflexivity. }
  assert (Eic : intercept D w = intercept s2 w).
  { unfold intercept. rewrite ND, N2, C3. do 3 f_equal.
    apply mid_value_ext; [congruence|]. intros j _. apply C3. }
  split; [congruence|]. split.
  - rewrite C3, E2, E1. exact Z0.
  - intros j Hj. rewrite ND in Hj. rewrite <- N2 in Hj.
    destruct (Vd j Hj) as [V4 V5].
    rewrite C3, !ED, Esl, Eic. split; assumption.
Qed.
End DiagonalFacts.

(** ** The worksheet laws, for every arithmetic *)

Section Laws.
Context {A : CArith}.
Variable sscanf_f : string -> option float.
Implicit Types st : state.

Lemma even_mod2 (n : nat) : Nat.even n = (n mod 2 =? 0).
Proof.
  induction n as [n IH] using lt_wf_ind.
  destruct n as [|[|n]]; try reflexivity.
  rewrite Nat.even_succ_succ, IH by lia.
  replace (S (S n)) with (n + 1 * 2) by lia.
  now rewrite Nat.Div0.mod_add.
Qed.

(** [mid_value] is the middle-value rule of the worksheet instructions. *)
Lemma mid_value_middle st (w c : nat) :
  mid_value st w c = middle (num_dat st w) (ws st w c).
Proof. unfold mid_value, middle. rewrite even_mod2. reflexivity. Qed.


Lemma correction_factor_post st (w : nat) :
  1 <= num_dat st w ->
  correction_factor st w
  = fdiv (fsub (ws st w 4 0) (ws (shift_lines w st) w 4 (num_dat st w)))
         (float_of_int (Z.of_nat (num_dat st w))).
Proof.
  intros H. rewrite correction_factor_eq by assumption.
  destruct (shift_lines_spec w st) as (_ & _ & E & _). cbv zeta in E.
  rewrite E. reflexivity.
Qed.

(** C1.  For a line with station count N whose seeds col5[0] and col6[N]
    are in place, [shift_lines] sets col5[N] = col6[N] - col4[N], takes
    the uniform correction factor c = (col5[0] - col5[N]) / N, and for
    every interior station j (N-1 down to 1) sets
    col5[j] = col5[j+1] + c and col6[j] = col5[j] + col4[j]; the seeds and
    column 4 are left as they were. *)
Theorem shift_lines_redistributes (w : nat) st (j : nat) :
  1 <= j <= num_dat st w - 1 ->
  let N := num_dat st w in
  let st' := shift_lines w st in
  let c := fdiv (fsub (col5 st w 0) (col5 st' w N))
                (float_of_int (Z.of_nat N)) in
  col5 st' w N = fsub (col6 st w N) (col4 st w N)
  /\ col5 st' w j = fadd (col5 st' w (j + 1)) c
  /\ col6 st' w j = fadd (col5 st' w j) (col4 st' w j)
  /\ col4 st' w j = col4 st w j
  /\ col5 st' w 0 = col5 st w 0
  /\ col6 st' w N = col6 st w N.
Proof.
  intros Hj N st' c. subst c. unfold col4, col5, col6.
  destruct (shift_lines_spec w st) as (_ & F & E & V & _).
  cbv zeta in F, E, V. fold N in F, E, V. fold st' in F, E, V.
  destruct (V j Hj) as [V5 V6].
  assert (E3 : ws st' w 3 j = ws st w 3 j) by (apply F; lia).
  split; [exact E|]. split.
  { rewrite V5. f_equal. unfold st', N.
    apply correction_factor_post. lia. }
  split; [rewrite E3; exact V6|]. split; [exact E3|].
  split; apply F; lia.
Qed.

(** C2.  For a line with station count N, [diagonal_correction] sets, for
    every j in 0..N, col5[j] = a*j + b and col6[j] = col4[j] + col5[j],
    where a = -col4[N]/N and b = 0.5*col4[N] - middle(col4), the middle
    being taken by the middle-value rule. *)
Theorem diagonal_correction_columns (w : nat) st (j : nat) :
  j <= num_dat st w ->
  let N := num_dat st w in
  let a :=
    to_float (ddiv (dmul (dlit (-1) 1) (to_double (col4 st w N)))
                   (double_of_int (Z.of_nat N))) in
  let b :=
    to_float (dsub (dmul (dlit 5 10) (to_double (col4 st w N)))
                   (to_double (middle N (col4 st w)))) in
  let st' := diagonal_correction w st in
  col5 st' w j = fadd (fmul a (float_of_int (Z.of_nat j))) b
  /\ col6 st' w j = fadd (col4 st' w j) (col5 st' w j)
  /\ col4 st' w j = col4 st w j.
Proof.
  intros Hj N a b st'. subst a b. unfold col4, col5, col6.
  destruct (diagonal_correction_spec w st) as (_ & F & V).
  cbv zeta in F, V. fold N in F, V. fold st' in F, V.
  destruct (V j Hj) as [V5 V6].
  assert (E3 : ws st' w 3 j = ws st w 3 j) by (apply F; lia).
  split.
  { rewrite V5. unfold slope, intercept. fold N.
    rewrite mid_value_middle. reflexivity. }
  split; [rewrite E3; exact V6 | exact E3].
Qed.



(** C5 (as the code has it).  The [N] numbers of a data file are stored in
    rows 1..N of column 2 and row 0 is not written; for every j in 1..N,
    [first_four_columns] sets col3[j] = col2[j] - col2[1], the difference
    of reading j from the first reading of the file, and leaves col3[0]
    unwritten. *)
Theorem column3_relative_to_first_reading (fs : files) (w : nat) st sr :
  read_data sscanf_f fs w st = inr sr ->
  exists (bufs : list string) (readings : list float),
    fs w = Some bufs
    /\ parsed sscanf_f bufs = map Some readings
    /\ num_dat sr w = List.length readings
    /\ (forall k, k < num_dat sr w ->
          col2 sr w (k + 1) = nth k readings (float_of_int 0))
    /\ col2 sr w 0 = col2 st w 0
    /\ (forall j, 1 <= j <= num_dat sr w ->
          col3 (first_four_columns w sr) w j
          = fsub (col2 sr w j) (col2 sr w 1))
    /\ col3 (first_four_columns w sr) w 0 = col3 sr w 0.
Proof.
  intros H. apply read_data_stores in H.
  destruct H as (bufs & rs & Hf & Hp & Hn & Hv & H0).
  exists bufs, rs. unfold col2, col3.
  destruct (first_four_columns_spec w sr) as (_ & _ & E0 & V & _).
  cbv zeta in E0, V.
  split; [assumption|]. split; [assumption|]. split; [assumption|].
  split; [intros k Hk; apply Hv; lia|]. split; [assumption|].
  split; assumption.
Qed.

(** C6.  [shift_lines] leaves col6[0] and col6[N] unchanged, so after
    [main] has solved the lines, the two ends of column 6 of every
    perimeter line equal the diagonal corner values copied into them, and
    the two ends of column 6 of each center line equal the middle values
    of the perimeter lines they were copied from. *)
Theorem seeds_survive_shift (fs : files) st stf (out : list message)
        (h : float) :
  main sscanf_f fs st = inr (stf, out, h) ->
  let N := num_dat stf in
  (forall w s,
      col6 (shift_lines w s) w 0 = col6 s w 0
      /\ col6 (shift_lines w s) w (num_dat s w) = col6 s w (num_dat s w))
  /\ col6 stf 2 0 = col6 stf 1 0
  /\ col6 stf 3 0 = col6 stf 1 0
  /\ col6 stf 4 (N 4) = col6 stf 1 (N 1)
  /\ col6 stf 5 (N 5) = col6 stf 1 (N 1)
  /\ col6 stf 2 (N 2) = col6 stf 0 0
  /\ col6 stf 5 0 = col6 stf 0 0
  /\ col6 stf 3 (N 3) = col6 stf 0 (N 0)
  /\ col6 stf 4 0 = col6 stf 0 (N 0)
  /\ col6 stf 6 0 = mid_value stf 3 5
  /\ col6 stf 6 (N 6) = mid_value stf 5 5
  /\ col6 stf 7 0 = mid_value stf 2 5
  /\ col6 stf 7 (N 7) = mid_value stf 4 5.
Proof.
  intros H N. subst N. apply main_inr in H.
  destruct H as (sr & _ & Ef & _ & Nf & B & _).
  split.
  { intros w s. unfold col6.
    split; apply shift_lines_col6_ends; lia. }
  destruct (solve_lines_globals sr) as (NS & _).
  destruct (normalize_spec (solve_lines sr)) as (N1 & _ & _ & F1 & _).
  cbv zeta in N1, F1. rewrite <- Ef in N1, F1.
  destruct (solve_lines_seeds sr) as (_ & P).
  { intros i Hi. specialize (B i ltac:(lia)). lia. }
  cbv zeta in P.
  assert (Mid : forall w, mid_value stf w 5 = mid_value (solve_lines sr) w 5).
  { intros w. apply mid_value_ext; [now rewrite N1|].
    intros j _. apply F1; lia. }
  unfold col6. rewrite !Mid, !F1 by lia. rewrite Nf. exact P.
Qed.

(** C9 (as the code has it).  [read_data] accepts a sequence of readings
    whose length N is at least 3 and at most MAX_STATIONS-3 = 125; the
    readings then fill stations 1..N of a line of N+1 stations, at most
    MAX_STATIONS-2 = 126 of them.  Any other length is fatal, with an
    error that names the file: fewer than 3 readings, or MAX_STATIONS-2
    readings and more; a file of exactly MAX_STATIONS-2 = 126 readings
    is rejected with the too-many-stations error. *)
Theorem read_data_accepts_3_to_125 (fs : files) (w : nat)
        (bufs : list string) st :
  fs w = Some bufs ->
  all_parse sscanf_f bufs ->
  let N := List.length (data_lines bufs) in
  MAX_STATIONS - 3 = 125 /\ MAX_STATIONS - 2 = 126
  /\ (3 <= N <= MAX_STATIONS - 3 ->
      exists st',
        read_data sscanf_f fs w st = inr st'
        /\ num_dat st' w = N
        /\ N + 1 <= MAX_STATIONS - 2)
  /\ (N < 3 \/ MAX_STATIONS - 3 < N ->
      exists e,
        read_data sscanf_f fs w st = inl e /\ fatal_names e = filename w)
  /\ (N = MAX_STATIONS - 2 ->
      read_data sscanf_f fs w st
      = inl (Too_many_stations (MAX_STATIONS - 2) (filename w))).
Proof.
  intros Hf Hp N.
  destruct (read_data_by_length sscanf_f fs w bufs st Hf Hp) as (H1 & H2 & H3).
  cbv zeta in H1, H2, H3. fold N in H1, H2, H3.
  split; [reflexivity|]. split; [reflexivity|]. split; [|split].
  - intros Hn. destruct (H2 Hn) as (st' & E & En).
    exists st'. split; [exact E|]. split; [exact En|].
    unfold MAX_STATIONS in *. lia.
  - intros [Hn|Hn].
    + eexists. split; [apply H1; exact Hn | reflexivity].
    + eexists. split; [apply H3; unfold MAX_STATIONS in *; lia | reflexivity].
  - intros Hn. apply H3. lia.
Qed.



End Laws.

(** ** Laws of binary32 arithmetic *)

Module IEEELaws.
Import IEEE.
Local Existing Instance IEEE.arith.
Implicit Types st : @state IEEE.arith.

Lemma SFsub_diag (prec emax : Z) (x : spec_float) :
  is_number x = true -> SFsub prec emax x x = S754_zero false.
Proof.
  destruct x as [s|s| |s m e]; try discriminate; intros _; simpl.
  - destruct s; reflexivity.
  - rewrite Z.sub_diag. reflexivity.
Qed.

(** On a center line with an even station count, binary32 gives the
    middle of column 6a as exactly +0 whenever the middle of column 6 is
    a number. *)
Lemma center_middle_zero_even (w : nat) st :
  is_center w = true ->
  num_dat st w mod 2 = 0 ->
  let st' := shift_lines w st in
  is_number (mid_value st' w 5) = true ->
  mid_value st' w 8 = S754_zero false.
Proof.
  intros Hc Hev st' Hnum.
  destruct (shift_lines_spec w st) as ((HN & _) & _ & _ & _ & C).
  cbv zeta in HN, C. fold st' in HN, C. specialize (C Hc).
  revert Hnum C. unfold mid_value. rewrite HN.
  apply Nat.eqb_eq in Hev. rewrite Hev.
  generalize (ws st' w). intros c Hnum C.
  rewrite C by apply half_le.
  apply (SFsub_diag IEEE.prec32 IEEE.emax32). exact Hnum.
Qed.
End IEEELaws.

(** ** Laws of exact arithmetic *)

Module ExactLaws.
Import Exact.
Local Existing Instance Exact.arith.
Local Open Scope Qc_scope.
Implicit Types st : @state Exact.arith.

Lemma half_twice : half + half = 1.
Proof. apply Qc_is_canon. reflexivity. Qed.

Lemma rat_0 : rat 0 = 0.
Proof. apply Qc_is_canon. reflexivity. Qed.

Lemma rat_add (n m : nat) : rat (n + m) = rat n + rat m.
Proof.
  unfold rat. apply Qc_is_canon. unfold Qcplus, Q2Qc. cbn [this].
  rewrite !Qred_correct. rewrite Nat2Z.inj_add, inject_Z_plus. reflexivity.
Qed.

Lemma rat_nonzero (n : nat) : (1 <= n)%nat -> rat n <> 0.
Proof.
  intros H E. unfold rat in E. apply Q2Qc_eq_iff in E.
  unfold Qeq in E. simpl in E. lia.
Qed.

Ltac rationals :=
  cbn [float double fadd fsub fmul fdiv float_of_int to_double to_float
       dsub dmul ddiv double_of_int dlit Exact.arith] in *;
  fold half in *; fold (rat 0) in *.

Lemma half_cancel (x : Qc) : half * (x + x) = x.
Proof.
  transitivity ((half + half) * x); [ring|]. rewrite half_twice. ring.
Qed.


Lemma middle_col4 st (w n : nat) :
  middle n (col4 st w) = middle n (ws st w 3).
Proof. reflexivity. Qed.

Lemma mid_value_middle_at st (w c : nat) [N : nat -> nat] :
  num_dat st = N -> middle (N w) (ws st w c) = mid_value st w c.
Proof. intros <-. symmetry. apply mid_value_middle. Qed.

Lemma rat_mul_div (x : Qc) (n : nat) :
  (1 <= n)%nat -> x / rat n * rat n = x.
Proof. intros H. field. now apply rat_nonzero. Qed.

Lemma even_halves (n : nat) : (n mod 2 = 0)%nat -> rat n = rat (n / 2) + rat (n / 2).
Proof.
  intros H. rewrite <- rat_add. f_equal.
  pose proof (Nat.div_mod_eq n 2). lia.
Qed.

Lemma odd_halves (n : nat) :
  (n mod 2 <> 0)%nat -> rat n = rat ((n - 1) / 2) + rat ((n + 1) / 2).
Proof.
  intros H. rewrite <- rat_add. f_equal.
  pose proof (Nat.div_mod_eq n 2) as E1.
  pose proof (Nat.mod_upper_bound n 2 ltac:(lia)) as B.
  assert (M : (n mod 2 = 1)%nat) by lia.
  assert (H1 : ((n - 1) / 2 = n / 2)%nat).
  { symmetry. apply (Nat.div_unique (n - 1) 2 (n / 2) 0); lia. }
  assert (H2 : ((n + 1) / 2 = n / 2 + 1)%nat).
  { symmetry. apply (Nat.div_unique (n + 1) 2 (n / 2 + 1) 0); lia. }
  lia.
Qed.

Lemma neg_one_mul (x : Qc) : Q2Qc (-1 # 1) * x = - x.
Proof.
  assert (E : Q2Qc (-1 # 1) = - (1)) by (apply Qc_is_canon; reflexivity).
  rewrite E. ring.
Qed.

(** The corrected column of a solved diagonal, in closed form. *)
Lemma diagonal_col6_exact st (w : nat) :
  (w <= 1)%nat ->
  num_dat (diagonals_solved st) = num_dat st
  /\ col4 (diagonals_solved st) w 0 = 0
  /\ forall j, (j <= num_dat st w)%nat ->
       col6 (diagonals_solved st) w j
       = col4 (diagonals_solved st) w j
         + (- col4 (diagonals_solved st) w (num_dat st w) / rat (num_dat st w)
            * rat j
            + (half * col4 (diagonals_solved st) w (num_dat st w)
               - mid_value (diagonals_solved st) w 3)).
Proof.
  intros Hw. unfold col6, col4.
  pose proof (diagonals_solved_spec st w Hw) as S. cbv zeta in S.
  revert S. generalize (diagonals_solved st). intros D (ND & Z0 & V).
  split; [exact ND|]. split.
  { rewrite Z0. rationals. apply Qc_is_canon. reflexivity. }
  intros j Hj. rewrite ND in V. destruct (V j Hj) as [V4 V5].
  rewrite V5, V4. unfold slope, intercept. rewrite ND. rationals.
  rewrite neg_one_mul. reflexivity.
Qed.

(** Both ends of column 6 of a solved diagonal equal the intercept. *)
Lemma diagonal_ends_intercept st (w : nat) :
  (w <= 1)%nat ->
  (1 <= num_dat st w)%nat ->
  num_dat (diagonals_solved st) = num_dat st
  /\ col6 (diagonals_solved st) w 0
     = half * col4 (diagonals_solved st) w (num_dat st w)
       - mid_value (diagonals_solved st) w 3
  /\ col6 (diagonals_solved st) w (num_dat st w)
     = half * col4 (diagonals_solved st) w (num_dat st w)
       - mid_value (diagonals_solved st) w 3.
Proof.
  intros Hw HN.
  destruct (diagonal_col6_exact st w Hw) as (ND & C0 & E).
  pose proof (E 0%nat ltac:(lia)) as E0.
  pose proof (E (num_dat st w) (le_n _)) as EN. clear E.
  split; [exact ND|].
  revert C0 E0 EN. unfold col6, col4.
  generalize (mid_value (diagonals_solved st) w 3).
  generalize (ws (diagonals_solved st) w). clear ND.
  intros c m C0 E0 EN. rationals.
  split.
  - rewrite E0, C0, rat_0. ring.
  - rewrite EN.
    transitivity (c 3%nat (num_dat st w)
                  - c 3%nat (num_dat st w) / rat (num_dat st w)
                    * rat (num_dat st w)
                  + (half * c 3%nat (num_dat st w) - m)).
    + unfold Qcdiv. ring.
    + rewrite rat_mul_div by assumption. ring.
Qed.

(** The middle of column 6 of a solved diagonal is zero. *)
Lemma diagonal_middle_exact st (w : nat) :
  (w <= 1)%nat ->
  (1 <= num_dat st w)%nat ->
  mid_value (diagonals_solved st) w 5 = 0.
Proof.
  intros Hw HN.
  destruct (diagonal_col6_exact st w Hw) as (ND & _ & E).
  revert E. unfold col6, col4, mid_value. rewrite ND.
  generalize (ws (diagonals_solved st) w). clear ND. intros c E.
  set (N := num_dat st w) in *.
  destruct (Nat.eqb_spec (N mod 2) 0) as [Ev|Od].
  - rewrite E by apply half_le. rationals.
    set (x := c 3%nat N). set (m := c 3%nat (N / 2)%nat).
    assert (K : x / rat N * rat (N / 2) = half * x).
    { rewrite <- (half_cancel (x / rat N * rat (N / 2))).
      rewrite <- Qcmult_plus_distr_r, <- even_halves by assumption.
      now rewrite rat_mul_div. }
    transitivity (m + (- (x / rat N * rat (N / 2)) + (half * x - m)));
      [unfold Qcdiv; ring|].
    rewrite K. ring.
  - rewrite !E by (apply half_succ_le || apply half_pred_le; assumption).
    rationals.
    set (x := c 3%nat N).
    set (c1 := c 3%nat ((N - 1) / 2)%nat).
    set (c2 := c 3%nat ((N + 1) / 2)%nat).
    assert (K : x / rat N * (rat ((N - 1) / 2) + rat ((N + 1) / 2)) = x).
    { rewrite <- odd_halves by assumption. now apply rat_mul_div. }
    transitivity (half * (c1 + c2)
                  - half * (x / rat N
                            * (rat ((N - 1) / 2) + rat ((N + 1) / 2)))
                  + half * (half * x + half * x)
                  - half * (half * (c1 + c2) + half * (c1 + c2)));
      [unfold Qcdiv; ring|].
    rewrite K, !half_cancel. ring.
Qed.

(** C10.  On each diagonal, as [main] leaves it before the corners are
    copied to the perimeter lines, exact arithmetic gives both ends of
    column 6 the same value, the intercept
    b = 0.5*col4[N] - middle(col4). *)
Theorem diagonal_endpoints_equal st (w : nat) :
  (w <= 1)%nat ->
  (1 <= num_dat st w)%nat ->
  let D := diagonals_solved st in
  let N := num_dat D w in
  col6 D w 0 = col6 D w N
  /\ col6 D w 0 = half * col4 D w N - middle N (col4 D w).
Proof.
  intros Hw HN D N. subst N D.
  destruct (diagonal_ends_intercept st w Hw HN) as (ND & E0 & EN).
  revert ND E0 EN. generalize (diagonals_solved st). intros D ND E0 EN.
  rewrite ND, middle_col4, (mid_value_middle_at D w 3 ND).
  split; [rewrite E0, EN; reflexivity | exact E0].
Qed.

(** C8 (as the code has it).  On each diagonal, as [main] leaves it,
    exact arithmetic gives middle(col6) = 0, and the mean of the two ends
    of column 6 lies above it by the intercept
    b = 0.5*col4[N] - middle(col4): (col6[0] + col6[N])/2 =
    middle(col6) + b. *)
Theorem diagonal_middle_zero st (w : nat) :
  (w <= 1)%nat ->
  (1 <= num_dat st w)%nat ->
  let D := diagonals_solved st in
  let N := num_dat D w in
  mid_value D w 5 = 0
  /\ half * (col6 D w 0 + col6 D w N)
     = mid_value D w 5 + (half * col4 D w N - middle N (col4 D w)).
Proof.
  intros Hw HN D N. subst N D.
  destruct (diagonal_ends_intercept st w Hw HN) as (ND & E0 & EN).
  pose proof (diagonal_middle_exact st w Hw HN) as M0.
  revert ND E0 EN M0. generalize (diagonals_solved st).
  intros D ND E0 EN M0.
  rewrite ND, middle_col4, (mid_value_middle_at D w 3 ND).
  split; [exact M0|].
  rewrite M0, E0, EN.
  generalize (half * col4 D w (num_dat st w) - mid_value D w 3).
  intros b. rationals. rewrite half_cancel. ring.
Qed.
End ExactLaws.

(** ** The middle of column 6a in both arithmetics *)

Module CenterLaws.

End CenterLaws.

(** ** Laws of reading the data files *)

Section ReadingLaws.
Context {A : CArith}.
Variable sscanf_f : string -> option float.
Implicit Types st : state.

(** The reading loop writes rows [lines_read+1 .. n] of column 2 only. *)
Lemma read_loop_rows (w : nat) (bufs : list string) :
  forall file_line lines_read st n st',
    read_loop sscanf_f w bufs file_line lines_read st = inr (n, st') ->
    forall i c j, ~ (i = w /\ c = 1 /\ lines_read < j <= n) ->
      ws st' i c j = ws st i c j.
Proof.
  induction bufs as [|buf rest IH]; intros file_line lines_read st n st' H;
    cbn [read_loop] in H.
  - inversion H; subst. reflexivity.
  - destruct (comment_or_end (skip_space (guarantee_newline buf))).
    + eapply IH. exact H.
    + destruct (sscanf_f (skip_space (guarantee_newline buf))) as [x|]; [|discriminate].
      destruct (Nat.leb_spec (MAX_STATIONS - 2) (S lines_read)) as [Hm|Hm];
        [discriminate|].
      pose proof (read_loop_inr sscanf_f w rest _ _ _ _ _ H) as (Hle & _).
      intros i c j Hn. rewrite (IH _ _ _ _ _ H) by lia.
      apply ws_store_other. lia.
Qed.

Lemma read_loop_inl (w : nat) (bufs : list string) :
  forall file_line lines_read st e,
    read_loop sscanf_f w bufs file_line lines_read st = inl e ->
    fatal_names e = filename w.
Proof.
  induction bufs as [|buf rest IH]; intros file_line lines_read st e H;
    cbn [read_loop] in H.
  - discriminate.
  - destruct (comment_or_end (skip_space (guarantee_newline buf))).
    + eapply IH. exact H.
    + destruct (sscanf_f (skip_space (guarantee_newline buf))) as [x|].
      * destruct (Nat.leb_spec (MAX_STATIONS - 2) (S lines_read)) as [Hm|Hm].
        -- inversion H; subst. reflexivity.
        -- eapply IH. exact H.
      * inversion H; subst. reflexivity.
Qed.

Lemma read_data_inl (fs : files) (w : nat) st e :
  read_data sscanf_f fs w st = inl e -> fatal_names e = filename w.
Proof.
  unfold read_data. intros H.
  destruct (fs w) as [bufs|]; [|inversion H; subst; reflexivity].
  destruct (read_loop sscanf_f w bufs 0 0 st) as [e'|[n s1]] eqn:E.
  - inversion H; subst. eapply read_loop_inl. exact E.
  - destruct (n <? 3); [|discriminate]. inversion H; subst. reflexivity.
Qed.

Lemma read_files_inl (fs : files) (n : nat) :
  forall i st e,
    read_files sscanf_f fs n i st = inl e ->
    exists k s,
      i <= k < i + n
      /\ read_files sscanf_f fs (k - i) i st = inr s
      /\ read_data sscanf_f fs k s = inl e.
Proof.
  induction n as [|n IH]; intros i st e H; cbn [read_files] in H.
  - discriminate.
  - destruct (read_data sscanf_f fs i st) as [e'|s1] eqn:E.
    + inversion H; subst. exists i, st. rewrite Nat.sub_diag.
      split; [lia|]. split; [reflexivity | exact E].
    + apply IH in H. destruct H as (k & s & Hk & Hr & Hd).
      exists k, s. split; [lia|]. split; [|exact Hd].
      replace (k - i) with (S (k - S i)) by lia.
      cbn [read_files]. rewrite E. exact Hr.
Qed.


Lemma read_loop_data_lines (w : nat) (bufs : list string) :
  forall file_line file_line' lines_read st,
    all_parse sscanf_f bufs ->
    read_loop sscanf_f w bufs file_line lines_read st
    = read_loop sscanf_f w (data_lines bufs) file_line' lines_read st.
Proof.
  unfold all_parse, data_lines.
  induction bufs as [|buf rest IH]; intros file_line file_line' lines_read st Hp;
    cbn [read_loop filter].
  - reflexivity.
  - cbn [filter] in Hp.
    destruct (comment_or_end (skip_space (guarantee_newline buf))) eqn:Hc; cbn [negb] in *.
    + apply IH. assumption.
    + inversion Hp as [|? ? Hx Hrest]; subst.
      cbn [read_loop]. rewrite Hc.
      destruct (sscanf_f (skip_space (guarantee_newline buf))) as [x|]; [|congruence].
      destruct (Nat.leb_spec (MAX_STATIONS - 2) (S lines_read)) as [Hm|Hm];
        [reflexivity|].
      apply IH. assumption.
Qed.

(** X1.  For a data file whose data lines all hold one number, the number
    [n] of data lines alone decides what [read_data] does: fewer than 3
    is the too-few-lines error carrying [n], 3 to MAX_STATIONS-3 = 125 is
    accepted with the station count set to [n], and MAX_STATIONS-2 = 126
    or more is the too-many-stations error. *)
Theorem read_data_outcome_by_count (fs : files) (w : nat)
        (bufs : list string) st :
  fs w = Some bufs ->
  all_parse sscanf_f bufs ->
  let n := List.length (data_lines bufs) in
  (n < 3 ->
   read_data sscanf_f fs w st = inl (Too_few_lines n (filename w)))
  /\ (3 <= n <= 125 ->
      exists st', read_data sscanf_f fs w st = inr st' /\ num_dat st' w = n)
  /\ (126 <= n ->
      read_data sscanf_f fs w st
      = inl (Too_many_stations 126 (filename w))).
Proof.
  intros Hf Hp n.
  destruct (read_data_by_length sscanf_f fs w bufs st Hf Hp) as (H1 & H2 & H3).
  split; [exact H1|]. split.
  - intros Hn. apply H2. unfold MAX_STATIONS. simpl. exact Hn.
  - intros Hn. apply H3. unfold MAX_STATIONS. simpl. exact Hn.
Qed.


(** X3.  Blank lines and comment lines carry no information: a file whose
    data lines all parse is read exactly as the file made of its data
    lines alone. *)
Theorem read_data_ignores_comments (fs fs' : files) (w : nat)
        (bufs : list string) st :
  fs w = Some bufs ->
  fs' w = Some (data_lines bufs) ->
  all_parse sscanf_f bufs ->
  read_data sscanf_f fs w st = read_data sscanf_f fs' w st.
Proof.
  intros Hf Hf' Hp. unfold read_data. rewrite Hf, Hf'.
  rewrite (read_loop_data_lines w bufs 0 0 0 st Hp). reflexivity.
Qed.

(** X4.  A file that [read_data] accepts has between 3 and 125 readings,
    and reading it changes nothing but rows 1..N of column 2 of its own
    worksheet and its own station count: the other worksheets, the other
    station counts, the units and the foot spacing are as before. *)
Theorem read_data_footprint (fs : files) (w : nat) st st' :
  read_data sscanf_f fs w st = inr st' ->
  3 <= num_dat st' w <= 125
  /\ (forall i, i <> w -> num_dat st' i = num_dat st i)
  /\ metric st' = metric st
  /\ foot_spacing st' = foot_spacing st
  /\ (forall i c j, ~ (i = w /\ c = 1 /\ 1 <= j <= num_dat st' w) ->
         ws st' i c j = ws st i c j).
Proof.
  intros H.
  destruct (read_data_inr sscanf_f fs w st st' H) as (B & O & M & S & _).
  split; [exact B|]. split; [exact O|]. split; [exact M|]. split; [exact S|].
  revert H. unfold read_data.
  destruct (fs w) as [bufs|]; [|discriminate].
  destruct (read_loop sscanf_f w bufs 0 0 st) as [e|[n s1]] eqn:E;
    [discriminate|].
  destruct (Nat.ltb_spec n 3) as [Hn|Hn]; [discriminate|].
  intros H. inversion H; subst st'; clear H.
  unfold set_num_dat; cbn [num_dat ws]. rewrite Nat.eqb_refl.
  intros i c j Hc. apply (read_loop_rows w bufs _ _ _ _ _ E). lia.
Qed.

(** When reading the eight files fails, the error comes from [read_data]
    on one of them, all files before it were accepted, and the error
    names that file. *)
Lemma read_files_failure (fs : files) st (e : fatal) :
  read_files sscanf_f fs 8 0 st = inl e ->
  exists k s,
    k <= 7
    /\ read_files sscanf_f fs k 0 st = inr s
    /\ read_data sscanf_f fs k s = inl e
    /\ fatal_names e = filename k.
Proof.
  intros Hr.
  apply read_files_inl in Hr. destruct Hr as (k & s & Hk & Hp & Hd).
  exists k, s. rewrite Nat.sub_0_r in Hp.
  split; [lia|]. split; [exact Hp|]. split; [exact Hd|].
  eapply read_data_inl. exact Hd.
Qed.
End ReadingLaws.

(** ** Laws of the configuration file, the station counts and [max] *)

Section ConfigLaws.
Context {A : CArith}.
Variable sscanf_cf : string -> option (ascii * float).
Implicit Types st : state.

Lemma config_loop_skips (pre rest : list string) :
  forall file_line st,
    data_lines pre = [] ->
    config_loop sscanf_cf (pre ++ rest) file_line st
    = config_loop sscanf_cf rest (file_line + List.length pre) st.
Proof.
  unfold data_lines.
  induction pre as [|buf pre IH]; intros file_line st Hp;
    cbn [app config_loop List.length filter] in *.
  - now rewrite Nat.add_0_r.
  - destruct (comment_or_end (skip_space (guarantee_newline buf))); cbn [negb] in Hp;
      [|discriminate].
    rewrite IH by assumption. f_equal. lia.
Qed.


(** X7.  A configuration file that holds nothing but blank lines and
    comments is rejected with the must-specify error. *)
Theorem read_config_file_needs_data_line (bufs : list string) st :
  data_lines bufs = [] ->
  read_config_file sscanf_cf (Some bufs) st
  = inl (Config_must_specify config_fname).
Proof.
  intros Hp. unfold read_config_file.
  rewrite <- (app_nil_r bufs). rewrite config_loop_skips by assumption.
  reflexivity.
Qed.

Lemma config_loop_inr (bufs : list string) :
  forall file_line st st',
    config_loop sscanf_cf bufs file_line st = inr st' ->
    ws st' = ws st /\ num_dat st' = num_dat st
    /\ exists line flag,
         In line bufs
         /\ sscanf_cf (skip_space (guarantee_newline line)) = Some (flag, foot_spacing st')
         /\ ((is_M flag = true /\ metric st' = 1%Z)
             \/ (is_M flag = false /\ is_I flag = true /\ metric st' = 0%Z)).
Proof.
  induction bufs as [|buf rest IH]; intros file_line st st' H;
    cbn [config_loop] in H.
  - discriminate.
  - destruct (comment_or_end (skip_space (guarantee_newline buf))).
    + apply IH in H. destruct H as (H1 & H2 & line & flag & Hin & Hrest).
      split; [exact H1|]. split; [exact H2|].
      exists line, flag. split; [now right | exact Hrest].
    + destruct (sscanf_cf (skip_space (guarantee_newline buf))) as [[flag x]|] eqn:Es;
        [|discriminate].
      destruct (is_M flag) eqn:EM; cbn [orb negb] in H.
      * inversion H; subst st'; clear H. cbn.
        split; [reflexivity|]. split; [reflexivity|].
        exists buf, flag. split; [now left|]. split; [exact Es|]. now left.
      * destruct (is_I flag) eqn:EI; cbn [negb] in H; [|discriminate].
        inversion H; subst st'; clear H. cbn.
        split; [reflexivity|]. split; [reflexivity|].
        exists buf, flag. split; [now left|]. split; [exact Es|]. now right.
Qed.

(** X8.  Whenever [read_config_file] returns, [metric] is 1 or 0 (never
    the initial -1), it is 1 exactly for the flag M and 0 for the flag I,
    [foot_spacing] is the number converted from the same line, and the
    worksheets and station counts are unchanged. *)
Theorem read_config_file_sets_units (cfg : option (list string)) st st' :
  read_config_file sscanf_cf cfg st = inr st' ->
  (metric st' = 1%Z \/ metric st' = 0%Z)
  /\ ws st' = ws st
  /\ num_dat st' = num_dat st
  /\ exists bufs line flag,
       cfg = Some bufs /\ In line bufs
       /\ sscanf_cf (skip_space (guarantee_newline line)) = Some (flag, foot_spacing st')
       /\ (metric st' = 1%Z <-> is_M flag = true)
       /\ (metric st' = 0%Z <-> is_I flag = true).
Proof.
  unfold read_config_file. destruct cfg as [bufs|]; [|discriminate].
  intros H. apply config_loop_inr in H.
  destruct H as (H1 & H2 & line & flag & Hin & Es & Hm).
  assert (HMI : is_M flag = true -> is_I flag = true -> False).
  { unfold is_M, is_I. intros E1 E2.
    apply Nat.eqb_eq in E1, E2. congruence. }
  split; [destruct Hm as [[_ E]|(_ & _ & E)]; auto|].
  split; [exact H1|]. split; [exact H2|].
  exists bufs, line, flag. split; [reflexivity|]. split; [exact Hin|].
  split; [exact Es|].
  destruct Hm as [[EM E]|(EM & EI & E)]; rewrite E.
  - split; [tauto|]. split; [discriminate|].
    intros EI. exfalso. now apply HMI.
  - split; [split; [discriminate|congruence]|]. tauto.
Qed.
End ConfigLaws.

Section CountLaws.
Context {A : CArith}.
Variable sqrt : double -> double.
Implicit Types st : state.

Lemma do_consistency_checks_unfold st :
  do_consistency_checks sqrt st
  = check_pythagoras sqrt st 1
      (check_pythagoras sqrt st 0
         (check_three_lines st 1
            (check_three_lines st 0
               (if negb (num_dat st 0 =? num_dat st 1)
                then [Diagonals_differ (filename 0) (filename 1)]
                else [])))).
Proof. reflexivity. Qed.

Lemma three_differ (a b c : nat) :
  negb (a =? b) || negb (b =? c) || negb (a =? c) = false
  <-> a = b /\ b = c.
Proof.
  destruct (Nat.eqb_spec a b), (Nat.eqb_spec b c), (Nat.eqb_spec a c);
    cbn; split; intros H; try discriminate; try lia; reflexivity.
Qed.

(** X9.  [do_consistency_checks] prints no warning exactly when the two
    diagonals have the same number of stations, the three East-West
    lines (NE_NW, SE_SW, E_W) have the same number, the three North-South
    lines (NE_SE, NW_SW, N_S) have the same number, and neither diagonal
    is off the Pythagoras test; the third comparison of each group of
    three is implied by the other two. *)
Theorem do_consistency_checks_silent st :
  do_consistency_checks sqrt st = []
  <-> num_dat st 0 = num_dat st 1
      /\ (num_dat st 2 = num_dat st 4 /\ num_dat st 4 = num_dat st 6)
      /\ (num_dat st 3 = num_dat st 5 /\ num_dat st 5 = num_dat st 7)
      /\ off_pythagoras sqrt (num_dat st 2) (num_dat st 3) (num_dat st 0)
         = false
      /\ off_pythagoras sqrt (num_dat st 4) (num_dat st 5) (num_dat st 1)
         = false.
Proof.
  rewrite do_consistency_checks_unfold.
  unfold check_pythagoras, check_three_lines. cbn [Nat.add Nat.mul].
  rewrite <- !three_differ.
  destruct (Nat.eqb_spec (num_dat st 0) (num_dat st 1)) as [E|E]; cbn [negb];
    destruct (negb (num_dat st 2 =? num_dat st 4)
              || negb (num_dat st 4 =? num_dat st 6)
              || negb (num_dat st 2 =? num_dat st 6));
    destruct (negb (num_dat st 3 =? num_dat st 5)
              || negb (num_dat st 5 =? num_dat st 7)
              || negb (num_dat st 3 =? num_dat st 7));
    destruct (off_pythagoras sqrt (num_dat st 2) (num_dat st 3) (num_dat st 0));
    destruct (off_pythagoras sqrt (num_dat st 4) (num_dat st 5) (num_dat st 1));
    cbn [app]; split; intros H;
    try discriminate H; try tauto;
    try (destruct H as (H1 & H2 & H3 & H4 & H5); congruence).
Qed.
End CountLaws.

Section MaxLaws.
Local Open Scope Z_scope.

(** X10.  [max] returns the largest of its three arguments: the result is
    one of them and none of them exceeds it. *)
Theorem max_is_greatest (a b c : Z) :
  (max a b c = a \/ max a b c = b \/ max a b c = c)
  /\ a <= max a b c /\ b <= max a b c /\ c <= max a b c.
Proof.
  unfold max. cbv zeta.
  destruct (Z.ltb_spec a b); destruct (Z.ltb_spec b c);
    destruct (Z.ltb_spec a c); lia.
Qed.
End MaxLaws.

(** ** Which cells each step writes *)

Section FootprintFacts.
Context {A : CArith}.
Implicit Types st : state.

Ltac store_simpl :=
  repeat first [ rewrite num_dat_store
               | rewrite ws_store_same
               | rewrite ws_store_other by lia ].

(** A pass over sheets [lo..hi] writes inside the union of the
    footprints of its steps. *)
Lemma sheets_frame (body : nat -> state -> state)
      (W : nat -> nat -> nat -> Prop) (lo hi : nat) st :
  (forall w s, lo <= w <= hi -> num_dat s = num_dat st ->
      same_globals s (body w s)
      /\ (forall i c j, ~ (i = w /\ W w c j) ->
             ws (body w s) i c j = ws s i c j)) ->
  same_globals st (for_up body lo hi st)
  /\ forall i c j, ~ (lo <= i <= hi /\ W i c j) ->
       ws (for_up body lo hi st) i c j = ws st i c j.
Proof.
  intros Hbody.
  destruct (Nat.le_gt_cases lo (S hi)) as [Hle|Hgt].
  2:{ rewrite for_up_empty by lia.
      split; [apply same_globals_refl | reflexivity]. }
  set (P := fun (k : nat) (s : state) =>
    same_globals st s
    /\ forall i c j, ~ (lo <= i < k /\ W i c j) -> ws s i c j = ws st i c j).
  assert (HP : P (S hi) (for_up body lo hi st)).
  { apply for_up_inv; [assumption| |].
    - split; [apply same_globals_refl | reflexivity].
    - intros k s Hk (Hg & Hfr).
      destruct (Hbody k s Hk) as (Gb & Fb); [apply Hg|].
      split; [eapply same_globals_trans; eassumption|].
      intros i c j Hn. rewrite Fb.
      + apply Hfr. intros (Hi & HW). apply Hn. split; [lia|assumption].
      + intros (-> & HW). apply Hn. split; [lia|assumption]. }
  destruct HP as (Hg & Hfr). split; [assumption|].
  intros i c j Hn. apply Hfr. intros (Hi & HW). apply Hn.
  split; [lia|assumption].
Qed.

Lemma first_four_columns_more (w : nat) st :
  let N := num_dat st w in
  let st' := first_four_columns w st in
  (forall j, j <= N -> ws st' w 0 j = float_of_int (Z.of_nat j + 1))
  /\ (1 <= N ->
      forall i c j, ~ (i = w /\ (c = 0 \/ c = 2 \/ c = 3) /\ j <= N) ->
        ws st' i c j = ws st i c j).
Proof.
  intros N st'. subst st'. unfold first_four_columns. fold N.
  destruct (fill_spec w 0 (fun j _ => float_of_int (Z.of_nat j + 1)) 0 N st)
    as (G1 & F1 & V1).
  cbv beta zeta in G1, F1, V1.
  set (s1 := for_up _ 0 N st) in *.
  destruct (fill_spec w 2 (fun j s => fsub (ws s w 1 j) (ws s w 1 1)) 1 N s1)
    as (G2 & F2 & _).
  cbv beta zeta in G2, F2.
  set (s2 := for_up _ 1 N s1) in *.
  set (s3 := store s2 w 3 0 (to_float (dlit 0 1))).
  set (s4 := store s3 w 3 1 (to_float (dlit 0 1))).
  destruct (fill_spec w 3 (fun j s => fadd (ws s w 3 (j - 1)) (ws s w 2 j))
                      2 N s4) as (G5 & F5 & _).
  cbv beta zeta in G5, F5.
  set (s5 := for_up _ 2 N s4) in *.
  split.
  - intros j Hj. rewrite F5 by lia. subst s4 s3.
    rewrite !ws_store_other by lia. rewrite F2 by lia.
    destruct (V1 j) as (sj & E & _); [lia|]. exact E.
  - intros HN i c j Hn. rewrite F5 by lia. subst s4 s3.
    rewrite !ws_store_other by lia. rewrite F2 by lia. apply F1. lia.
Qed.

Lemma first_four_columns_rows (w : nat) st :
  1 <= num_dat st w ->
  same_globals st (first_four_columns w st)
  /\ forall i c j,
       ~ (i = w /\ (c = 0 \/ c = 2 \/ c = 3) /\ j <= num_dat st w) ->
       ws (first_four_columns w st) i c j = ws st i c j.
Proof.
  intros HN. split; [apply first_four_columns_spec|].
  apply first_four_columns_more. exact HN.
Qed.

Lemma seed_perimeter_rows st :
  (forall i, 2 <= i <= 5 -> 1 <= num_dat st i) ->
  forall i c j,
    ~ (2 <= i <= 5 /\ 4 <= c <= 5 /\ (j = 0 \/ j = num_dat st i)) ->
    ws (seed_perimeter st) i c j = ws st i c j.
Proof.
  intros HN. unfold seed_perimeter. cbv zeta.
  pose proof (HN 2 ltac:(lia)). pose proof (HN 3 ltac:(lia)).
  pose proof (HN 4 ltac:(lia)). pose proof (HN 5 ltac:(lia)).
  destruct (copy_NE_corner_spec st) as (G1 & F1 & _).
  cbv zeta in G1, F1.
  set (s1 := copy_NE_corner st) in *.
  assert (N1 : num_dat s1 = num_dat st) by (destruct G1 as (E & _); exact E).
  destruct (copy_SW_corner_spec s1) as (G2 & F2 & _).
  cbv zeta in G2, F2.
  set (s2 := copy_SW_corner s1) in *.
  assert (N2 : num_dat s2 = num_dat st)
    by (destruct G2 as (E & _); congruence).
  destruct (copy_NW_corner_spec s2) as (G3 & F3 & _);
    [rewrite N2; assumption|].
  cbv zeta in G3, F3.
  set (s3 := copy_NW_corner s2) in *.
  assert (N3 : num_dat s3 = num_dat st)
    by (destruct G3 as (E & _); congruence).
  destruct (copy_SE_corner_spec s3) as (G4 & F4 & _);
    [rewrite N3; assumption|].
  cbv zeta in G4, F4.
  set (s4 := copy_SE_corner s3) in *.
  rewrite N1 in *. rewrite N2 in *. rewrite N3 in *.
  intros i c j Hn.
  assert (C2 : i = 2 -> ~ (4 <= c <= 5 /\ (j = 0 \/ j = num_dat st 2)))
    by (intros ->; lia).
  assert (C3 : i = 3 -> ~ (4 <= c <= 5 /\ (j = 0 \/ j = num_dat st 3)))
    by (intros ->; lia).
  assert (C4 : i = 4 -> ~ (4 <= c <= 5 /\ (j = 0 \/ j = num_dat st 4)))
    by (intros ->; lia).
  assert (C5 : i = 5 -> ~ (4 <= c <= 5 /\ (j = 0 \/ j = num_dat st 5)))
    by (intros ->; lia).
  rewrite F4 by lia. rewrite F3 by lia.
  rewrite F2 by (intros (Hi & Hc & Hj); assert (i = 4 \/ i = 5) as [->| ->] by lia; lia).
  apply F1. lia.
Qed.

Lemma seed_center_rows st :
  forall i c j,
    ~ (6 <= i <= 7 /\ 4 <= c <= 5 /\ (j = 0 \/ j = num_dat st i)) ->
    ws (seed_center st) i c j = ws st i c j.
Proof.
  intros i c j Hn. unfold seed_center. cbv zeta.
  assert (C6 : i = 6 -> ~ (4 <= c <= 5 /\ (j = 0 \/ j = num_dat st 6)))
    by (intros ->; lia).
  assert (C7 : i = 7 -> ~ (4 <= c <= 5 /\ (j = 0 \/ j = num_dat st 7)))
    by (intros ->; lia).
  rewrite !num_dat_store.
  rewrite !ws_store_other by lia. reflexivity.
Qed.

Lemma shift_lines_rows (w : nat) st :
  same_globals st (shift_lines w st)
  /\ forall i c j,
       ~ (i = w /\ (c = 4 \/ c = 5 \/ c = 8) /\ j <= num_dat st w) ->
       ws (shift_lines w st) i c j = ws st i c j.
Proof.
  destruct (shift_lines_spec w st) as (G & F & _).
  split; [assumption|]. intros i c j Hn. apply F. lia.
Qed.

Lemma diagonal_correction_rows (w : nat) st :
  same_globals st (diagonal_correction w st)
  /\ forall i c j,
       ~ (i = w /\ (c = 4 \/ c = 5) /\ j <= num_dat st w) ->
       ws (diagonal_correction w st) i c j = ws st i c j.
Proof.
  destruct (diagonal_correction_spec w st) as (G & F & _).
  split; assumption.
Qed.

(** After the first four columns are filled, the rest of [solve_lines]
    writes columns 5, 6 and 6a only. *)
Lemma solve_lines_late_rows st :
  (forall i, 2 <= i <= 5 -> 1 <= num_dat st i) ->
  forall i c j,
    ~ (i <= 7 /\ (c = 4 \/ c = 5 \/ c = 8) /\ j <= num_dat st i) ->
    ws (solve_lines st) i c j = ws (for_up first_four_columns 0 7 st) i c j.
Proof.
  intros HN. rewrite solve_lines_unfold. unfold diagonals_solved.
  destruct (sheets_local first_four_columns 0 7 st first_four_columns_local)
    as (G1 & _).
  set (s1 := for_up first_four_columns 0 7 st) in *.
  assert (N1 : num_dat s1 = num_dat st) by apply G1.
  destruct (sheets_frame diagonal_correction
              (fun w c j => (c = 4 \/ c = 5) /\ j <= num_dat st w)
              0 1 s1) as (G2 & F2).
  { intros w s Hw Hs. rewrite <- N1, <- Hs. apply diagonal_correction_rows. }
  set (s2 := for_up diagonal_correction 0 1 s1) in *.
  assert (N2 : num_dat s2 = num_dat st)
    by (destruct G2 as (E & _); congruence).
  pose proof (seed_perimeter_rows s2) as F3.
  pose proof (seed_perimeter_globals s2) as G3.
  set (s3 := seed_perimeter s2) in *.
  assert (N3 : num_dat s3 = num_dat st)
    by (destruct G3 as (E & _); congruence).
  destruct (sheets_frame shift_lines
              (fun w c j => (c = 4 \/ c = 5 \/ c = 8) /\ j <= num_dat st w)
              2 5 s3) as (G4 & F4).
  { intros w s Hw Hs. rewrite <- N3, <- Hs. apply shift_lines_rows. }
  set (s4 := for_up shift_lines 2 5 s3) in *.
  assert (N4 : num_dat s4 = num_dat st)
    by (destruct G4 as (E & _); congruence).
  pose proof (seed_center_rows s4) as F5.
  pose proof (seed_center_globals s4) as G5.
  set (s5 := seed_center s4) in *.
  assert (N5 : num_dat s5 = num_dat st)
    by (destruct G5 as (E & _); congruence).
  destruct (sheets_frame shift_lines
              (fun w c j => (c = 4 \/ c = 5 \/ c = 8) /\ j <= num_dat st w)
              6 7 s5) as (G6 & F6).
  { intros w s Hw Hs. rewrite <- N5, <- Hs. apply shift_lines_rows. }
  set (s6 := for_up shift_lines 6 7 s5) in *.
  rewrite N2 in F3. rewrite N4 in F5.
  intros i c j Hn.
  rewrite F6 by lia. rewrite F5 by lia. rewrite F4 by lia.
  rewrite F3; [|intros k Hk; apply HN; lia|lia].
  apply F2. lia.
Qed.

(** Solving the lines writes columns 1 and 3 to 6a, rows 0..N, of the
    eight worksheets and nothing else. *)
Lemma solve_lines_rows st :
  (forall i, i <= 7 -> 1 <= num_dat st i) ->
  forall i c j,
    ~ (i <= 7 /\ (c = 0 \/ c = 2 \/ c = 3 \/ c = 4 \/ c = 5 \/ c = 8)
       /\ j <= num_dat st i) ->
    ws (solve_lines st) i c j = ws st i c j.
Proof.
  intros HN i c j Hn.
  rewrite solve_lines_late_rows by (try (intros k Hk; apply HN); lia).
  destruct (sheets_frame first_four_columns
              (fun w c j => (c = 0 \/ c = 2 \/ c = 3) /\ j <= num_dat st w)
              0 7 st) as (G1 & F1).
  { intros w s Hw Hs. rewrite <- Hs. apply first_four_columns_rows.
    rewrite Hs. apply HN. lia. }
  apply F1. lia.
Qed.

(** Column 1 after the first pass of [main]. *)
Lemma first_pass_col1 st (w j : nat) :
  w <= 7 -> j <= num_dat st w ->
  ws (for_up first_four_columns 0 7 st) w 0 j = float_of_int (Z.of_nat j + 1).
Proof.
  intros Hw Hj.
  destruct (sheets_local first_four_columns 0 7 st first_four_columns_local)
    as (_ & _ & V).
  destruct (V w ltac:(lia)) as (s & (Ns & _) & _ & E).
  rewrite E. apply first_four_columns_more. rewrite Ns. exact Hj.
Qed.

(** Columns 7 and 8 are the only ones [normalize] writes, rows 0..N. *)
Lemma normalize_rows st :
  forall i c j,
    ~ (i <= 7 /\ (c = 6 \/ c = 7) /\ j <= num_dat st i) ->
    ws (normalize st) i c j = ws st i c j.
Proof.
  unfold normalize, columns_7_8. cbv zeta.
  set (lowest := fst (return_low_and_high_point st)).
  destruct (sheets_spec (column7 lowest 5) 6
              (fun s i j => fsub (ws s i 5 j) lowest) 0 5 st)
    as (G1 & F1 & _).
  { intros i s. apply column7_spec. lia. }
  { intros s s' i j _ H. cbv beta. rewrite H by lia. reflexivity. }
  cbv beta zeta in G1, F1.
  set (s1 := for_up (column7 lowest 5) 0 5 st) in *.
  destruct (sheets_spec (column7 lowest 8) 6
              (fun s i j => fsub (ws s i 8 j) lowest) 6 7 s1)
    as (G2 & F2 & _).
  { intros i s. apply column7_spec. lia. }
  { intros s s' i j _ H. cbv beta. rewrite H by lia. reflexivity. }
  cbv beta zeta in G2, F2.
  set (s2 := for_up (column7 lowest 8) 6 7 s1) in *.
  set (s3 := scale_foot_spacing s2).
  assert (W3 : ws s3 = ws s2).
  { subst s3. unfold scale_foot_spacing.
    destruct (negb (metric s2 =? 0)%Z); reflexivity. }
  assert (N3 : num_dat s3 = num_dat s2).
  { subst s3. unfold scale_foot_spacing.
    destruct (negb (metric s2 =? 0)%Z); reflexivity. }
  assert (N1 : num_dat s1 = num_dat st) by apply G1.
  assert (N2 : num_dat s2 = num_dat st)
    by (destruct G2 as (E & _); congruence).
  destruct (sheets_spec column8 7
              (fun s i j => fmul (fmul (ws s i 6 j) arcsec) (foot_spacing s))
              0 7 s3) as (G4 & F4 & _).
  { intros i s. apply column8_spec. }
  { intros s s' i j (_ & _ & Gs) H. cbv beta.
    rewrite H, Gs by lia. reflexivity. }
  cbv beta zeta in G4, F4.
  set (s4 := for_up column8 0 7 s3) in *.
  intros i c j Hn.
  rewrite F4 by (rewrite N3, N2; lia). rewrite W3.
  rewrite F2 by (rewrite N1; lia). apply F1. lia.
Qed.
End FootprintFacts.

Section ReadFootprint.
Context {A : CArith}.
Variable sscanf_f : string -> option float.
Implicit Types st : state.

Lemma read_files_rows (fs : files) (n : nat) :
  forall i st st',
    read_files sscanf_f fs n i st = inr st' ->
    forall k c j,
      ~ (i <= k < i + n /\ c = 1 /\ 1 <= j <= num_dat st' k) ->
      ws st' k c j = ws st k c j.
Proof.
  induction n as [|n IH]; intros i st st' H; cbn [read_files] in H.
  - inversion H; subst. reflexivity.
  - destruct (read_data sscanf_f fs i st) as [e|s1] eqn:E; [discriminate|].
    apply read_data_footprint in E. destruct E as (_ & _ & _ & _ & W1).
    pose proof (read_files_inr sscanf_f fs n _ _ _ H) as (_ & O2 & _).
    intros k c j Hn. rewrite (IH _ _ _ H) by lia.
    apply W1. intros (-> & -> & Hj). apply Hn.
    rewrite O2 by lia. lia.
Qed.
End ReadFootprint.

(** ** Laws of the worksheets, for every arithmetic *)

Section WorksheetLaws.
Context {A : CArith}.
Variable sscanf_f : string -> option float.
Implicit Types st : state.

Lemma running_sum_step (x : nat -> float) (j : nat) :
  2 <= j -> running_sum x j = fadd (running_sum x (j - 1)) (x j).
Proof.
  intros Hj. unfold running_sum.
  replace (j - 1) with (S (j - 2)) by lia.
  rewrite seq_S, map_app, fold_left_app. cbn [map fold_left].
  replace (S (j - 2) - 1) with (j - 2) by lia.
  replace (2 + (j - 2)) with j by lia. reflexivity.
Qed.

(** X11.  [first_four_columns] numbers the stations of its worksheet
    1, 2, ..., N+1 in column 1, leaves the readings of column 2 alone,
    and makes column 4 the running sum of column 3: col4[0] = col4[1] = 0
    and col4[j] = ((0 + col3[2]) + col3[3]) + ... + col3[j], added in that
    order; no other worksheet and no global is changed. *)
Theorem first_four_columns_worksheet (w : nat) st :
  let N := num_dat st w in
  let st' := first_four_columns w st in
  (forall j, j <= N -> col1 st' w j = float_of_int (Z.of_nat j + 1))
  /\ (forall j, col2 st' w j = col2 st w j)
  /\ col4 st' w 0 = to_float (dlit 0 1)
  /\ (forall j, 1 <= j <= N -> col4 st' w j = running_sum (col3 st' w) j)
  /\ (forall i c j, i <> w -> ws st' i c j = ws st i c j)
  /\ same_globals st st'.
Proof.
  intros N st'. unfold col1, col2, col3, col4.
  destruct (first_four_columns_spec w st) as (G & F & _ & _ & Z0 & Z1 & R).
  destruct (first_four_columns_more w st) as (L & _).
  cbv zeta in F, Z0, Z1, R, L. fold N in R, L. fold st' in F, Z0, Z1, R, L.
  split; [exact L|]. split; [intros j; apply F; lia|].
  split; [exact Z0|]. split.
  - intros j Hj. destruct Hj as [H1 HN].
    induction j as [|j IH]; [lia|].
    destruct (Nat.eq_dec j 0) as [->|Hne].
    + rewrite Z1. reflexivity.
    + rewrite running_sum_step by lia. rewrite R by lia.
      replace (S j - 1) with j by lia. rewrite IH by lia. reflexivity.
  - split; [intros i c j Hi; apply F; lia | exact G].
Qed.

Lemma keep_max (x tmp m : float) :
  flt m x = false -> flt (if flt m tmp then tmp else m) x = false.
Proof.
  intros H. destruct (flt m tmp) eqn:E; [|assumption].
  destruct (flt tmp x) eqn:E'; [|reflexivity].
  rewrite (flt_trans _ _ _ E E') in H. discriminate.
Qed.

Lemma new_max (tmp m : float) :
  flt (if flt m tmp then tmp else m) tmp = false.
Proof. destruct (flt m tmp) eqn:E; [apply flt_irrefl | assumption]. Qed.

Lemma return_high_point_highest st :
  is_highest st (snd (return_low_and_high_point st)).
Proof.
  unfold return_low_and_high_point.
  set (P := fun (k : nat) (mm : float * float) =>
    (exists i j, i <= 7 /\ j <= num_dat st i /\ snd mm = selected st i j)
    /\ (forall i j, i < k -> j <= num_dat st i ->
           flt (snd mm) (selected st i j) = false)).
  match goal with |- is_highest st (snd (for_up ?b 0 7 ?s0)) =>
    assert (HP : P 8 (for_up b 0 7 s0)) end.
  { apply for_up_inv; [lia| |].
    - split; [|intros i j Hi; lia].
      exists 0, 0. repeat split; lia.
    - intros k mm Hk (Hatt & Hup).
      set (Q := fun (l : nat) (mm' : float * float) =>
        (exists i j, i <= 7 /\ j <= num_dat st i
                     /\ snd mm' = selected st i j)
        /\ (forall i j, i < k -> j <= num_dat st i ->
               flt (snd mm') (selected st i j) = false)
        /\ (forall j, j < l -> flt (snd mm') (selected st k j) = false)).
      assert (HQ : Q (S (num_dat st k))
                     (for_up (low_high_step st k) 0 (num_dat st k) mm)).
      { apply for_up_inv; [lia| |].
        - split; [assumption|]. split; [assumption|]. intros j Hj; lia.
        - intros l mm' Hl (Hatt' & Hup' & Hrow). unfold low_high_step.
          cbn [fst snd]. split; [|split].
          + destruct (flt (snd mm') (selected st k l)); [|assumption].
            exists k, l. repeat split; lia.
          + intros i j Hi Hj. apply keep_max. now apply Hup'.
          + intros j Hj. destruct (Nat.eq_dec j l) as [->|Hne].
            * apply new_max.
            * apply keep_max. apply Hrow. lia. }
      destruct HQ as (Hatt' & Hup' & Hrow).
      split; [assumption|].
      intros i j Hi Hj. destruct (Nat.eq_dec i k) as [->|Hne].
      + apply Hrow. lia.
      + apply Hup'; [lia|assumption]. }
  destruct HP as (Hatt & Hup). split; [assumption|].
  intros i j Hi Hj. apply Hup; [lia|assumption].
Qed.

(** X12.  [return_low_and_high_point] returns, besides the lowest point,
    a highest point of the plate: the second result is the value of
    column 6 (6a on the center lines) at some station, no station of any
    line has a value above it, and it is not below the first result. *)
Theorem low_and_high_point_bracket st :
  let lowest := fst (return_low_and_high_point st) in
  let highest := snd (return_low_and_high_point st) in
  is_lowest st lowest
  /\ is_highest st highest
  /\ flt highest lowest = false.
Proof.
  intros lowest highest.
  pose proof (return_low_point_lowest st) as HL.
  pose proof (return_high_point_highest st) as HH.
  split; [exact HL|]. split; [exact HH|].
  destruct HL as ((i & j & Hi & Hj & E) & _). fold lowest in E.
  rewrite E. apply HH; assumption.
Qed.

(** X13.  After a successful run every cell of [ws] outside the
    worksheets, that is with line index above 7, column index above 8 or
    station index above the line's station count, holds what it held
    before [main]; as the station counts are at most 125, no cell outside
    [ws[8][9][MAX_STATIONS]] is written. *)
Theorem main_writes_inside_worksheets (fs : files) st stf
        (out : list message) (h : float) :
  main sscanf_f fs st = inr (stf, out, h) ->
  (forall i, i <= 7 -> 3 <= num_dat stf i <= 125)
  /\ (forall i c j, ~ on_worksheet stf i c j -> ws stf i c j = ws st i c j)
  /\ (forall i c j, ~ (i < 8 /\ c < 9 /\ j < MAX_STATIONS) ->
         ws stf i c j = ws st i c j).
Proof.
  intros H. apply main_inr in H.
  destruct H as (sr & Hr & Ef & _ & Nf & B & _).
  assert (B' : forall i, i <= 7 -> 3 <= num_dat stf i <= 125).
  { intros i Hi. rewrite Nf. apply B. exact Hi. }
  assert (W : forall i c j, ~ on_worksheet stf i c j ->
                ws stf i c j = ws st i c j).
  { unfold on_worksheet. rewrite Nf. intros i c j Hn. subst stf.
    destruct (solve_lines_globals sr) as (NS & _).
    rewrite normalize_rows by (rewrite NS; lia).
    rewrite solve_lines_rows
      by (try (intros k Hk; specialize (B k Hk)); lia).
    apply (read_files_rows sscanf_f fs 8 0 st sr Hr). lia. }
  split; [exact B'|]. split; [exact W|].
  intros i c j Hn. apply W. unfold on_worksheet. intros (Hi & Hc & Hj).
  specialize (B' i Hi). unfold MAX_STATIONS in Hn. lia.
Qed.

(** X14.  The completed worksheets still show the input: after a
    successful run column 2 of every line holds the readings exactly as
    [read_data] stored them, column 1 numbers the stations 1..N+1, and
    the station counts and the units flag are those set while reading. *)
Theorem main_keeps_readings (fs : files) st stf
        (out : list message) (h : float) :
  main sscanf_f fs st = inr (stf, out, h) ->
  exists sr,
    read_files sscanf_f fs 8 0 st = inr sr
    /\ num_dat stf = num_dat sr
    /\ metric stf = metric st
    /\ (forall i j, col2 stf i j = col2 sr i j)
    /\ (forall i j, i <= 7 -> j <= num_dat stf i ->
           col1 stf i j = float_of_int (Z.of_nat j + 1)).
Proof.
  intros H. apply main_inr in H.
  destruct H as (sr & Hr & Ef & _ & Nf & B & Msr & _).
  exists sr. split; [exact Hr|]. split; [exact Nf|].
  destruct (solve_lines_globals sr) as (NS & MS & _).
  destruct (normalize_spec (solve_lines sr)) as (_ & MN & _).
  cbv zeta in MN. rewrite <- Ef in MN.
  split; [congruence|].
  assert (HB : forall k, k <= 7 -> 1 <= num_dat sr k)
    by (intros k Hk; specialize (B k Hk); lia).
  unfold col1, col2. subst stf. split.
  - intros i j. rewrite normalize_rows by lia.
    apply solve_lines_rows; [exact HB | lia].
  - intros i j Hi Hj. rewrite Nf in Hj. rewrite normalize_rows by lia.
    rewrite solve_lines_late_rows by (try (intros k Hk; apply HB); lia).
    apply first_pass_col1; assumption.
Qed.

Lemma heights_follow_col6 st (i j i' j' : nat) :
  i <= 5 -> i' <= 5 -> j <= num_dat st i -> j' <= num_dat st i' ->
  ws st i 5 j = ws st i' 5 j' ->
  col7 (normalize st) i j = col7 (normalize st) i' j'
  /\ col8 (normalize st) i j = col8 (normalize st) i' j'.
Proof.
  intros Hi Hi' Hj Hj' E. unfold col7, col8.
  destruct (normalize_spec st) as (_ & _ & _ & _ & V). cbv zeta in V.
  destruct (V i j ltac:(lia) Hj) as [E7 E8].
  destruct (V i' j' ltac:(lia) Hj') as [E7' E8'].
  assert (K : ws (normalize st) i 6 j = ws (normalize st) i' 6 j').
  { rewrite E7, E7', !selected_diag_perimeter by assumption.
    rewrite E. reflexivity. }
  split; [exact K|]. rewrite E8, E8', K. reflexivity.
Qed.

(** The heights of the perimeter lines at their ends, in the final
    state. *)
Lemma main_corner_heights (fs : files) st stf
      (out : list message) (h : float) :
  main sscanf_f fs st = inr (stf, out, h) ->
  (col7 stf 2 0 = col7 stf 1 0 /\ col8 stf 2 0 = col8 stf 1 0)
  /\ (col7 stf 3 0 = col7 stf 1 0 /\ col8 stf 3 0 = col8 stf 1 0)
  /\ (col7 stf 4 (num_dat stf 4) = col7 stf 1 (num_dat stf 1)
      /\ col8 stf 4 (num_dat stf 4) = col8 stf 1 (num_dat stf 1))
  /\ (col7 stf 5 (num_dat stf 5) = col7 stf 1 (num_dat stf 1)
      /\ col8 stf 5 (num_dat stf 5) = col8 stf 1 (num_dat stf 1))
  /\ (col7 stf 2 (num_dat stf 2) = col7 stf 0 0
      /\ col8 stf 2 (num_dat stf 2) = col8 stf 0 0)
  /\ (col7 stf 5 0 = col7 stf 0 0 /\ col8 stf 5 0 = col8 stf 0 0)
  /\ (col7 stf 3 (num_dat stf 3) = col7 stf 0 (num_dat stf 0)
      /\ col8 stf 3 (num_dat stf 3) = col8 stf 0 (num_dat stf 0))
  /\ (col7 stf 4 0 = col7 stf 0 (num_dat stf 0)
      /\ col8 stf 4 0 = col8 stf 0 (num_dat stf 0)).
Proof.
  intros H. apply main_inr in H.
  destruct H as (sr & _ & Ef & _ & Nf & B & _).
  destruct (solve_lines_seeds sr) as ((NS & _) & P).
  { intros i Hi. specialize (B i ltac:(lia)). lia. }
  cbv zeta in P. rewrite Nf. subst stf. clear Nf.
  revert NS P. generalize (solve_lines sr). intros S NS P.
  destruct P as (P1 & P2 & P3 & P4 & P5 & P6 & P7 & P8 & _).
  repeat match goal with |- _ /\ _ => split end;
    apply heights_follow_col6; first [assumption | rewrite ?NS; lia].
Qed.

(** X15.  Where a perimeter line ends on a diagonal, the two worksheets
    show the same height: after a successful run columns 7 and 8 of each
    perimeter line agree, at both of its ends, with columns 7 and 8 of
    the diagonal at that corner (NE and SW on the NE_SW diagonal, NW and
    SE on the NW_SE diagonal), in every arithmetic. *)
Theorem corner_heights_agree (fs : files) st stf
        (out : list message) (h : float) :
  main sscanf_f fs st = inr (stf, out, h) ->
  let N := num_dat stf in
  let same_height i j i' j' :=
    col7 stf i j = col7 stf i' j' /\ col8 stf i j = col8 stf i' j' in
  (* NE corner *)
  same_height NE_NW 0 NE_SW 0
  /\ same_height NE_SE 0 NE_SW 0
  (* SW corner *)
  /\ same_height SE_SW (N SE_SW) NE_SW (N NE_SW)
  /\ same_height NW_SW (N NW_SW) NE_SW (N NE_SW)
  (* NW corner *)
  /\ same_height NE_NW (N NE_NW) NW_SE 0
  /\ same_height NW_SW 0 NW_SE 0
  (* SE corner *)
  /\ same_height NE_SE (N NE_SE) NW_SE (N NW_SE)
  /\ same_height SE_SW 0 NW_SE (N NW_SE).
Proof.
  intros H N same_height. subst N same_height. cbv beta.
  unfold NE_NW, NE_SE, SE_SW, NW_SW, NE_SW, NW_SE.
  exact (main_corner_heights fs st stf out h H).
Qed.
End WorksheetLaws.

(** ** The solved lines in the final worksheets *)

Section SolvedLines.
Context {A : CArith}.
Variable sscanf_f : string -> option float.
Implicit Types st : state.

Ltac store_simpl :=
  repeat first [ rewrite num_dat_store
               | rewrite ws_store_same
               | rewrite ws_store_other by lia ].

Lemma copy_NE_corner_col5 st :
  ws (copy_NE_corner st) 2 4 0 = ws (copy_NE_corner st) 2 5 0
  /\ ws (copy_NE_corner st) 3 4 0 = ws (copy_NE_corner st) 3 5 0.
Proof. unfold copy_NE_corner. cbv zeta. split; store_simpl; reflexivity. Qed.

Lemma copy_NW_corner_col5 st :
  1 <= num_dat st 2 ->
  ws (copy_NW_corner st) 5 4 0 = ws (copy_NW_corner st) 5 5 0.
Proof. intros H. unfold copy_NW_corner. cbv zeta. store_simpl. reflexivity. Qed.

Lemma copy_SE_corner_col5 st :
  1 <= num_dat st 3 ->
  ws (copy_SE_corner st) 4 4 0 = ws (copy_SE_corner st) 4 5 0.
Proof. intros H. unfold copy_SE_corner. cbv zeta. store_simpl. reflexivity. Qed.

(** Each perimeter line starts with the same seed in columns 5 and 6. *)
Lemma seed_perimeter_col5 st (w : nat) :
  (forall i, 2 <= i <= 5 -> 1 <= num_dat st i) ->
  2 <= w <= 5 ->
  ws (seed_perimeter st) w 4 0 = ws (seed_perimeter st) w 5 0.
Proof.
  intros HN Hw. unfold seed_perimeter. cbv zeta.
  pose proof (HN 2 ltac:(lia)). pose proof (HN 3 ltac:(lia)).
  pose proof (HN 4 ltac:(lia)). pose proof (HN 5 ltac:(lia)).
  destruct (copy_NE_corner_spec st) as (G1 & F1 & _).
  destruct (copy_NE_corner_col5 st) as (A2 & A3).
  cbv zeta in G1, F1.
  set (s1 := copy_NE_corner st) in *.
  assert (N1 : num_dat s1 = num_dat st) by (destruct G1 as (E & _); exact E).
  destruct (copy_SW_corner_spec s1) as (G2 & F2 & _).
  cbv zeta in G2, F2.
  set (s2 := copy_SW_corner s1) in *.
  assert (N2 : num_dat s2 = num_dat st)
    by (destruct G2 as (E & _); congruence).
  destruct (copy_NW_corner_spec s2) as (G3 & F3 & _);
    [rewrite N2; assumption|].
  pose proof (copy_NW_corner_col5 s2 ltac:(rewrite N2; assumption)) as A5.
  cbv zeta in G3, F3.
  set (s3 := copy_NW_corner s2) in *.
  assert (N3 : num_dat s3 = num_dat st)
    by (destruct G3 as (E & _); congruence).
  destruct (copy_SE_corner_spec s3) as (G4 & F4 & _);
    [rewrite N3; assumption|].
  pose proof (copy_SE_corner_col5 s3 ltac:(rewrite N3; assumption)) as A4.
  cbv zeta in G4, F4.
  set (s4 := copy_SE_corner s3) in *.
  rewrite N1 in *. rewrite N2 in *. rewrite N3 in *.
  assert (Hc : w = 2 \/ w = 3 \/ w = 4 \/ w = 5) by lia.
  destruct Hc as [-> | [-> | [-> | ->]]].
  - rewrite !F4, !F3, !F2 by lia. exact A2.
  - rewrite !F4, !F3, !F2 by lia. exact A3.
  - exact A4.
  - rewrite !F4 by lia. exact A5.
Qed.

(** Each center line starts with the same seed in columns 5 and 6. *)
Lemma seed_center_col5 st (w : nat) :
  (forall i, 6 <= i <= 7 -> 1 <= num_dat st i) ->
  6 <= w <= 7 ->
  ws (seed_center st) w 4 0 = ws (seed_center st) w 5 0.
Proof.
  intros HN Hw. unfold seed_center. cbv zeta.
  pose proof (HN 6 ltac:(lia)). pose proof (HN 7 ltac:(lia)).
  assert (Hc : w = 6 \/ w = 7) by lia.
  destruct Hc as [-> | ->]; store_simpl; reflexivity.
Qed.

Lemma first_pass_col4_zero st (w : nat) :
  w <= 7 ->
  ws (for_up first_four_columns 0 7 st) w 3 0 = to_float (dlit 0 1).
Proof.
  intros Hw.
  destruct (sheets_local first_four_columns 0 7 st first_four_columns_local)
    as (_ & _ & V).
  destruct (V w ltac:(lia)) as (s & _ & _ & E).
  rewrite E. apply first_four_columns_spec.
Qed.

(** What [shift_lines] leaves on a sheet whose columns 5 and 6 start
    with the same seed. *)
Lemma shifted_sheet (w : nat) st :
  1 <= num_dat st w ->
  ws st w 4 0 = ws st w 5 0 ->
  let N := num_dat st w in
  let st' := shift_lines w st in
  (forall j, ws st' w 3 j = ws st w 3 j)
  /\ ws st' w 4 0 = ws st' w 5 0
  /\ ws st' w 4 N = fsub (ws st' w 5 N) (ws st' w 3 N)
  /\ forall j, 1 <= j <= N - 1 ->
       ws st' w 4 j
       = fadd (ws st' w 4 (j + 1))
              (fdiv (fsub (ws st' w 4 0) (ws st' w 4 N))
                    (float_of_int (Z.of_nat N)))
       /\ ws st' w 5 j = fadd (ws st' w 4 j) (ws st' w 3 j).
Proof.
  intros HN Hseed N st'.
  destruct (shift_lines_spec w st) as (_ & F & E & V & _).
  cbv zeta in F, E, V. fold N in F, E, V. fold st' in F, E, V.
  assert (C3 : forall j, ws st' w 3 j = ws st w 3 j)
    by (intros j; apply F; lia).
  assert (C40 : ws st' w 4 0 = ws st w 4 0) by (apply F; lia).
  assert (C50 : ws st' w 5 0 = ws st w 5 0) by (apply F; lia).
  assert (C5N : ws st' w 5 N = ws st w 5 N) by (apply F; lia).
  split; [exact C3|]. split; [congruence|].
  split; [rewrite E, C5N, C3; reflexivity|].
  intros j Hj. destruct (V j Hj) as [V4 V5].
  rewrite C3. split; [|exact V5].
  rewrite V4. f_equal.
  rewrite correction_factor_eq by assumption. fold N.
  rewrite C40, E. reflexivity.
Qed.

(** Every perimeter and center line of the solved plate is the result
    of [shift_lines] on a sheet seeded in columns 5 and 6, with column 4
    starting at zero. *)
Lemma solve_lines_sheet st (w : nat) :
  (forall i, 2 <= i <= 7 -> 1 <= num_dat st i) ->
  2 <= w <= 7 ->
  exists s,
    num_dat s = num_dat st
    /\ ws s w 4 0 = ws s w 5 0
    /\ ws s w 3 0 = to_float (dlit 0 1)
    /\ forall c j, ws (solve_lines st) w c j = ws (shift_lines w s) w c j.
Proof.
  intros HN Hw. rewrite solve_lines_unfold.
  pose proof (diagonals_solved_globals st) as GD.
  assert (ZD : ws (diagonals_solved st) w 3 0 = to_float (dlit 0 1)).
  { unfold diagonals_solved.
    destruct (sheets_local diagonal_correction 0 1
                (for_up first_four_columns 0 7 st) diagonal_correction_local)
      as (_ & F & _).
    rewrite F by lia. apply first_pass_col4_zero. lia. }
  revert GD ZD. generalize (diagonals_solved st). intros D GD ZD.
  assert (ND : num_dat D = num_dat st) by apply GD.
  assert (HND : forall i, 2 <= i <= 5 -> 1 <= num_dat D i)
    by (intros i Hi; rewrite ND; apply HN; lia).
  pose proof (seed_perimeter_globals D) as Gp.
  pose proof (seed_perimeter_rows D HND) as Fp.
  pose proof (fun v Hv => seed_perimeter_col5 D v HND Hv) as Sp.
  revert Gp Fp Sp. generalize (seed_perimeter D). intros sp Gp Fp Sp.
  assert (Np : num_dat sp = num_dat st)
    by (destruct Gp as (E & _); congruence).
  assert (Zp : ws sp w 3 0 = to_float (dlit 0 1))
    by (rewrite Fp by lia; exact ZD).
  destruct (sheets_local shift_lines 2 5 sp shift_lines_local)
    as (G4 & F4 & V4).
  revert G4 F4 V4. generalize (for_up shift_lines 2 5 sp).
  intros s4 G4 F4 V4.
  assert (N4 : num_dat s4 = num_dat st)
    by (destruct G4 as (E & _); congruence).
  assert (HN4 : forall i, 6 <= i <= 7 -> 1 <= num_dat s4 i)
    by (intros i Hi; rewrite N4; apply HN; lia).
  pose proof (seed_center_globals s4) as Gc.
  pose proof (seed_center_rows s4) as Fc.
  pose proof (fun v Hv => seed_center_col5 s4 v HN4 Hv) as Sc.
  revert Gc Fc Sc. generalize (seed_center s4). intros sc Gc Fc Sc.
  assert (Nc : num_dat sc = num_dat st)
    by (destruct Gc as (E & _); congruence).
  destruct (sheets_local shift_lines 6 7 sc shift_lines_local)
    as (G6 & F6 & V6).
  revert G6 F6 V6. generalize (for_up shift_lines 6 7 sc).
  intros s6 G6 F6 V6.
  destruct (Nat.le_gt_cases w 5) as [Hp|Hc].
  - destruct (V4 w ltac:(lia)) as (s & (Ns & _) & Es & Vs).
    exists s. split; [congruence|].
    split; [rewrite !Es; apply Sp; lia|].
    split; [rewrite Es; exact Zp|].
    intros c j. rewrite F6 by lia. rewrite Fc by lia. apply Vs.
  - destruct (V6 w ltac:(lia)) as (s & (Ns & _) & Es & Vs).
    exists s. split; [congruence|].
    split; [rewrite !Es; apply Sc; lia|].
    split; [|exact Vs].
    rewrite Es. rewrite Fc by lia. rewrite F4 by lia. exact Zp.
Qed.

(** The solved lines as [main] leaves them in the final state. *)
Lemma main_solved_lines (fs : files) st stf (out : list message) (h : float) :
  main sscanf_f fs st = inr (stf, out, h) ->
  (forall i, i <= 7 -> 3 <= num_dat stf i)
  /\ (forall w j, w <= 1 -> j <= num_dat stf w ->
         ws stf w 5 j = fadd (ws stf w 3 j) (ws stf w 4 j))
  /\ forall w, 2 <= w <= 7 ->
       ws stf w 3 0 = to_float (dlit 0 1)
       /\ ws stf w 4 0 = ws stf w 5 0
       /\ ws stf w 4 (num_dat stf w)
          = fsub (ws stf w 5 (num_dat stf w)) (ws stf w 3 (num_dat stf w))
       /\ forall j, 1 <= j <= num_dat stf w - 1 ->
            ws stf w 4 j
            = fadd (ws stf w 4 (j + 1))
                   (fdiv (fsub (ws stf w 4 0) (ws stf w 4 (num_dat stf w)))
                         (float_of_int (Z.of_nat (num_dat stf w))))
            /\ ws stf w 5 j = fadd (ws stf w 4 j) (ws stf w 3 j).
Proof.
  intros H. apply main_inr in H.
  destruct H as (sr & _ & Ef & _ & Nf & B & _).
  assert (HB : forall i, i <= 7 -> 1 <= num_dat sr i)
    by (intros i Hi; specialize (B i Hi); lia).
  destruct (solve_lines_globals sr) as (NS & _).
  assert (Keep : forall i c j, c <= 5 ->
            ws stf i c j = ws (solve_lines sr) i c j).
  { intros i c j Hc. subst stf. apply normalize_rows. lia. }
  rewrite Nf. split; [intros i Hi; apply B; exact Hi|]. split.
  - intros w j Hw Hj. rewrite !Keep by lia.
    assert (ED : forall c k, ws (solve_lines sr) w c k
                             = ws (diagonals_solved sr) w c k).
    { intros c k. rewrite solve_lines_unfold.
      pose proof (diagonals_solved_globals sr) as GD.
      revert GD. generalize (diagonals_solved sr). intros D GD.
      assert (ND : num_dat D = num_dat sr) by apply GD.
      destruct (sheets_local shift_lines 6 7
                  (seed_center (for_up shift_lines 2 5 (seed_perimeter D)))
                  shift_lines_local) as (_ & F6 & _).
      rewrite F6 by lia. rewrite seed_center_rows by lia.
      destruct (sheets_local shift_lines 2 5 (seed_perimeter D)
                  shift_lines_local) as (_ & F4 & _).
      rewrite F4 by lia. apply seed_perimeter_rows; [|lia].
      intros i Hi. rewrite ND. apply HB. lia. }
    rewrite !ED.
    destruct (diagonals_solved_spec sr w Hw) as (ND & _ & V).
    cbv zeta in ND, V. apply V. rewrite ND. exact Hj.
  - intros w Hw.
    destruct (solve_lines_sheet sr w) as (s & Ns & Seed & Z0 & Es);
      [intros i Hi; apply HB; lia | exact Hw |].
    destruct (shifted_sheet w s) as (C3 & S0 & SN & V);
      [rewrite Ns; apply HB; lia | exact Seed |].
    cbv zeta in C3, S0, SN, V. rewrite Ns in SN, V.
    rewrite !Keep by lia. rewrite !Es.
    split; [rewrite C3; exact Z0|]. split; [exact S0|]. split; [exact SN|].
    intros j Hj. rewrite !Keep by lia. rewrite !Es. apply V. exact Hj.
Qed.

(** X16.  In the worksheets [main] completes, every perimeter and center
    line still obeys the correction-factor recipe end to end: column 4
    starts at 0, columns 5 and 6 start with the same seed,
    col5[N] = col6[N] - col4[N], and for every interior station
    col5[j] = col5[j+1] + c with c = (col5[0] - col5[N]) / N and
    col6[j] = col5[j] + col4[j]; on both diagonals
    col6[j] = col4[j] + col5[j] at every station. *)
Theorem solved_lines_recurrence (fs : files) st stf
        (out : list message) (h : float) :
  main sscanf_f fs st = inr (stf, out, h) ->
  (forall w j, w <= 1 -> j <= num_dat stf w ->
      col6 stf w j = fadd (col4 stf w j) (col5 stf w j))
  /\ forall w, 2 <= w <= 7 ->
       let N := num_dat stf w in
       let c := fdiv (fsub (col5 stf w 0) (col5 stf w N))
                     (float_of_int (Z.of_nat N)) in
       col4 stf w 0 = to_float (dlit 0 1)
       /\ col5 stf w 0 = col6 stf w 0
       /\ col5 stf w N = fsub (col6 stf w N) (col4 stf w N)
       /\ forall j, 1 <= j <= N - 1 ->
            col5 stf w j = fadd (col5 stf w (j + 1)) c
            /\ col6 stf w j = fadd (col5 stf w j) (col4 stf w j).
Proof.
  intros H. unfold col4, col5, col6. cbv zeta.
  destruct (main_solved_lines fs st stf out h H) as (_ & D & P).
  split; [exact D | exact P].
Qed.

(** A successful run, with the height handed to [output_gnuplot]. *)
Lemma main_inr_height (fs : files) st stf (out : list message) (h : float) :
  main sscanf_f fs st = inr (stf, out, h) ->
  exists sr,
    read_files sscanf_f fs 8 0 st = inr sr
    /\ stf = normalize (solve_lines sr)
    /\ h = fmul (fmul (fsub (snd (return_low_and_high_point (solve_lines sr)))
                            (fst (return_low_and_high_point (solve_lines sr))))
                      arcsec)
                (foot_spacing stf).
Proof.
  intros H.
  destruct (read_files sscanf_f fs 8 0 st) as [e|sr] eqn:Hr;
    [unfold main in H; rewrite Hr in H; discriminate|].
  rewrite (main_read sscanf_f fs st sr Hr) in H.
  remember (normalize (solve_lines sr)) as sf eqn:Ef.
  remember (return_low_and_high_point (solve_lines sr)) as r eqn:Er.
  remember (fmul (fmul (fsub (snd r) (fst r)) arcsec) (foot_spacing sf))
    as hh eqn:Eh.
  assert (E : sf = stf /\ hh = h) by (split; congruence).
  destruct E as [<- <-]. exists sr.
  split; [reflexivity|]. split; [exact Ef|]. subst r. exact Eh.
Qed.
End SolvedLines.

(** ** Laws of the plate in exact arithmetic *)

Module ExactPlate.
Import Exact ExactLaws.
Local Existing Instance Exact.arith.
Local Open Scope Qc_scope.
Implicit Types st : @state Exact.arith.

(** [ring] reads the carrier off the left-hand side; turn the equation
    round when that side is a bare worksheet cell. *)
Ltac qring := rationals; first [ring | symmetry; ring].

Lemma rat_1 : rat 1 = 1.
Proof. apply Qc_is_canon. reflexivity. Qed.

Lemma rat_sub (n j : nat) : (j <= n)%nat -> rat (n - j) = rat n - rat j.
Proof.
  intros H. replace n with ((n - j) + j)%nat at 2 by lia.
  rewrite rat_add. ring.
Qed.

Lemma zero_literal : @to_float Exact.arith (dlit 0 1) = 0.
Proof. apply Qc_is_canon. reflexivity. Qed.

Lemma Qcltb_false (x y : Qc) : Qcltb x y = false -> y <= x.
Proof.
  intros H. apply Qcnot_lt_le. intros Hlt.
  apply Qcltb_lt in Hlt. congruence.
Qed.

Lemma Qcmult_nonneg (x y : Qc) : 0 <= x -> 0 <= y -> 0 <= x * y.
Proof.
  intros Hx Hy. rewrite <- (Qcmult_0_l y).
  apply Qcmult_le_compat_r; assumption.
Qed.

Lemma arcsec_pos : 0 < @arcsec Exact.arith.
Proof. apply Qclt_alt. vm_compute. reflexivity. Qed.

Lemma rat_nonneg (n : nat) : 0 <= rat n.
Proof.
  unfold rat, Qcle. cbn [this Q2Qc]. rewrite !Qred_correct.
  unfold Qle. cbn [Qnum Qden inject_Z]. lia.
Qed.

(** X17.  In exact arithmetic the middle value of a column that is a
    straight line in the station index, col[j] = p + q*j for j in 0..N,
    is the value of that line at the middle of the line, p + q*N/2, for
    even and for odd N alike. *)
Theorem mid_value_of_line st (w c : nat) (p q : Qc) :
  (forall j, (j <= num_dat st w)%nat -> ws st w c j = p + q * rat j) ->
  mid_value st w c = p + q * (half * rat (num_dat st w)).
Proof.
  intros H. unfold mid_value.
  destruct (Nat.eqb_spec (num_dat st w mod 2) 0) as [Ev|Od].
  - rewrite H by apply half_le.
    rewrite (even_halves (num_dat st w)) at 1 by assumption.
    rewrite half_cancel. reflexivity.
  - rewrite !H by (apply half_succ_le || apply half_pred_le; assumption).
    rewrite (odd_halves (num_dat st w)) by assumption. rationals.
    set (r1 := rat ((num_dat st w - 1) / 2)).
    set (r2 := rat ((num_dat st w + 1) / 2)).
    transitivity (half * (p + p) + q * (half * (r1 + r2))); [ring|].
    rewrite half_cancel. reflexivity.
Qed.

Lemma shift_lines_steps (w : nat) st (k : nat) :
  (k <= num_dat st w - 1)%nat ->
  let N := num_dat st w in
  let st' := shift_lines w st in
  ws st' w 4 (N - k) = ws st' w 4 N + rat k * correction_factor st w.
Proof.
  intros Hk N st'.
  destruct (shift_lines_spec w st) as (_ & _ & _ & V & _).
  cbv zeta in V. fold N in V. fold st' in V.
  induction k as [|k IH].
  - rewrite Nat.sub_0_r, rat_0. qring.
  - destruct (V (N - S k)%nat) as [V4 _]; [unfold N; lia|].
    rewrite V4. replace (N - S k + 1)%nat with (N - k)%nat by (unfold N; lia).
    rewrite IH by lia. rationals.
    replace (S k) with (k + 1)%nat by lia. rewrite rat_add, rat_1. ring.
Qed.

(** X18.  In exact arithmetic [shift_lines] spreads the closing error
    evenly: with c = (col5[0] - col5[N]) / N, column 5 of the shifted
    line is col5[j] = col5[0] - j*c at every station j in 0..N, the
    straight line from the seed col5[0] to col5[N] = col6[N] - col4[N]. *)
Theorem shift_lines_interpolates (w : nat) st (j : nat) :
  (1 <= num_dat st w)%nat ->
  (j <= num_dat st w)%nat ->
  let N := num_dat st w in
  let st' := shift_lines w st in
  let c := (col5 st w 0 - col5 st' w N) / rat N in
  col5 st' w j = col5 st w 0 - rat j * c
  /\ col5 st' w N = col6 st w N - col4 st w N.
Proof.
  intros HN Hj N st' c. subst c. unfold col4, col5, col6.
  destruct (shift_lines_spec w st) as (_ & F & E & _).
  cbv zeta in F, E. fold N in F, E. fold st' in F, E.
  split; [|exact E].
  assert (Ec : correction_factor st w
               = (ws st w 4 0 - ws st' w 4 N) / rat N).
  { rewrite correction_factor_eq by assumption. fold N. rewrite E.
    reflexivity. }
  destruct (Nat.eq_dec j 0) as [->|Hne].
  - rewrite rat_0. rewrite F by lia. qring.
  - pose proof (shift_lines_steps w st (N - j)%nat ltac:(unfold N; lia)) as S.
    cbv zeta in S. fold N in S. fold st' in S.
    replace (N - (N - j))%nat with j in S by (unfold N in *; lia).
    rewrite S, Ec. rewrite rat_sub by exact Hj. rationals.
    set (a := ws st w 4 0). set (b := ws st' w 4 N).
    transitivity (b + (a - b) / rat N * rat N - rat j * ((a - b) / rat N));
      [unfold Qcdiv; ring|].
    rewrite rat_mul_div by assumption. ring.
Qed.

(** X19.  In exact arithmetic the completed worksheets satisfy Moody's
    column identity everywhere: after a successful run
    col6[j] = col4[j] + col5[j] at every station of every one of the
    eight lines, the seeded ends of the perimeter and center lines
    included. *)
Theorem worksheet_column6_sum (sscanf_f : string -> option float)
        (fs : files) st stf (out : list message) (h : float) (w j : nat) :
  main sscanf_f fs st = inr (stf, out, h) ->
  (w <= 7)%nat ->
  (j <= num_dat stf w)%nat ->
  col6 stf w j = col4 stf w j + col5 stf w j.
Proof.
  intros H Hw Hj. unfold col4, col5, col6.
  destruct (main_solved_lines sscanf_f fs st stf out h H) as (B & D & P).
  destruct (Nat.le_gt_cases w 1) as [Hd|Hp].
  - apply D; assumption.
  - destruct (P w ltac:(lia)) as (Z0 & S0 & SN & V).
    specialize (B w Hw).
    destruct (Nat.eq_dec j 0) as [->|H0].
    + rewrite Z0, S0, zero_literal. qring.
    + destruct (Nat.eq_dec j (num_dat stf w)) as [->|HN].
      * rewrite SN. qring.
      * destruct (V j ltac:(lia)) as [_ V5]. rewrite V5. qring.
Qed.

(** Columns 7 and 8 of the final state, against the two values found by
    [return_low_and_high_point]. *)
Lemma main_heights_exact (sscanf_f : string -> option float)
      (fs : files) st stf (out : list message) (h : float) :
  main sscanf_f fs st = inr (stf, out, h) ->
  (forall i j, (i <= 7)%nat -> (j <= num_dat stf i)%nat -> 0 <= ws stf i 6 j)
  /\ (exists i j, (i <= 7)%nat /\ (j <= num_dat stf i)%nat
                  /\ ws stf i 6 j = 0)
  /\ (exists i j, (i <= 7)%nat /\ (j <= num_dat stf i)%nat
                  /\ ws stf i 7 j = h)
  /\ (0 <= foot_spacing stf ->
      forall i j, (i <= 7)%nat -> (j <= num_dat stf i)%nat ->
        0 <= ws stf i 7 j /\ ws stf i 7 j <= h)
  /\ (0 <= foot_spacing st -> 0 <= foot_spacing stf).
Proof.
  intros H.
  destruct (main_inr_height sscanf_f fs st stf out h H) as (sr & Hr & Ef & Eh).
  apply read_files_inr in Hr. destruct Hr as (_ & _ & Msr & Ssr & _).
  destruct (solve_lines_globals sr) as (_ & MS & SS).
  destruct (normalize_spec (solve_lines sr)) as (N1 & _ & S1 & _ & V).
  cbv zeta in N1, S1, V. rewrite <- Ef in N1, S1, V.
  pose proof (return_low_point_lowest (solve_lines sr)) as HL.
  pose proof (return_high_point_highest (solve_lines sr)) as HH.
  revert Eh HL HH V.
  generalize (fst (return_low_and_high_point (solve_lines sr))).
  generalize (snd (return_low_and_high_point (solve_lines sr))).
  intros hi lo Eh ((il & jl & Hil & Hjl & El) & Low)
         ((ih & jh & Hih & Hjh & Ehi) & High) V.
  rewrite <- N1 in Hjl, Hjh, Low, High, V.
  assert (Scale : 0 <= foot_spacing st -> 0 <= foot_spacing stf).
  { intros Hfs. rewrite S1. unfold scaled_foot_spacing.
    rewrite MS, SS, Msr, Ssr. rationals.
    destruct (negb (metric st =? 0)%Z);
      (apply Qcmult_nonneg; [exact Hfs|]);
      apply Qcle_alt; vm_compute; discriminate. }
  assert (C7 : forall i j, (i <= 7)%nat -> (j <= num_dat stf i)%nat ->
             0 <= ws stf i 6 j /\ ws stf i 6 j <= hi - lo).
  { intros i j Hi Hj. destruct (V i j Hi Hj) as [E7 _].
    rewrite E7. rationals. split.
    - unfold Qcminus. apply (proj1 (Qcle_minus_iff _ _)).
      apply Qcltb_false. apply Low; assumption.
    - unfold Qcminus. apply Qcplus_le_compat; [|apply Qcle_refl].
      apply Qcltb_false. apply High; assumption. }
  split; [intros i j Hi Hj; apply C7; assumption|].
  split.
  { exists il, jl. split; [exact Hil|]. split; [exact Hjl|].
    destruct (V il jl Hil) as [E7 _]; [exact Hjl|].
    rewrite E7, <- El. rationals. ring. }
  split.
  { exists ih, jh. split; [exact Hih|]. split; [exact Hjh|].
    destruct (V ih jh Hih) as [E7 E8]; [exact Hjh|].
    rewrite E8, E7, <- Ehi, Eh. reflexivity. }
  split; [|exact Scale].
  clear Scale. intros Scale i j Hi Hj.
  destruct (V i j Hi Hj) as [_ E8].
  destruct (C7 i j Hi Hj) as [C0 C1].
  pose proof (Qclt_le_weak _ _ arcsec_pos) as Ha.
  rewrite E8, Eh. rationals. split.
  - apply Qcmult_nonneg; [|exact Scale].
    apply Qcmult_nonneg; assumption.
  - apply Qcmult_le_compat_r; [|exact Scale].
    apply Qcmult_le_compat_r; assumption.
Qed.

(** X20.  In exact arithmetic the heights [main] tabulates are measured
    from the lowest point of the plate: after a successful run column 7
    is nowhere negative and is 0 at some station; the height handed to
    [output_gnuplot] is the column 8 entry of some station; and when the
    configured foot spacing is not negative, every column 8 entry lies
    between 0 and that height. *)
Theorem heights_above_lowest (sscanf_f : string -> option float)
        (fs : files) st stf (out : list message) (h : float) :
  main sscanf_f fs st = inr (stf, out, h) ->
  (forall i j, (i <= 7)%nat -> (j <= num_dat stf i)%nat -> 0 <= col7 stf i j)
  /\ (exists i j, (i <= 7)%nat /\ (j <= num_dat stf i)%nat
                  /\ col7 stf i j = 0)
  /\ (exists i j, (i <= 7)%nat /\ (j <= num_dat stf i)%nat
                  /\ col8 stf i j = h)
  /\ (0 <= foot_spacing st ->
      forall i j, (i <= 7)%nat -> (j <= num_dat stf i)%nat ->
        0 <= col8 stf i j /\ col8 stf i j <= h).
Proof.
  intros H. unfold col7, col8.
  destruct (main_heights_exact sscanf_f fs st stf out h H)
    as (P7 & Z7 & T8 & B8 & Scale).
  split; [exact P7|]. split; [exact Z7|]. split; [exact T8|].
  intros Hfs. apply B8. apply Scale. exact Hfs.
Qed.
End ExactPlate.

(** ** Laws of the plot, the tables and the whole program *)

Section PlotFacts.
Context {A : CArith}.
Implicit Types st : state.

Lemma for_count_collect (X : Type) (f : nat -> X) (n : nat) :
  forall lo acc,
    for_count (fun j out => out ++ [f j]) n lo acc = acc ++ map f (seq lo n).
Proof.
  induction n as [|n IH]; intros lo acc; cbn [for_count seq map].
  - now rewrite app_nil_r.
  - rewrite IH, <- app_assoc. reflexivity.
Qed.

Lemma for_up_collect (X : Type) (f : nat -> X) (hi : nat) :
  for_up (fun j out => out ++ [f j]) 0 hi [] = map f (seq 0 (S hi)).
Proof.
  unfold for_up. rewrite for_count_collect, Nat.sub_0_r. reflexivity.
Qed.

Lemma nth_error_collect (X : Type) (f : nat -> X) (hi j : nat) :
  nth_error (map f (seq 0 (S hi))) j
  = if j <=? hi then Some (f j) else None.
Proof.
  destruct (Nat.leb_spec j hi) as [H|H].
  - apply map_nth_error.
    rewrite (nth_error_nth' _ 0) by (rewrite length_seq; lia).
    rewrite seq_nth by lia. reflexivity.
  - apply nth_error_None. rewrite length_map, length_seq. lia.
Qed.

Lemma gnuplot_dat_order st :
  gnuplot_dat st = map (line_block st) write_order.
Proof. reflexivity. Qed.

Lemma plotted_diagonal st (i j : nat) :
  i <= 1 ->
  plotted st i j
  = if j <=? num_dat st i
    then Some (if (i =? 0)%nat
               then from_near_end (max_x st) (num_dat st i) j
               else from_far_end (max_x st) (num_dat st i) j,
               from_far_end (max_y st) (num_dat st i) j,
               ws st i 7 j)
    else None.
Proof.
  intros Hi. unfold plotted, line_block.
  replace (i <=? 1) with true by (symmetry; apply Nat.leb_le; exact Hi).
  unfold diagonal_block. cbn [snd].
  rewrite (for_up_collect _
    (fun j => (if (i =? 0)%nat
               then from_near_end (max_x st) (num_dat st i) j
               else from_far_end (max_x st) (num_dat st i) j,
               from_far_end (max_y st) (num_dat st i) j,
               ws st i 7 j))).
  apply nth_error_collect.
Qed.

Lemma plotted_east_west st (i j : nat) :
  i = 2 \/ i = 4 \/ i = 6 ->
  plotted st i j
  = if j <=? num_dat st i
    then Some (from_far_end (max_x st) (num_dat st i) j,
               (if (i =? 2)%nat then float_of_int (max_y st)
                else if (i =? 4)%nat then float_of_int 0
                else to_float (dmul (dlit 5 10) (double_of_int (max_y st)))),
               ws st i 7 j)
    else None.
Proof.
  intros Hi. unfold plotted, line_block.
  assert (E1 : (i <=? 1) = false)
    by (apply Nat.leb_gt; lia).
  assert (E2 : Nat.even i = true)
    by (destruct Hi as [-> | [-> | ->]]; reflexivity).
  rewrite E1, E2. unfold east_west_block. cbn [snd].
  rewrite (for_up_collect _
    (fun j => (from_far_end (max_x st) (num_dat st i) j,
               (if (i =? 2)%nat then float_of_int (max_y st)
                else if (i =? 4)%nat then float_of_int 0
                else to_float (dmul (dlit 5 10) (double_of_int (max_y st)))),
               ws st i 7 j))).
  apply nth_error_collect.
Qed.

Lemma plotted_north_south st (i j : nat) :
  i = 3 \/ i = 5 \/ i = 7 ->
  plotted st i j
  = if j <=? num_dat st i
    then Some ((if (i =? 3)%nat then float_of_int (max_x st)
                else if (i =? 5)%nat then float_of_int 0
                else to_float (dmul (dlit 5 10) (double_of_int (max_x st)))),
               from_far_end (max_y st) (num_dat st i) j,
               ws st i 7 j)
    else None.
Proof.
  intros Hi. unfold plotted, line_block.
  assert (E1 : (i <=? 1) = false)
    by (apply Nat.leb_gt; lia).
  assert (E2 : Nat.even i = false)
    by (destruct Hi as [-> | [-> | ->]]; reflexivity).
  rewrite E1, E2. unfold north_south_block. cbn [snd].
  rewrite (for_up_collect _
    (fun j => ((if (i =? 3)%nat then float_of_int (max_x st)
                else if (i =? 5)%nat then float_of_int 0
                else to_float (dmul (dlit 5 10) (double_of_int (max_x st)))),
               from_far_end (max_y st) (num_dat st i) j,
               ws st i 7 j))).
  apply nth_error_collect.
Qed.

Lemma line_kinds (i : nat) :
  i <= 7 -> i <= 1 \/ (i = 2 \/ i = 4 \/ i = 6) \/ (i = 3 \/ i = 5 \/ i = 7).
Proof. lia. Qed.

Lemma line_block_name st (i : nat) : fst (line_block st i) = filename i.
Proof.
  unfold line_block. destruct (i <=? 1); [reflexivity|].
  destruct (Nat.even i); reflexivity.
Qed.

(** X21.  gnuplot.dat holds one block per line, written in the order
    NW_SE, NE_SW, NE_NW, SE_SW, E_W, NE_SE, NW_SW, N_S and headed by the
    name of the line's data file; the block of line i holds exactly
    num_dat[i]+1 points, one per station in station order, and the third
    coordinate of the point of station j is column 8 of that station. *)
Theorem gnuplot_dat_heights st :
  gnuplot_dat st = map (line_block st) write_order
  /\ forall i, i <= 7 ->
       fst (line_block st i) = filename i
       /\ List.length (snd (line_block st i)) = num_dat st i + 1
       /\ forall j, j <= num_dat st i ->
            exists x y, plotted st i j = Some (x, y, col8 st i j).
Proof.
  split; [apply gnuplot_dat_order|].
  intros i Hi. split; [apply line_block_name|]. split.
  - assert (Hin : plotted st i (num_dat st i + 1) = None
                  /\ plotted st i (num_dat st i) <> None).
    { destruct (line_kinds i Hi) as [H|[H|H]];
        [rewrite !plotted_diagonal by exact H
        |rewrite !plotted_east_west by exact H
        |rewrite !plotted_north_south by exact H];
        rewrite Nat.leb_refl;
        (replace (num_dat st i + 1 <=? num_dat st i) with false
           by (symmetry; apply Nat.leb_gt; lia));
        (split; [reflexivity|discriminate]). }
    destruct Hin as [H1 H2]. unfold plotted in H1, H2.
    apply nth_error_None in H1. apply nth_error_Some in H2. lia.
  - intros j Hj. apply Nat.leb_le in Hj. unfold col8.
    destruct (line_kinds i Hi) as [H|[H|H]];
      [rewrite plotted_diagonal by exact H
      |rewrite plotted_east_west by exact H
      |rewrite plotted_north_south by exact H];
      rewrite Hj; eexists; eexists; reflexivity.
Qed.

Lemma max_bounds (a b c : Z) :
  ((max a b c = a \/ max a b c = b \/ max a b c = c)
   /\ a <= max a b c /\ b <= max a b c /\ c <= max a b c)%Z.
Proof.
  unfold max. cbv zeta.
  destruct (Z.ltb_spec a b); destruct (Z.ltb_spec b c);
    destruct (Z.ltb_spec a c); lia.
Qed.
End PlotFacts.

Section MoodyFacts.
Context {A : CArith}.
Variable sscanf_cf : string -> option (ascii * float).
Variable sscanf_f : string -> option float.
Variable sqrt : double -> double.
Variable dadd : double -> double -> double.
Variable int_of_double : double -> Z.
Variable int_of_float : float -> Z.
Variable fopen_w : string -> bool.
Implicit Types st : state.


Lemma output_gnuplot_inl st (biggest : float) (e : plot_fatal) :
  output_gnuplot dadd int_of_double fopen_w st biggest = inl e ->
  (e = Unable_to_write_cmd "gnuplot.cmd" /\ fopen_w "gnuplot.cmd" = false)
  \/ (e = Unable_to_write_dat "gnuplot.dat"
                              (gnuplot_cmd dadd int_of_double st biggest)
      /\ fopen_w "gnuplot.cmd" = true /\ fopen_w "gnuplot.dat" = false).
Proof.
  unfold output_gnuplot. cbv zeta.
  destruct (fopen_w "gnuplot.cmd"); cbn [negb].
  - destruct (fopen_w "gnuplot.dat"); cbn [negb]; [discriminate|].
    intros H. injection H as <-. right. repeat split.
  - intros H. injection H as <-. left. repeat split.
Qed.


(** The three exits of the whole program. *)
Lemma moody_config_failure (cfg : option (list string)) (fs : files)
      (c : config_fatal) :
  moody sscanf_cf sscanf_f sqrt dadd int_of_double int_of_float fopen_w
        cfg fs
  = inl (In_read_config_file c) ->
  read_config_file sscanf_cf cfg initial_state = inl c.
Proof.
  unfold moody.
  destruct (read_config_file sscanf_cf cfg initial_state) as [c'|st];
    [intros H; injection H as <-; reflexivity|].
  destruct (read_files sscanf_f fs 8 0 st) as [d|sr]; [discriminate|].
  generalize (solve_lines sr). intros S.
  destruct (return_low_and_high_point S) as [lo hi].
  generalize (columns_7_8 lo S). intros sf.
  destruct (output_gnuplot dadd int_of_double fopen_w sf
              (fmul (fmul (fsub hi lo) arcsec) (foot_spacing sf)));
    discriminate.
Qed.

Lemma moody_data_failure (cfg : option (list string)) (fs : files)
      (d : fatal) :
  moody sscanf_cf sscanf_f sqrt dadd int_of_double int_of_float fopen_w
        cfg fs
  = inl (In_read_data d) ->
  exists st,
    read_config_file sscanf_cf cfg initial_state = inr st
    /\ read_files sscanf_f fs 8 0 st = inl d.
Proof.
  unfold moody.
  destruct (read_config_file sscanf_cf cfg initial_state) as [c'|st];
    [discriminate|].
  destruct (read_files sscanf_f fs 8 0 st) as [d'|sr] eqn:Er.
  { intros H. injection H as <-. exists st. split; [reflexivity | exact Er]. }
  generalize (solve_lines sr). intros S.
  destruct (return_low_and_high_point S) as [lo hi].
  generalize (columns_7_8 lo S). intros sf.
  destruct (output_gnuplot dadd int_of_double fopen_w sf
              (fmul (fmul (fsub hi lo) arcsec) (foot_spacing sf)));
    discriminate.
Qed.

Lemma moody_plot_failure (cfg : option (list string)) (fs : files)
      (p : plot_fatal) stf (warnings : list count_warning)
      (out : list message)
      (printed : list (string * list string * list (Z * list float))) :
  moody sscanf_cf sscanf_f sqrt dadd int_of_double int_of_float fopen_w
        cfg fs
  = inl (In_output_gnuplot p stf warnings out printed) ->
  exists st sr h,
    read_config_file sscanf_cf cfg initial_state = inr st
    /\ read_files sscanf_f fs 8 0 st = inr sr
    /\ main sscanf_f fs st = inr (stf, out, h)
    /\ warnings = do_consistency_checks sqrt sr
    /\ printed = map (print_table int_of_float stf) (seq 0 8)
    /\ output_gnuplot dadd int_of_double fopen_w stf h = inl p.
Proof.
  unfold moody. intros H.
  destruct (read_config_file sscanf_cf cfg initial_state) as [e|st] eqn:Ec;
    [discriminate|].
  destruct (read_files sscanf_f fs 8 0 st) as [e|sr] eqn:Er; [discriminate|].
  exists st, sr. unfold main. rewrite Er.
  revert H. generalize (solve_lines sr). intros S.
  destruct (return_low_and_high_point S) as [lo hi].
  generalize (columns_7_8 lo S). intros sf H.
  exists (fmul (fmul (fsub hi lo) arcsec) (foot_spacing sf)).
  destruct (output_gnuplot dadd int_of_double fopen_w sf
              (fmul (fmul (fsub hi lo) arcsec) (foot_spacing sf)))
    as [e|written] eqn:Ep; [|discriminate].
  injection H as <- <- <- <- <-.
  split; [reflexivity|]. split; [reflexivity|]. split; [reflexivity|].
  split; [reflexivity|]. split; [reflexivity | exact Ep].
Qed.

(** X5.  A run of the whole program that calls [exit(EXIT_FAILURE)] does
    so in one of three places.  In [read_config_file].  Or in
    [read_data], on the first of the eight files that is not accepted,
    with an error that names that file.  Or in [output_gnuplot], once all
    eight files are read and the worksheets, the diagnostics and the
    tables are computed: then gnuplot.cmd could not be opened for
    writing, or gnuplot.cmd was written and gnuplot.dat could not be
    opened, and the error names the file in question. *)
Theorem moody_failure_names_file (cfg : option (list string)) (fs : files)
        (e : exit_failure) :
  moody sscanf_cf sscanf_f sqrt dadd int_of_double int_of_float fopen_w
        cfg fs
  = inl e ->
  match e with
  | In_read_config_file c =>
      read_config_file sscanf_cf cfg initial_state = inl c
  | In_read_data d =>
      exists st k s,
        read_config_file sscanf_cf cfg initial_state = inr st
        /\ k <= 7
        /\ read_files sscanf_f fs k 0 st = inr s
        /\ read_data sscanf_f fs k s = inl d
        /\ fatal_names d = filename k
  | In_output_gnuplot p stf warnings out printed =>
      exists st sr h,
        read_config_file sscanf_cf cfg initial_state = inr st
        /\ read_files sscanf_f fs 8 0 st = inr sr
        /\ main sscanf_f fs st = inr (stf, out, h)
        /\ warnings = do_consistency_checks sqrt sr
        /\ printed = map (print_table int_of_float stf) (seq 0 8)
        /\ ((p = Unable_to_write_cmd "gnuplot.cmd"
             /\ fopen_w "gnuplot.cmd" = false)
            \/ (p = Unable_to_write_dat
                      "gnuplot.dat" (gnuplot_cmd dadd int_of_double stf h)
                /\ fopen_w "gnuplot.cmd" = true
                /\ fopen_w "gnuplot.dat" = false))
        /\ (plot_fatal_names p = "gnuplot.cmd"%string
            \/ plot_fatal_names p = "gnuplot.dat"%string)
  end.
Proof.
  intros H. destruct e as [c|d|p stf warnings out printed].
  - exact (moody_config_failure cfg fs c H).
  - destruct (moody_data_failure cfg fs d H) as (st & Ec & Er).
    destruct (read_files_failure sscanf_f fs st d Er) as (k & s & Hk).
    exists st, k, s. split; [exact Ec | exact Hk].
  - destruct (moody_plot_failure cfg fs p stf warnings out printed H)
      as (st & sr & h & Ec & Er & Hm & Hw & Ht & Ep).
    exists st, sr, h.
    split; [exact Ec|]. split; [exact Er|]. split; [exact Hm|].
    split; [exact Hw|]. split; [exact Ht|].
    apply output_gnuplot_inl in Ep.
    split; [exact Ep|].
    destruct Ep as [[-> _]|(-> & _)]; [left | right]; reflexivity.
Qed.

Lemma main_metric (fs : files) st stf (out : list message) (h : float) :
  main sscanf_f fs st = inr (stf, out, h) -> metric stf = metric st.
Proof.
  intros H. apply main_inr in H.
  destruct H as (sr & _ & Ef & _ & _ & _ & Msr & _).
  destruct (solve_lines_globals sr) as (_ & MS & _).
  destruct (normalize_spec (solve_lines sr)) as (_ & MN & _).
  cbv zeta in MN. rewrite <- Ef in MN. congruence.
Qed.


(** Column 1 of the final state. *)
Lemma main_col1 (fs : files) st stf (out : list message) (h : float) :
  main sscanf_f fs st = inr (stf, out, h) ->
  (forall i, i <= 7 -> 3 <= num_dat stf i <= MAX_STATIONS - 3)
  /\ forall i j, i <= 7 -> j <= num_dat stf i ->
       ws stf i 0 j = float_of_int (Z.of_nat j + 1).
Proof.
  intros H. apply main_inr in H.
  destruct H as (sr & Hr & Ef & _ & Nf & B & _).
  rewrite Nf. split; [exact B|].
  assert (HB : forall k, k <= 7 -> 1 <= num_dat sr k)
    by (intros k Hk; specialize (B k Hk); lia).
  intros i j Hi Hj. subst stf. rewrite normalize_rows by lia.
  rewrite solve_lines_late_rows by (try (intros k Hk; apply HB); lia).
  apply first_pass_col1; assumption.
Qed.

Lemma table_row_cells st (w j : nat) :
  snd (table_row int_of_float st w j)
  = [ws st w 1 j; ws st w 2 j; ws st w 3 j; ws st w 4 j; ws st w 5 j]
    ++ (if 5 <? w then [ws st w 8 j] else [])
    ++ [ws st w 6 j; ws st w 7 j].
Proof. reflexivity. Qed.

(** X23.  The tables show the worksheets: provided [(int)] gives back
    every station number 1..MAX_STATIONS that was stored as a [float],
    after a successful run the table of line w has one row per station
    0..N in order, row j starts with the station number j+1 and holds
    columns 2, 3, 4, 5, 6, 7, 8 of station j, with column 6a between 6
    and 7 on the two center lines only; and the heading names microns
    exactly when the foot spacing was scaled by 1000 (metric), 10^-5 in
    when it was scaled by 100000. *)
Theorem print_table_shows_worksheet (fs : files) st stf
        (out : list message) (h : float) (w : nat) :
  (forall n, (1 <= n <= Z.of_nat MAX_STATIONS)%Z ->
     int_of_float (float_of_int n) = n) ->
  main sscanf_f fs st = inr (stf, out, h) ->
  w <= 7 ->
  let '(name, heading, rows) := print_table int_of_float stf w in
  name = filename w
  /\ List.length rows = num_dat stf w + 1
  /\ (forall j, j <= num_dat stf w ->
        nth_error rows j
        = Some (Z.of_nat j + 1,
                [col2 stf w j; col3 stf w j; col4 stf w j; col5 stf w j;
                 col6 stf w j]
                ++ (if is_center w then [col6a stf w j] else [])
                ++ [col7 stf w j; col8 stf w j])%Z)
  /\ (heading = if negb (metric st =? 0)%Z
                then (if is_center w then h4 else h3)
                else (if is_center w then h2 else h1))
  /\ foot_spacing stf
     = to_float (dmul (to_double (foot_spacing st))
                      (if negb (metric st =? 0)%Z
                       then dlit 1000 1 else dlit 100000 1)).
Proof.
  intros Hint H Hw.
  destruct (main_col1 fs st stf out h H) as (B & C1).
  pose proof (main_metric fs st stf out h H) as Hm.
  assert (Hfs : foot_spacing stf
                = to_float (dmul (to_double (foot_spacing st))
                                 (if negb (metric st =? 0)%Z
                                  then dlit 1000 1 else dlit 100000 1))).
  { apply main_inr in H.
    destruct H as (sr & _ & Ef & _ & _ & _ & Msr & Ssr).
    destruct (solve_lines_globals sr) as (_ & MS & SS).
    destruct (normalize_spec (solve_lines sr)) as (_ & _ & S1 & _).
    cbv zeta in S1. rewrite <- Ef in S1. rewrite S1.
    unfold scaled_foot_spacing. rewrite MS, SS, Msr, Ssr.
    destruct (negb (metric st =? 0)%Z); reflexivity. }
  unfold print_table. cbv zeta.
  assert (Ec : is_center w = (5 <? w)).
  { unfold is_center.
    destruct (Nat.ltb_spec 5 w) as [Hc|Hc].
    - assert (E : w = 6 \/ w = 7) by lia. destruct E as [-> | ->]; reflexivity.
    - destruct (Nat.eqb_spec w 6); [lia|]. destruct (Nat.eqb_spec w 7); [lia|].
      reflexivity. }
  rewrite (for_up_collect _ (table_row int_of_float stf w)).
  split; [reflexivity|]. split; [rewrite length_map, length_seq; lia|].
  split.
  - intros j Hj. rewrite nth_error_collect.
    apply Nat.leb_le in Hj. rewrite Hj. apply Nat.leb_le in Hj.
    f_equal. rewrite (surjective_pairing (table_row int_of_float stf w j)).
    rewrite table_row_cells, Ec. f_equal.
    cbn [table_row fst]. rewrite C1 by assumption.
    apply Hint. specialize (B w Hw). unfold MAX_STATIONS in *. lia.
  - split; [|exact Hfs].
    rewrite Hm, Ec.
    destruct (Nat.ltb_spec 5 w) as [Hc|Hc];
      destruct (Nat.ltb_spec w 6) as [Hd|Hd]; try lia; reflexivity.
Qed.
End MoodyFacts.

Module IEEEPlate.
Import IEEE IEEELaws.
Local Existing Instance IEEE.arith.
Implicit Types st : @state IEEE.arith.

(** X24.  Binary32 makes the middle of column 6a exact: after a
    successful run, on a center line with an even number of stations the
    middle value of column 6a is +0 exactly, whenever the middle value of
    column 6 is a number (neither an infinity nor a NaN). *)
Theorem binary32_center_middle_zero (sscanf_f : string -> option float)
        (fs : files) st stf (out : list message) (h : float) (w : nat) :
  main sscanf_f fs st = inr (stf, out, h) ->
  6 <= w <= 7 ->
  num_dat stf w mod 2 = 0 ->
  is_number (mid_value stf w 5) = true ->
  mid_value stf w 8 = S754_zero false.
Proof.
  intros H Hw Hev Hnum. apply main_inr in H.
  destruct H as (sr & _ & Ef & _ & Nf & B & _).
  assert (HB : forall i, 2 <= i <= 7 -> 1 <= num_dat sr i)
    by (intros i Hi; specialize (B i ltac:(lia)); lia).
  destruct (solve_lines_globals sr) as (NS & _).
  destruct (solve_lines_sheet sr w HB ltac:(lia)) as (s & Ns & _ & _ & Es).
  assert (Keep : forall c j, c <> 6 -> c <> 7 ->
            ws stf w c j = ws (shift_lines w s) w c j).
  { intros c j H6 H7. subst stf. rewrite normalize_rows by lia. apply Es. }
  destruct (shift_lines_spec w s) as ((Nsh & _) & _).
  assert (M : forall c, c <> 6 -> c <> 7 ->
            mid_value stf w c = mid_value (shift_lines w s) w c).
  { intros c H6 H7. apply mid_value_ext; [congruence|].
    intros j _. apply Keep; assumption. }
  rewrite M in * by lia.
  apply center_middle_zero_even.
  - unfold is_center.
    assert (E : w = 6 \/ w = 7) by lia. destruct E as [-> | ->]; reflexivity.
  - rewrite Ns, <- Nf. exact Hev.
  - exact Hnum.
Qed.
End IEEEPlate.

(** ** Laws of the plot in exact arithmetic *)

Module ExactPlot.
Import Exact ExactLaws ExactPlate ExactLib.
Local Existing Instance Exact.arith.
Local Open Scope Qc_scope.
Implicit Types st : @state Exact.arith.


Lemma int_nonneg (z : Z) : (0 <= z)%Z -> 0 <= int z.
Proof.
  intros H. unfold int, Qcle. cbn [this Q2Qc]. rewrite !Qred_correct.
  unfold Qle. cbn [Qnum Qden inject_Z]. lia.
Qed.

Lemma int_pos (z : Z) : (0 < z)%Z -> 0 < int z.
Proof.
  intros H. unfold int, Qclt. cbn [this Q2Qc]. rewrite !Qred_correct.
  unfold Qlt. cbn [Qnum Qden inject_Z]. lia.
Qed.

Lemma int_0 : int 0 = 0.
Proof. apply Qc_is_canon. reflexivity. Qed.

Lemma rat_le (n m : nat) : (n <= m)%nat -> rat n <= rat m.
Proof.
  intros H. replace m with (n + (m - n))%nat by lia. rewrite rat_add.
  rewrite <- (Qcplus_0_r (rat n)) at 1.
  apply Qcplus_le_compat; [apply Qcle_refl | apply rat_nonneg].
Qed.

Lemma rat_pos (n : nat) : (1 <= n)%nat -> 0 < rat n.
Proof.
  intros H. destruct (Qcle_lt_or_eq _ _ (rat_nonneg n)) as [Hlt|Heq];
    [exact Hlt|].
  exfalso. apply (rat_nonzero n H). now symmetry.
Qed.

Lemma ratio_range (e r m : Qc) :
  0 <= e -> 0 <= r -> r <= m -> 0 < m ->
  0 <= e * r / m /\ e * r / m <= e.
Proof.
  intros He Hr Hrm Hm.
  assert (Hne : m <> 0) by (intros E; rewrite E in Hm; now apply Qclt_not_eq in Hm).
  assert (K : e * r / m * m = e * r) by (field; exact Hne).
  split.
  - apply (Qcmult_lt_0_le_reg_r _ _ m Hm). rewrite K, Qcmult_0_l.
    apply Qcmult_nonneg; assumption.
  - apply (Qcmult_lt_0_le_reg_r _ _ m Hm). rewrite K.
    rewrite (Qcmult_comm e r), (Qcmult_comm e m).
    apply Qcmult_le_compat_r; assumption.
Qed.

Lemma from_far_end_exact (extent : Z) (N j : nat) :
  from_far_end extent N j = int extent * rat (N - j) / rat N.
Proof. reflexivity. Qed.

Lemma from_near_end_exact (extent : Z) (N j : nat) :
  from_near_end extent N j = int extent * rat j / rat N.
Proof. reflexivity. Qed.

Lemma from_far_end_range (extent : Z) (N j : nat) :
  (0 <= extent)%Z -> (1 <= N)%nat ->
  0 <= from_far_end extent N j /\ from_far_end extent N j <= int extent.
Proof.
  intros He HN. rewrite from_far_end_exact.
  apply ratio_range;
    [now apply int_nonneg | apply rat_nonneg | apply rat_le; lia
    | now apply rat_pos].
Qed.

Lemma from_near_end_range (extent : Z) (N j : nat) :
  (0 <= extent)%Z -> (1 <= N)%nat -> (j <= N)%nat ->
  0 <= from_near_end extent N j /\ from_near_end extent N j <= int extent.
Proof.
  intros He HN Hj. rewrite from_near_end_exact.
  apply ratio_range;
    [now apply int_nonneg | apply rat_nonneg | now apply rat_le
    | now apply rat_pos].
Qed.

Lemma from_far_end_start (extent : Z) (N : nat) :
  (1 <= N)%nat -> from_far_end extent N 0 = int extent.
Proof.
  intros HN. rewrite from_far_end_exact, Nat.sub_0_r. rationals.
  field. now apply rat_nonzero.
Qed.

Lemma from_far_end_end (extent : Z) (N : nat) :
  (1 <= N)%nat -> from_far_end extent N N = 0.
Proof.
  intros HN. rewrite from_far_end_exact, Nat.sub_diag, rat_0. rationals.
  field. now apply rat_nonzero.
Qed.

Lemma from_near_end_start (extent : Z) (N : nat) :
  (1 <= N)%nat -> from_near_end extent N 0 = 0.
Proof.
  intros HN. rewrite from_near_end_exact, rat_0. rationals.
  field. now apply rat_nonzero.
Qed.

Lemma from_near_end_end (extent : Z) (N : nat) :
  (1 <= N)%nat -> from_near_end extent N N = int extent.
Proof.
  intros HN. rewrite from_near_end_exact. rationals.
  field. now apply rat_nonzero.
Qed.

Lemma half_range (e : Qc) : 0 <= e -> 0 <= half * e /\ half * e <= e.
Proof.
  intros He.
  assert (Hh : 0 <= half) by (apply Qcle_alt; vm_compute; discriminate).
  split; [now apply Qcmult_nonneg|].
  rewrite <- (half_cancel e) at 2.
  rewrite Qcmult_plus_distr_r.
  rewrite <- (Qcplus_0_r (half * e)) at 1.
  apply Qcplus_le_compat; [apply Qcle_refl | now apply Qcmult_nonneg].
Qed.

Lemma max_x_nonneg st : (0 <= max_x st)%Z.
Proof.
  unfold max_x.
  pose proof (max_bounds (Z.of_nat (num_dat st 2)) (Z.of_nat (num_dat st 4))
                         (Z.of_nat (num_dat st 6))). lia.
Qed.

Lemma max_y_nonneg st : (0 <= max_y st)%Z.
Proof.
  unfold max_y.
  pose proof (max_bounds (Z.of_nat (num_dat st 3)) (Z.of_nat (num_dat st 5))
                         (Z.of_nat (num_dat st 7))). lia.
Qed.

(** The integer part of 1 + q lies above q, as long as q is below
    [INT_MAX]. *)
Lemma truncate_above (q : Qc) :
  0 <= q -> q < int INT_MAX ->
  q < int (ExactLib.truncate (ExactLib.dadd 1 q)).
Proof.
  intros Hq Hmax. unfold ExactLib.truncate, ExactLib.dadd.
  assert (Hp : 0 <= 1 + q).
  { rewrite <- (Qcplus_0_r 0).
    apply Qcplus_le_compat; [|exact Hq].
    apply Qcle_alt. vm_compute. discriminate. }
  assert (Ep : (this (1 + q) == 1 + this q)%Q).
  { unfold Qcplus. cbn [this Q2Qc]. rewrite Qred_correct. reflexivity. }
  assert (Hmax' : (this (1 + q) < inject_Z (INT_MAX + 1))%Q).
  { rewrite Ep, inject_Z_plus. change (inject_Z 1) with 1%Q.
    rewrite (Qplus_comm (inject_Z INT_MAX)).
    apply (proj2 (Qplus_lt_r _ _ 1%Q)).
    unfold Qclt, int in Hmax. cbn [this Q2Qc] in Hmax.
    rewrite Qred_correct in Hmax. exact Hmax. }
  revert Hp Ep Hmax'. generalize (1 + q). intros p Hp Ep Hmax'.
  assert (Hn : (0 <= Qnum p)%Z).
  { unfold Qcle, Qle in Hp. cbn in Hp. lia. }
  rewrite Z.quot_div_nonneg by lia.
  assert (Efl : (Qnum p / Z.pos (Qden p))%Z = Qfloor p)
    by (destruct p as [[n d] Hc]; reflexivity).
  rewrite Efl. pose proof (Qlt_floor p) as Hf.
  pose proof (Qfloor_le p) as Hfl.
  assert (H0 : (0 <= Qfloor p)%Z).
  { rewrite <- Efl. apply Z.div_pos; lia. }
  assert (H1 : (Qfloor p <= INT_MAX)%Z).
  { assert (Hlt : (inject_Z (Qfloor p) < inject_Z (INT_MAX + 1))%Q)
      by (eapply Qle_lt_trans; [exact Hfl | exact Hmax']).
    rewrite <- Zlt_Qlt in Hlt. lia. }
  assert (Er : int_of_integer_part (Qfloor p) = Qfloor p).
  { unfold int_of_integer_part.
    destruct (Z.leb_spec INT_MIN (Qfloor p)) as [_|Hb];
      [|unfold INT_MIN in Hb; lia].
    destruct (Z.leb_spec (Qfloor p) INT_MAX) as [_|Hb]; [reflexivity | lia]. }
  rewrite Er.
  unfold Qclt, int. cbn [this Q2Qc]. rewrite Qred_correct.
  apply (Qplus_lt_r _ _ 1%Q).
  eapply Qle_lt_trans; [apply Qle_lteq; right; symmetry; exact Ep|].
  eapply Qlt_le_trans; [exact Hf|].
  rewrite inject_Z_plus. change (inject_Z 1) with 1%Q.
  rewrite Qplus_comm. apply Qle_refl.
Qed.

Lemma plotted_cases st (i j : nat) (p : point) :
  (i <= 7)%nat ->
  plotted st i j = Some p ->
  (j <= num_dat st i)%nat
  /\ snd p = ws st i 7 j
  /\ (fst (fst p) = from_near_end (max_x st) (num_dat st i) j
      \/ fst (fst p) = from_far_end (max_x st) (num_dat st i) j
      \/ fst (fst p) = int (max_x st)
      \/ fst (fst p) = 0
      \/ fst (fst p) = half * int (max_x st))
  /\ (snd (fst p) = from_far_end (max_y st) (num_dat st i) j
      \/ snd (fst p) = int (max_y st)
      \/ snd (fst p) = 0
      \/ snd (fst p) = half * int (max_y st)).
Proof.
  intros Hi.
  destruct (line_kinds i Hi) as [H|[H|H]];
    [rewrite plotted_diagonal by exact H
    |rewrite plotted_east_west by exact H
    |rewrite plotted_north_south by exact H];
    destruct (Nat.leb_spec j (num_dat st i)) as [Hj|Hj]; try discriminate;
    intros E; injection E as <-; cbn [fst snd];
    (split; [exact Hj|]); (split; [reflexivity|]).
  - split; [destruct (i =? 0)%nat; tauto | tauto].
  - split; [tauto|].
    destruct (i =? 2)%nat; [tauto|].
    destruct (i =? 4)%nat; [rewrite <- int_0; tauto | tauto].
  - split; [|tauto].
    destruct (i =? 3)%nat; [tauto|].
    destruct (i =? 5)%nat; [rewrite <- int_0; tauto | tauto].
Qed.

(** X25.  In exact arithmetic, for a configured foot spacing that is not
    negative, every point written to gnuplot.dat after a successful run
    lies inside the box that gnuplot.cmd asks for: 0 <= x <= max_x,
    0 <= y <= max_y and 0 <= z < max_z, where [splot [0:max_x][0:max_y]
    [0:max_z]] and [set zrange [0:max_z]] carry the same max_z; this
    as long as the height handed to [output_gnuplot] is below [INT_MAX],
    so that [(int)(1.0+biggest)] is the integer part. *)
Theorem plot_inside_box (sscanf_f : string -> option float)
        (fs : files) st stf (out : list message) (h : float)
        (i j : nat) (x y z : float) :
  main sscanf_f fs st = inr (stf, out, h) ->
  0 <= foot_spacing st ->
  h < int INT_MAX ->
  (i <= 7)%nat ->
  plotted stf i j = Some (x, y, z) ->
  let c := gnuplot_cmd ExactLib.dadd ExactLib.truncate stf h in
  splot_ranges c = (max_x stf, max_y stf, zrange c)
  /\ (0 <= x /\ x <= int (max_x stf))
  /\ (0 <= y /\ y <= int (max_y stf))
  /\ (0 <= z /\ z < int (zrange c)).
Proof.
  intros H Hfs Hmax Hi Hp c. subst c. unfold gnuplot_cmd.
  cbn [splot_ranges zrange]. split; [reflexivity|].
  destruct (main_solved_lines sscanf_f fs st stf out h H) as (B & _).
  destruct (main_heights_exact sscanf_f fs st stf out h H)
    as (_ & _ & (it & jt & Hit & Hjt & Et) & B8 & Scale).
  specialize (B8 (Scale Hfs)).
  destruct (plotted_cases stf i j (x, y, z) Hi Hp) as (Hj & Ez & Ex & Ey).
  cbn [fst snd] in Ez, Ex, Ey.
  assert (HN : (1 <= num_dat stf i)%nat) by (specialize (B i Hi); lia).
  pose proof (max_x_nonneg stf) as HX. pose proof (max_y_nonneg stf) as HY.
  pose proof (int_nonneg _ HX) as HX'. pose proof (int_nonneg _ HY) as HY'.
  split; [|split].
  - destruct Ex as [-> | [-> | [-> | [-> | ->]]]].
    + now apply from_near_end_range.
    + now apply from_far_end_range.
    + split; [exact HX' | apply Qcle_refl].
    + split; [apply Qcle_refl | exact HX'].
    + now apply half_range.
  - destruct Ey as [-> | [-> | [-> | ->]]].
    + now apply from_far_end_range.
    + split; [exact HY' | apply Qcle_refl].
    + split; [apply Qcle_refl | exact HY'].
    + now apply half_range.
  - rewrite Ez. destruct (B8 i j Hi Hj) as [Z0 Zh].
    split; [exact Z0|].
    eapply Qcle_lt_trans; [exact Zh|].
    unfold max_z. apply truncate_above; [|exact Hmax].
    rewrite <- Et. apply B8; assumption.
Qed.

(** X26.  In exact arithmetic the eight plotted curves join at the four
    corners of the plate: after a successful run the first or last point
    of each perimeter line is the very point, in all three coordinates,
    at which the diagonal through that corner starts or ends; the corners
    are NE = (max_x, max_y), SW = (0, 0), NW = (0, max_y) and
    SE = (max_x, 0). *)
Theorem plot_corners_meet (sscanf_f : string -> option float)
        (fs : files) st stf (out : list message) (h : float) :
  main sscanf_f fs st = inr (stf, out, h) ->
  let N := num_dat stf in
  let X := int (max_x stf) in
  let Y := int (max_y stf) in
  (* NE corner *)
  (plotted stf NE_SW 0 = Some (X, Y, col8 stf NE_SW 0)
   /\ plotted stf NE_NW 0 = plotted stf NE_SW 0
   /\ plotted stf NE_SE 0 = plotted stf NE_SW 0)
  (* SW corner *)
  /\ (plotted stf NE_SW (N NE_SW) = Some (0, 0, col8 stf NE_SW (N NE_SW))
      /\ plotted stf SE_SW (N SE_SW) = plotted stf NE_SW (N NE_SW)
      /\ plotted stf NW_SW (N NW_SW) = plotted stf NE_SW (N NE_SW))
  (* NW corner *)
  /\ (plotted stf NW_SE 0 = Some (0, Y, col8 stf NW_SE 0)
      /\ plotted stf NE_NW (N NE_NW) = plotted stf NW_SE 0
      /\ plotted stf NW_SW 0 = plotted stf NW_SE 0)
  (* SE corner *)
  /\ (plotted stf NW_SE (N NW_SE) = Some (X, 0, col8 stf NW_SE (N NW_SE))
      /\ plotted stf NE_SE (N NE_SE) = plotted stf NW_SE (N NW_SE)
      /\ plotted stf SE_SW 0 = plotted stf NW_SE (N NW_SE)).
Proof.
  intros H N X Y. subst N X Y.
  unfold NE_NW, NE_SE, SE_SW, NW_SW, NE_SW, NW_SE.
  destruct (main_solved_lines sscanf_f fs st stf out h H) as (B & _).
  assert (HN : forall i, (i <= 7)%nat -> (1 <= num_dat stf i)%nat)
    by (intros i Hi; specialize (B i Hi); lia).
  destruct (main_corner_heights sscanf_f fs st stf out h H)
    as ((_ & C1) & (_ & C2) & (_ & C3) & (_ & C4) & (_ & C5) & (_ & C6)
        & (_ & C7) & (_ & C8)).
  unfold col8 in *.
  repeat match goal with |- _ /\ _ => split end;
    repeat first [ rewrite plotted_diagonal by lia
                 | rewrite plotted_east_west by lia
                 | rewrite plotted_north_south by lia ];
    rewrite ?Nat.leb_refl; cbn [Nat.leb Nat.eqb];
    rewrite ?from_far_end_start, ?from_far_end_end, ?from_near_end_start,
      ?from_near_end_end by (apply HN; lia);
    rewrite ?C1, ?C2, ?C3, ?C4, ?C5, ?C6, ?C7, ?C8;
    change (@float_of_int Exact.arith) with int; rewrite ?int_0;
    reflexivity.
Qed.

(** X27.  In exact arithmetic the compass labels of gnuplot.cmd sit on
    the sides of the plot where gnuplot.dat draws the matching perimeter
    lines: N is placed beyond y = max_y and the NE_NW line is drawn at
    y = max_y; S is placed below y = 0 and the SE_SW line is drawn at
    y = 0; E is placed beyond x = max_x and the NE_SE line is drawn at
    x = max_x; W is placed below x = 0 and the NW_SW line is drawn at
    x = 0. *)
Theorem plot_labels_match_lines st (biggest : float) :
  (forall i, (2 <= i <= 7)%nat -> (1 <= num_dat st i)%nat) ->
  let c := gnuplot_cmd ExactLib.dadd ExactLib.truncate st biggest in
  let X := int (max_x st) in
  let Y := int (max_y st) in
  (Y < snd (fst (label_N c))
   /\ forall j, (j <= num_dat st NE_NW)%nat ->
        exists x z, plotted st NE_NW j = Some (x, Y, z))
  /\ (snd (fst (label_S c)) < 0
      /\ forall j, (j <= num_dat st SE_SW)%nat ->
           exists x z, plotted st SE_SW j = Some (x, 0, z))
  /\ (X < fst (fst (label_E c))
      /\ forall j, (j <= num_dat st NE_SE)%nat ->
           exists y z, plotted st NE_SE j = Some (X, y, z))
  /\ (fst (fst (label_W c)) < 0
      /\ forall j, (j <= num_dat st NW_SW)%nat ->
           exists y z, plotted st NW_SW j = Some (0, y, z)).
Proof.
  intros HN c X Y. subst c X Y. unfold gnuplot_cmd.
  cbn [label_N label_S label_E label_W fst snd].
  unfold NE_NW, NE_SE, SE_SW, NW_SW.
  assert (PX : (0 < max_x st)%Z).
  { unfold max_x.
    pose proof (max_bounds (Z.of_nat (num_dat st 2))
                  (Z.of_nat (num_dat st 4)) (Z.of_nat (num_dat st 6))).
    specialize (HN 2%nat ltac:(lia)). lia. }
  assert (PY : (0 < max_y st)%Z).
  { unfold max_y.
    pose proof (max_bounds (Z.of_nat (num_dat st 3))
                  (Z.of_nat (num_dat st 5)) (Z.of_nat (num_dat st 7))).
    specialize (HN 3%nat ltac:(lia)). lia. }
  apply int_pos in PX, PY. rationals.
  change (Q2Qc (inject_Z (max_x st))) with (int (max_x st)).
  change (Q2Qc (inject_Z (max_y st))) with (int (max_y st)).
  assert (Up : forall e, 0 < e -> e < Q2Qc (11 # 10) * e).
  { intros e He. rewrite <- (Qcmult_1_l e) at 1.
    apply Qcmult_lt_compat_r; [exact He|].
    apply Qclt_alt. vm_compute. reflexivity. }
  assert (Down : forall e, 0 < e -> Q2Qc (-1 # 10) * e < 0).
  { intros e He. rewrite <- (Qcmult_0_l e).
    apply Qcmult_lt_compat_r; [exact He|].
    apply Qclt_alt. vm_compute. reflexivity. }
  repeat match goal with |- _ /\ _ => split end;
    try (apply Up; assumption); try (apply Down; assumption);
    intros j Hj; apply Nat.leb_le in Hj.
  - rewrite plotted_east_west by lia. rewrite Hj. cbn [Nat.eqb].
    eexists; eexists; reflexivity.
  - rewrite plotted_east_west by lia. rewrite Hj. cbn [Nat.eqb].
    eexists; eexists. rewrite <- int_0. reflexivity.
  - rewrite plotted_north_south by lia. rewrite Hj. cbn [Nat.eqb].
    eexists; eexists; reflexivity.
  - rewrite plotted_north_south by lia. rewrite Hj. cbn [Nat.eqb].
    eexists; eexists. rewrite <- int_0. reflexivity.
Qed.
End ExactPlot.

(** ** What the later columns depend on *)

Section RelatedLoops.
Variables S1 S2 : Type.
Variable R : S1 -> S2 -> Prop.
Variable body : nat -> S1 -> S1.
Variable body' : nat -> S2 -> S2.

Lemma for_count_related (n : nat) :
  forall j s s',
    R s s' ->
    (forall k t t', j <= k < j + n -> R t t' -> R (body k t) (body' k t')) ->
    R (for_count body n j s) (for_count body' n j s').
Proof.
  induction n as [|n IH]; intros j s s' H0 Hstep; simpl.
  - exact H0.
  - apply IH.
    + apply Hstep; [lia | exact H0].
    + intros k t t' Hk. apply Hstep. lia.
Qed.

Lemma for_up_related (lo hi hi' : nat) (s : S1) (s' : S2) :
  hi' = hi ->
  R s s' ->
  (forall k t t', lo <= k <= hi -> R t t' -> R (body k t) (body' k t')) ->
  R (for_up body lo hi s) (for_up body' lo hi' s').
Proof.
  intros -> H0 Hstep. unfold for_up. apply for_count_related; [exact H0|].
  intros k t t' Hk. apply Hstep. lia.
Qed.

Lemma for_down_related (hi hi' : nat) :
  hi' = hi ->
  forall s s',
    R s s' ->
    (forall k t t', 1 <= k <= hi -> R t t' -> R (body k t) (body' k t')) ->
    R (for_down body hi s) (for_down body' hi' s').
Proof.
  intros ->. induction hi as [|n IH]; intros s s' H0 Hstep; simpl.
  - exact H0.
  - apply IH.
    + apply Hstep; [lia | exact H0].
    + intros k t t' Hk. apply Hstep. lia.
Qed.
End RelatedLoops.

Section Dependence.
Context {A : CArith}.
Implicit Types st : state.

Lemma agree_refl st : agree_past_column3 st st.
Proof. repeat split. Qed.

Lemma agree_store st st' (i c j j' : nat) (v v' : float) :
  agree_past_column3 st st' -> j' = j -> v' = v ->
  agree_past_column3 (store st i c j v) (store st' i c j' v').
Proof.
  intros (N & M & F & W) -> ->.
  split; [exact N|]. split; [exact M|]. split; [exact F|].
  intros i' c' k H1 H2. rewrite !ws_store. rewrite W by assumption.
  reflexivity.
Qed.

Lemma agree_ws st st' (i c j j' : nat) :
  agree_past_column3 st st' -> c <> 1 -> c <> 2 -> j' = j ->
  ws st' i c j' = ws st i c j.
Proof. intros (_ & _ & _ & W) H1 H2 ->. apply W; assumption. Qed.

Lemma agree_num st st' (i : nat) :
  agree_past_column3 st st' -> num_dat st' i = num_dat st i.
Proof. intros (N & _). apply N. Qed.

Lemma agree_metric st st' :
  agree_past_column3 st st' -> metric st' = metric st.
Proof. intros (_ & M & _). exact M. Qed.

Lemma agree_spacing st st' :
  agree_past_column3 st st' -> foot_spacing st' = foot_spacing st.
Proof. intros (_ & _ & F & _). exact F. Qed.

Lemma agree_mid_value st st' (w c : nat) :
  agree_past_column3 st st' -> c <> 1 -> c <> 2 ->
  mid_value st' w c = mid_value st w c.
Proof.
  intros H H1 H2. apply mid_value_ext.
  - apply agree_num. exact H.
  - intros j _. apply agree_ws; [exact H | assumption | assumption | reflexivity].
Qed.

(** Agreement is kept by a step that stores equal values at equal
    places, and equal values are read from agreeing states. *)
Ltac agree :=
  cbv beta zeta;
  lazymatch goal with
  | |- agree_past_column3 (store _ _ _ _ _) (store _ _ _ _ _) =>
      apply agree_store; [agree | agree | agree]
  | |- agree_past_column3 (for_up _ _ _ _) (for_up _ _ _ _) =>
      apply for_up_related; [agree | agree | intros ? ? ? _ ?; agree]
  | |- agree_past_column3 (for_down _ _ _) (for_down _ _ _) =>
      apply for_down_related; [agree | agree | intros ? ? ? _ ?; agree]
  | |- agree_past_column3 (if ?b then _ else _) (if ?b then _ else _) =>
      destruct b; agree
  | |- agree_past_column3 (shift_body _ _ _ _) (shift_body _ _ _ _) =>
      unfold shift_body; agree
  | |- agree_past_column3 _ _ => assumption
  | |- ws _ _ _ _ = ws _ _ _ _ =>
      apply agree_ws; [agree | lia | lia | agree]
  | |- num_dat _ _ = num_dat _ _ => apply agree_num; agree
  | |- mid_value _ _ _ = mid_value _ _ _ =>
      apply agree_mid_value; [agree | lia | lia]
  | |- foot_spacing _ = foot_spacing _ => apply agree_spacing; agree
  | |- metric _ = metric _ => apply agree_metric; agree
  | |- ?x = ?x => reflexivity
  | |- _ = _ => f_equal; agree
  end.

Lemma diagonal_correction_agree (w : nat) st st' :
  agree_past_column3 st st' ->
  agree_past_column3 (diagonal_correction w st) (diagonal_correction w st').
Proof. intros H. unfold diagonal_correction. agree. Qed.

Lemma shift_lines_agree (w : nat) st st' :
  agree_past_column3 st st' ->
  agree_past_column3 (shift_lines w st) (shift_lines w st').
Proof. intros H. unfold shift_lines. agree. Qed.

Lemma seed_perimeter_agree st st' :
  agree_past_column3 st st' ->
  agree_past_column3 (seed_perimeter st) (seed_perimeter st').
Proof.
  intros H. unfold seed_perimeter. cbv zeta.
  assert (H1 : agree_past_column3 (copy_NE_corner st) (copy_NE_corner st'))
    by (unfold copy_NE_corner; agree).
  revert H1. generalize (copy_NE_corner st) (copy_NE_corner st').
  clear H. intros s s' H.
  assert (H1 : agree_past_column3 (copy_SW_corner s) (copy_SW_corner s'))
    by (unfold copy_SW_corner; agree).
  revert H1. generalize (copy_SW_corner s) (copy_SW_corner s').
  clear H. intros t t' H.
  assert (H1 : agree_past_column3 (copy_NW_corner t) (copy_NW_corner t'))
    by (unfold copy_NW_corner; agree).
  revert H1. generalize (copy_NW_corner t) (copy_NW_corner t').
  clear H. intros u u' H.
  unfold copy_SE_corner. agree.
Qed.

Lemma seed_center_agree st st' :
  agree_past_column3 st st' ->
  agree_past_column3 (seed_center st) (seed_center st').
Proof. intros H. unfold seed_center. agree. Qed.

Lemma sheets_agree (body : nat -> state -> state) (lo hi : nat) st st' :
  (forall w s s', agree_past_column3 s s' ->
                  agree_past_column3 (body w s) (body w s')) ->
  agree_past_column3 st st' ->
  agree_past_column3 (for_up body lo hi st) (for_up body lo hi st').
Proof.
  intros Hb H. apply for_up_related; [reflexivity | exact H|].
  intros k t t' _ Ht. apply Hb. exact Ht.
Qed.

(** Columns 5, 6 and 6a are computed from column 4 alone. *)
Lemma solve_lines_agree st st' :
  agree_past_column3 (for_up first_four_columns 0 7 st)
                     (for_up first_four_columns 0 7 st') ->
  agree_past_column3 (solve_lines st) (solve_lines st').
Proof.
  intros H. rewrite !solve_lines_unfold. unfold diagonals_solved.
  revert H.
  generalize (for_up first_four_columns 0 7 st)
             (for_up first_four_columns 0 7 st').
  intros s s' H.
  apply sheets_agree; [apply shift_lines_agree|].
  apply seed_center_agree.
  apply sheets_agree; [apply shift_lines_agree|].
  apply seed_perimeter_agree.
  apply sheets_agree; [apply diagonal_correction_agree | exact H].
Qed.

Lemma selected_agree st st' (i j : nat) :
  agree_past_column3 st st' -> selected st' i j = selected st i j.
Proof.
  intros H. unfold selected.
  destruct ((i =? 6) || (i =? 7)); agree.
Qed.

Lemma return_low_and_high_point_agree st st' :
  agree_past_column3 st st' ->
  return_low_and_high_point st' = return_low_and_high_point st.
Proof.
  intros H. unfold return_low_and_high_point.
  apply (for_up_related _ _ (fun mm mm' => mm' = mm)).
  - reflexivity.
  - agree.
  - intros i mm mm' _ ->.
    apply (for_up_related _ _ (fun mm mm' => mm' = mm)).
    + agree.
    + reflexivity.
    + intros j t t' _ ->. unfold low_high_step.
      rewrite (selected_agree st st' i j H). reflexivity.
Qed.

Lemma columns_7_8_agree (lowest : float) st st' :
  agree_past_column3 st st' ->
  agree_past_column3 (columns_7_8 lowest st) (columns_7_8 lowest st').
Proof.
  intros H. unfold columns_7_8. cbv zeta.
  assert (H1 : agree_past_column3 (for_up (column7 lowest 5) 0 5 st)
                                  (for_up (column7 lowest 5) 0 5 st')).
  { apply sheets_agree; [|exact H]. clear. intros w s s' H.
    unfold column7. agree. }
  revert H1. generalize (for_up (column7 lowest 5) 0 5 st)
                        (for_up (column7 lowest 5) 0 5 st').
  clear H. intros s s' H.
  assert (H1 : agree_past_column3 (for_up (column7 lowest 8) 6 7 s)
                                  (for_up (column7 lowest 8) 6 7 s')).
  { apply sheets_agree; [|exact H]. clear. intros w s s' H.
    unfold column7. agree. }
  revert H1. generalize (for_up (column7 lowest 8) 6 7 s)
                        (for_up (column7 lowest 8) 6 7 s').
  clear H. intros t t' H.
  assert (H1 : agree_past_column3 (scale_foot_spacing t)
                                  (scale_foot_spacing t')).
  { unfold scale_foot_spacing.
    rewrite (agree_metric t t' H), (agree_spacing t t' H).
    destruct H as (N & M & F & W).
    destruct (negb (metric t =? 0)%Z);
      (split; [exact N|]; split; [exact M|]; split; [|exact W]);
      reflexivity. }
  revert H1. generalize (scale_foot_spacing t) (scale_foot_spacing t').
  clear H. intros u u' H.
  apply sheets_agree; [|exact H]. clear. intros w s s' H.
  unfold column8. agree.
Qed.

Lemma normalize_agree st st' :
  agree_past_column3 st st' ->
  agree_past_column3 (normalize st) (normalize st').
Proof.
  intros H. unfold normalize.
  rewrite (return_low_and_high_point_agree st st' H).
  apply columns_7_8_agree. exact H.
Qed.

Lemma do_moody_consistency_checks_agree st st' :
  agree_past_column3 st st' ->
  do_moody_consistency_checks st' = do_moody_consistency_checks st.
Proof.
  intros H. unfold do_moody_consistency_checks. cbv zeta.
  assert (E : forall i acc, check_center st' i acc = check_center st i acc).
  { intros i acc. unfold check_center, out_of_tolerance, center_error.
    rewrite (agree_metric st st' H), (agree_spacing st st' H),
      (agree_mid_value st st' i 5 H) by lia.
    reflexivity. }
  assert (E2 : for_up (check_center st') 6 7 (false, [])
               = for_up (check_center st) 6 7 (false, [])).
  { apply (for_up_related _ _ (fun a a' => a' = a));
      [reflexivity | reflexivity|].
    intros k t t' _ ->. apply E. }
  rewrite E2. reflexivity.
Qed.
End Dependence.

Section MainDependence.
Context {A : CArith}.
Variable sscanf_f : string -> option float.
Implicit Types st : state.

(** Columns 3 and 4 of a sheet after the first pass of [main]. *)
Lemma first_pass_sheet st (w : nat) :
  w <= 7 ->
  let P := for_up first_four_columns 0 7 st in
  ws P w 3 0 = to_float (dlit 0 1)
  /\ ws P w 3 1 = to_float (dlit 0 1)
  /\ (forall j, 2 <= j <= num_dat st w ->
         ws P w 3 j = fadd (ws P w 3 (j - 1)) (ws P w 2 j))
  /\ (forall j, 1 <= j <= num_dat st w ->
         ws P w 2 j = fsub (ws st w 1 j) (ws st w 1 1))
  /\ ws P w 2 0 = ws st w 2 0.
Proof.
  intros Hw P. subst P.
  destruct (sheets_local first_four_columns 0 7 st first_four_columns_local)
    as (_ & _ & V).
  destruct (V w ltac:(lia)) as (s & (Ns & _) & Es & E).
  destruct (first_four_columns_spec w s) as (_ & _ & K0 & C3 & Z0 & Z1 & R).
  cbv zeta in K0, C3, Z0, Z1, R. rewrite Ns in C3, R.
  rewrite !E. split; [exact Z0|]. split; [exact Z1|]. split; [|split].
  - intros j Hj. rewrite !E. apply R. exact Hj.
  - intros j Hj. rewrite E, <- !Es. apply C3. exact Hj.
  - rewrite <- Es. exact K0.
Qed.

Lemma first_pass_rows st :
  (forall i, i <= 7 -> 1 <= num_dat st i) ->
  forall i c j,
    ~ (i <= 7 /\ (c = 0 \/ c = 2 \/ c = 3) /\ j <= num_dat st i) ->
    ws (for_up first_four_columns 0 7 st) i c j = ws st i c j.
Proof.
  intros HN i c j Hn.
  destruct (sheets_frame first_four_columns
              (fun w c j => (c = 0 \/ c = 2 \/ c = 3) /\ j <= num_dat st w)
              0 7 st) as (G1 & F1).
  { intros w s Hw Hs. rewrite <- Hs. apply first_four_columns_rows.
    rewrite Hs. apply HN. lia. }
  apply F1. lia.
Qed.

(** Two sets of readings with the same differences give the same
    column 4. *)
Lemma first_pass_agree st1 st2 :
  (forall i, num_dat st2 i = num_dat st1 i) ->
  metric st2 = metric st1 ->
  foot_spacing st2 = foot_spacing st1 ->
  (forall i, i <= 7 -> 1 <= num_dat st1 i) ->
  (forall i c j, c <> 1 -> ws st2 i c j = ws st1 i c j) ->
  (forall i j, i <= 7 -> 2 <= j <= num_dat st1 i ->
      ws (for_up first_four_columns 0 7 st2) i 2 j
      = ws (for_up first_four_columns 0 7 st1) i 2 j) ->
  agree_past_column3 (for_up first_four_columns 0 7 st1)
                     (for_up first_four_columns 0 7 st2).
Proof.
  intros N M F HN W C3.
  destruct (sheets_local first_four_columns 0 7 st1
                         first_four_columns_local) as ((N1 & M1 & F1) & _).
  destruct (sheets_local first_four_columns 0 7 st2
                         first_four_columns_local) as ((N2 & M2 & F2) & _).
  split; [intros i; rewrite N1, N2; apply N|].
  split; [congruence|]. split; [congruence|].
  clear N1 M1 F1 N2 M2 F2.
  intros i c j H1 H2.
  destruct (Nat.le_gt_cases i 7) as [Hi|Hi].
  2:{ rewrite !first_pass_rows by (try (intros k Hk; rewrite ?N; apply HN); lia).
      apply W. exact H1. }
  destruct (Nat.le_gt_cases j (num_dat st1 i)) as [Hj|Hj].
  2:{ rewrite !first_pass_rows
        by (try (intros k Hk; rewrite ?N; apply HN); rewrite ?N; lia).
      apply W. exact H1. }
  destruct (Nat.eq_dec c 0) as [->|H0].
  { rewrite !first_pass_col1 by (rewrite ?N; assumption). reflexivity. }
  destruct (Nat.eq_dec c 3) as [->|H3].
  2:{ rewrite !first_pass_rows
        by (try (intros k Hk; rewrite ?N; apply HN); lia).
      apply W. exact H1. }
  destruct (first_pass_sheet st1 i Hi) as (Z0 & Z1 & R & _).
  destruct (first_pass_sheet st2 i Hi) as (Z0' & Z1' & R' & _).
  cbv zeta in Z0, Z1, R, Z0', Z1', R'. rewrite N in R'.
  clear H1 H2. induction j as [|j IH].
  - rewrite Z0, Z0'. reflexivity.
  - destruct (Nat.eq_dec j 0) as [->|Hne].
    + rewrite Z1, Z1'. reflexivity.
    + rewrite R, R' by lia. replace (S j - 1) with j by lia.
      rewrite IH by lia. rewrite C3 by lia. reflexivity.
Qed.

(** Column 3 of the final state. *)
Lemma main_col3 (fs : files) st stf (out : list message) (h : float) :
  main sscanf_f fs st = inr (stf, out, h) ->
  exists sr,
    read_files sscanf_f fs 8 0 st = inr sr
    /\ stf = normalize (solve_lines sr)
    /\ (forall i c j, c = 1 \/ c = 2 ->
           ws stf i c j = ws (for_up first_four_columns 0 7 sr) i c j)
    /\ (forall i j, ws stf i 1 j = ws sr i 1 j)
    /\ forall i j, i <= 7 -> 1 <= j <= num_dat stf i ->
         ws stf i 2 j = fsub (ws stf i 1 j) (ws stf i 1 1).
Proof.
  intros H. apply main_inr in H.
  destruct H as (sr & Hr & Ef & _ & Nf & B & _).
  exists sr. split; [exact Hr|]. split; [exact Ef|].
  assert (HB : forall k, k <= 7 -> 1 <= num_dat sr k)
    by (intros k Hk; specialize (B k Hk); lia).
  assert (K : forall i c j, c = 1 \/ c = 2 ->
            ws stf i c j = ws (for_up first_four_columns 0 7 sr) i c j).
  { intros i c j Hc. subst stf. rewrite normalize_rows by lia.
    apply solve_lines_late_rows; [intros k Hk; apply HB; lia | lia]. }
  assert (K1 : forall i j, ws stf i 1 j = ws sr i 1 j).
  { intros i j. rewrite K by lia. apply first_pass_rows; [exact HB | lia]. }
  split; [exact K|]. split; [exact K1|].
  intros i j Hi Hj. rewrite Nf in Hj. rewrite K by lia. rewrite !K1.
  apply first_pass_sheet; assumption.
Qed.

(** Two runs from the same configuration whose column 3 agrees. *)
Lemma main_agree (fs1 fs2 : files) st stf1 stf2
      (out1 out2 : list message) (h1 h2 : float) :
  main sscanf_f fs1 st = inr (stf1, out1, h1) ->
  main sscanf_f fs2 st = inr (stf2, out2, h2) ->
  (forall i, i <= 7 -> num_dat stf2 i = num_dat stf1 i) ->
  (forall i j, i <= 7 -> 2 <= j <= num_dat stf1 i ->
      ws stf2 i 2 j = ws stf1 i 2 j) ->
  agree_past_column3 stf1 stf2 /\ out2 = out1 /\ h2 = h1.
Proof.
  intros H1 H2 N C3.
  destruct (main_col3 fs1 st stf1 out1 h1 H1) as (sr1 & _ & _ & K1 & _).
  destruct (main_col3 fs2 st stf2 out2 h2 H2) as (sr2 & _ & _ & K2 & _).
  destruct (main_inr_height sscanf_f fs1 st stf1 out1 h1 H1)
    as (sr1' & Hr1' & Ef1 & Eh1).
  destruct (main_inr_height sscanf_f fs2 st stf2 out2 h2 H2)
    as (sr2' & Hr2' & Ef2 & Eh2).
  apply main_inr in H1. destruct H1 as (sr1'' & Hr1 & _ & Eo1 & Nf1 & B1 & _).
  apply main_inr in H2. destruct H2 as (sr2'' & Hr2 & _ & Eo2 & Nf2 & B2 & _).
  assert (sr1' = sr1'') by congruence. subst sr1''.
  assert (sr2' = sr2'') by congruence. subst sr2''.
  clear Hr1' Hr2'.
  assert (E1 : forall i c j, c = 1 \/ c = 2 ->
            ws stf1 i c j = ws (for_up first_four_columns 0 7 sr1') i c j).
  { intros i c j Hc. rewrite Ef1. rewrite normalize_rows by lia.
    apply solve_lines_late_rows;
      [intros k Hk; specialize (B1 k ltac:(lia)); lia | lia]. }
  assert (E2 : forall i c j, c = 1 \/ c = 2 ->
            ws stf2 i c j = ws (for_up first_four_columns 0 7 sr2') i c j).
  { intros i c j Hc. rewrite Ef2. rewrite normalize_rows by lia.
    apply solve_lines_late_rows;
      [intros k Hk; specialize (B2 k ltac:(lia)); lia | lia]. }
  clear K1 K2 sr1 sr2.
  pose proof (read_files_inr sscanf_f fs1 8 0 st sr1' Hr1)
    as (_ & O1 & M1 & S1 & W1).
  pose proof (read_files_inr sscanf_f fs2 8 0 st sr2' Hr2)
    as (_ & O2 & M2 & S2 & W2).
  assert (P : agree_past_column3 (for_up first_four_columns 0 7 sr1')
                                 (for_up first_four_columns 0 7 sr2')).
  { apply first_pass_agree.
    - intros i. destruct (Nat.le_gt_cases i 7) as [Hi|Hi].
      + rewrite <- Nf1, <- Nf2. apply N. exact Hi.
      + rewrite O1, O2 by lia. reflexivity.
    - congruence.
    - congruence.
    - intros i Hi. specialize (B1 i Hi). lia.
    - intros i c j Hc. rewrite W1, W2 by assumption. reflexivity.
    - intros i j Hi Hj. rewrite <- E1, <- E2 by lia.
      apply C3; [exact Hi | rewrite Nf1; exact Hj]. }
  apply solve_lines_agree in P.
  revert Ef1 Ef2 Eh1 Eh2 P.
  generalize (solve_lines sr1') (solve_lines sr2').
  intros s1 s2 Ef1 Ef2 Eh1 Eh2 P.
  pose proof (normalize_agree s1 s2 P) as Q.
  rewrite <- Ef1, <- Ef2 in Q.
  split; [exact Q|]. split.
  - rewrite Eo1, Eo2. apply do_moody_consistency_checks_agree. exact Q.
  - rewrite Eh1, Eh2.
    rewrite (return_low_and_high_point_agree s1 s2 P).
    rewrite (agree_spacing stf1 stf2 Q). reflexivity.
Qed.

(** X28.  Everything [main] computes after column 3 depends on the
    readings only through column 3: two runs from the same configuration
    whose files give the same station counts and the same angular
    displacements in rows 2..N of column 3 end with the same columns 1,
    4, 5, 6, 6a, 7 and 8, the same globals, the same diagnostics of
    [do_moody_consistency_checks] and the same height for the plot. *)
Theorem later_columns_depend_on_column3 (fs1 fs2 : files) st stf1 stf2
        (out1 out2 : list message) (h1 h2 : float) :
  main sscanf_f fs1 st = inr (stf1, out1, h1) ->
  main sscanf_f fs2 st = inr (stf2, out2, h2) ->
  (forall i, i <= 7 -> num_dat stf2 i = num_dat stf1 i) ->
  (forall i j, i <= 7 -> 2 <= j <= num_dat stf1 i ->
      col3 stf2 i j = col3 stf1 i j) ->
  agree_past_column3 stf1 stf2 /\ out2 = out1 /\ h2 = h1.
Proof.
  intros H1 H2 N C3. exact (main_agree fs1 fs2 st _ _ _ _ _ _ H1 H2 N C3).
Qed.
End MainDependence.

Module ExactDependence.
Import Exact ExactLaws ExactPlate.
Local Existing Instance Exact.arith.
Local Open Scope Qc_scope.
Implicit Types st : @state Exact.arith.

(** X29.  In exact arithmetic the results do not depend on where each
    autocollimator reading series starts: if the readings of every line
    of a second set of files are those of the first plus a constant of
    that line, two runs from the same configuration end with the same
    column 3 in rows 1..N, the same columns 1 and 4 to 8, the same
    diagnostics and the same height for the plot. *)
Theorem readings_offset_invariance (sscanf_f : string -> option float)
        (fs1 fs2 : files) st stf1 stf2
        (out1 out2 : list message) (h1 h2 : float) (k : nat -> Qc) :
  main sscanf_f fs1 st = inr (stf1, out1, h1) ->
  main sscanf_f fs2 st = inr (stf2, out2, h2) ->
  (forall i, (i <= 7)%nat -> num_dat stf2 i = num_dat stf1 i) ->
  (forall i j, (i <= 7)%nat -> (1 <= j <= num_dat stf1 i)%nat ->
      col2 stf2 i j = col2 stf1 i j + k i) ->
  (forall i j, (i <= 7)%nat -> (1 <= j <= num_dat stf1 i)%nat ->
      col3 stf2 i j = col3 stf1 i j)
  /\ agree_past_column3 stf1 stf2 /\ out2 = out1 /\ h2 = h1.
Proof.
  intros H1 H2 N C2. unfold col2, col3 in *.
  assert (C3 : forall i j, (i <= 7)%nat -> (1 <= j <= num_dat stf1 i)%nat ->
             ws stf2 i 2 j = ws stf1 i 2 j).
  { intros i j Hi Hj.
    destruct (main_col3 sscanf_f fs1 st stf1 out1 h1 H1) as (_ & _ & _ & _ & _ & E1).
    destruct (main_col3 sscanf_f fs2 st stf2 out2 h2 H2) as (_ & _ & _ & _ & _ & E2).
    rewrite E1 by assumption. rewrite E2 by first [assumption | rewrite N; assumption].
    specialize (N i Hi).
    rewrite (C2 i j Hi Hj), (C2 i 1%nat Hi) by lia. qring. }
  split; [exact C3|].
  apply (main_agree sscanf_f fs1 fs2 st _ _ _ _ _ _ H1 H2 N).
  intros i j Hi Hj. apply C3; [exact Hi | lia].
Qed.
End ExactDependence.

(** ** A level plate *)

Module ExactFlat.
Import Exact ExactLaws ExactPlate.
Local Existing Instance Exact.arith.
Local Open Scope Qc_scope.
Implicit Types st : @state Exact.arith.

Lemma int_zero : @float_of_int Exact.arith 0 = 0.
Proof. apply Qc_is_canon. reflexivity. Qed.

Lemma zero_ws st (i c j : nat) :
  zero_past_column2 st -> c <> 0%nat -> c <> 1%nat -> ws st i c j = 0.
Proof. intros Z H0 H1. rewrite Z by assumption. apply int_zero. Qed.

Lemma zero_store st (i c j : nat) (v : Qc) :
  zero_past_column2 st -> v = 0 -> zero_past_column2 (store st i c j v).
Proof.
  intros Z -> i' c' j' H0 H1. rewrite ws_store.
  destruct ((i' =? i)%nat && (c' =? c)%nat && (j' =? j)%nat);
    [symmetry; apply int_zero | apply Z; assumption].
Qed.

Lemma zero_mid_value st (w c : nat) :
  zero_past_column2 st -> c <> 0%nat -> c <> 1%nat -> mid_value st w c = 0.
Proof.
  intros Z H0 H1. unfold mid_value. cbv zeta.
  destruct ((num_dat st w mod 2 =? 0)%nat).
  - apply zero_ws; assumption.
  - rewrite !(zero_ws st) by assumption. rationals. ring.
Qed.

Lemma for_up_keeps (P : state -> Prop) (body : nat -> state -> state)
      (lo hi : nat) st :
  P st -> (forall k t, P t -> P (body k t)) -> P (for_up body lo hi st).
Proof.
  intros H0 Hb.
  apply (for_up_related _ _ (fun _ t => P t) body body lo hi hi st st);
    [reflexivity | exact H0|].
  intros k _ t _ Ht. apply Hb. exact Ht.
Qed.

Lemma for_down_keeps (P : state -> Prop) (body : nat -> state -> state)
      (hi : nat) st :
  P st -> (forall k t, P t -> P (body k t)) -> P (for_down body hi st).
Proof.
  intros H0 Hb.
  apply (for_down_related _ _ (fun _ t => P t) body body hi hi eq_refl st st);
    [exact H0|].
  intros k _ t _ Ht. apply Hb. exact Ht.
Qed.

(** A step that stores zeros keeps the worksheets at zero; a value
    computed from cells past column 2 of such a state is zero. *)
Ltac flat :=
  cbv beta zeta;
  lazymatch goal with
  | |- zero_past_column2 (store _ _ _ _ _) =>
      apply zero_store; [flat | flat_value]
  | |- zero_past_column2 (for_up _ _ _ _) =>
      apply for_up_keeps; [flat | intros ? ? ?; flat]
  | |- zero_past_column2 (for_down _ _ _) =>
      apply for_down_keeps; [flat | intros ? ? ?; flat]
  | |- zero_past_column2 (if ?b then _ else _) => destruct b; flat
  | |- zero_past_column2 (shift_body _ _ _ _) => unfold shift_body; flat
  | |- zero_past_column2 _ => assumption
  end
with flat_value :=
  repeat match goal with
         | |- context [ws ?s ?i ?c ?j] =>
             rewrite (zero_ws s i c j) by first [lia | flat]
         | |- context [mid_value ?s ?w ?c] =>
             rewrite (zero_mid_value s w c) by first [lia | flat]
         end;
  rationals; unfold Qcdiv; ring.

Lemma diagonal_correction_flat (w : nat) st :
  zero_past_column2 st -> zero_past_column2 (diagonal_correction w st).
Proof. intros H. unfold diagonal_correction. flat. Qed.

Lemma shift_lines_flat (w : nat) st :
  zero_past_column2 st -> zero_past_column2 (shift_lines w st).
Proof. intros H. unfold shift_lines. flat. Qed.

Lemma seed_perimeter_flat st :
  zero_past_column2 st -> zero_past_column2 (seed_perimeter st).
Proof.
  intros H. unfold seed_perimeter. cbv zeta.
  assert (H1 : zero_past_column2 (copy_NE_corner st))
    by (unfold copy_NE_corner; flat).
  revert H1. generalize (copy_NE_corner st). clear H. intros s H.
  assert (H1 : zero_past_column2 (copy_SW_corner s))
    by (unfold copy_SW_corner; flat).
  revert H1. generalize (copy_SW_corner s). clear H. intros t H.
  assert (H1 : zero_past_column2 (copy_NW_corner t))
    by (unfold copy_NW_corner; flat).
  revert H1. generalize (copy_NW_corner t). clear H. intros u H.
  unfold copy_SE_corner. flat.
Qed.

Lemma seed_center_flat st :
  zero_past_column2 st -> zero_past_column2 (seed_center st).
Proof. intros H. unfold seed_center. flat. Qed.

Lemma solve_lines_flat st :
  zero_past_column2 (for_up first_four_columns 0 7 st) ->
  zero_past_column2 (solve_lines st).
Proof.
  intros H. rewrite solve_lines_unfold. unfold diagonals_solved.
  revert H. generalize (for_up first_four_columns 0 7 st). intros s H.
  apply for_up_keeps; [|intros k t; apply shift_lines_flat].
  apply seed_center_flat.
  apply for_up_keeps; [|intros k t; apply shift_lines_flat].
  apply seed_perimeter_flat.
  apply for_up_keeps; [exact H | intros k t; apply diagonal_correction_flat].
Qed.

Lemma selected_flat st (i j : nat) :
  zero_past_column2 st -> selected st i j = 0.
Proof.
  intros H. unfold selected.
  destruct ((i =? 6)%nat || (i =? 7)%nat); apply zero_ws; (exact H || lia).
Qed.

Lemma for_up_fixed (X : Type) (body : nat -> X -> X) (lo hi : nat) (x : X) :
  (forall k, body k x = x) -> for_up body lo hi x = x.
Proof.
  intros Hb.
  apply (for_up_related X X (fun _ t => t = x) body body lo hi hi x x);
    [reflexivity | reflexivity|].
  intros k _ t _ ->. apply Hb.
Qed.

Lemma return_low_and_high_point_flat st :
  zero_past_column2 st -> return_low_and_high_point st = (0, 0).
Proof.
  intros H. unfold return_low_and_high_point.
  rewrite (zero_ws st 0 5 0) by (exact H || lia).
  apply for_up_fixed. intros i. apply for_up_fixed. intros j.
  unfold low_high_step. rewrite (selected_flat st i j H). reflexivity.
Qed.

Lemma columns_7_8_flat st :
  zero_past_column2 st -> zero_past_column2 (columns_7_8 0 st).
Proof.
  intros H. unfold columns_7_8. cbv zeta.
  assert (H1 : zero_past_column2 (for_up (column7 0 5) 0 5 st)).
  { apply for_up_keeps; [exact H|]. clear. intros w s H. unfold column7. flat. }
  revert H1. generalize (for_up (column7 0 5) 0 5 st). clear H. intros s H.
  assert (H1 : zero_past_column2 (for_up (column7 0 8) 6 7 s)).
  { apply for_up_keeps; [exact H|]. clear. intros w s H. unfold column7. flat. }
  revert H1. generalize (for_up (column7 0 8) 6 7 s). clear H. intros t H.
  assert (H1 : zero_past_column2 (scale_foot_spacing t)).
  { unfold scale_foot_spacing.
    destruct (negb (metric t =? 0)%Z); exact H. }
  revert H1. generalize (scale_foot_spacing t). clear H. intros u H.
  apply for_up_keeps; [exact H|]. clear. intros w s H. unfold column8. flat.
Qed.

Lemma normalize_flat st :
  zero_past_column2 st -> zero_past_column2 (normalize st).
Proof.
  intros H. unfold normalize. rewrite (return_low_and_high_point_flat st H).
  apply columns_7_8_flat. exact H.
Qed.

Lemma do_moody_consistency_checks_flat st :
  zero_past_column2 st ->
  do_moody_consistency_checks st
  = if negb (metric st =? 0)%Z
    then [Height_microns (filename 6) 0; Height_microns (filename 7) 0;
          Errors_acceptable]
    else [Height_micro_inches (filename 6) 0;
          Height_micro_inches (filename 7) 0; Errors_acceptable].
Proof.
  intros H. unfold do_moody_consistency_checks. cbv zeta.
  unfold for_up. cbn [for_count Nat.sub].
  unfold check_center, out_of_tolerance, center_error. cbv zeta.
  rewrite !(zero_mid_value st) by (exact H || lia).
  assert (E0 : fmul (fmul 0 arcsec) (foot_spacing st) = 0) by (rationals; ring).
  rewrite E0.
  assert (E1 : to_double (fmul (float_of_int 10) 0) = 0) by (rationals; ring).
  rewrite E1.
  destruct (negb (metric st =? 0)%Z); reflexivity.
Qed.

(** The first pass over a zero-initialised [ws] holding constant
    readings. *)
Lemma first_pass_flat st :
  zero_past_column2 st ->
  (forall i, (i <= 7)%nat -> (1 <= num_dat st i)%nat) ->
  (forall i j, (i <= 7)%nat -> (1 <= j <= num_dat st i)%nat ->
      ws st i 1 j = ws st i 1 1) ->
  zero_past_column2 (for_up first_four_columns 0 7 st).
Proof.
  intros Z HN C i c j H0 H1. rewrite int_zero.
  destruct (Nat.le_gt_cases i 7) as [Hi|Hi].
  2:{ rewrite (first_pass_rows st HN) by lia. apply zero_ws; assumption. }
  destruct (Nat.le_gt_cases j (num_dat st i)) as [Hj|Hj].
  2:{ rewrite (first_pass_rows st HN) by lia. apply zero_ws; assumption. }
  destruct (first_pass_sheet st i Hi) as (Z0 & Z1 & R & C3 & K0).
  cbv zeta in Z0, Z1, R, C3, K0.
  assert (E3 : forall k, (1 <= k <= num_dat st i)%nat ->
             ws (for_up first_four_columns 0 7 st) i 2 k = 0).
  { intros k Hk. rewrite C3 by exact Hk. rewrite (C i k Hi Hk). qring. }
  destruct (Nat.eq_dec c 2) as [->|H2].
  { destruct (Nat.eq_dec j 0) as [->|Hj0].
    - rewrite K0. apply zero_ws; assumption.
    - apply E3. lia. }
  destruct (Nat.eq_dec c 3) as [->|H3].
  2:{ rewrite (first_pass_rows st HN) by lia. apply zero_ws; assumption. }
  clear H0 H1 H2. induction j as [|j IH].
  - rewrite Z0. apply zero_literal.
  - destruct (Nat.eq_dec j 0) as [->|Hne].
    + rewrite Z1. apply zero_literal.
    + rewrite R by lia. replace (S j - 1)%nat with j by lia.
      rewrite IH by lia. rewrite E3 by lia. qring.
Qed.

(** X30.  In exact arithmetic a plate whose readings are constant along
    every line comes out level: when [ws] starts out zero, as static
    storage does, and every line's readings all equal its first one, a
    successful run fills columns 3 to 8 and 6a with zeros, hands the
    height 0 to [output_gnuplot], and [do_moody_consistency_checks] prints
    an error of 0 for both center lines and finds the errors
    acceptable. *)
Theorem level_plate (sscanf_f : string -> option float)
        (fs : files) st stf (out : list message) (h : float) :
  main sscanf_f fs st = inr (stf, out, h) ->
  (forall i c j, ws st i c j = 0) ->
  (forall i j, (i <= 7)%nat -> (1 <= j <= num_dat stf i)%nat ->
      col2 stf i j = col2 stf i 1) ->
  (forall i j,
      col3 stf i j = 0 /\ col4 stf i j = 0 /\ col5 stf i j = 0
      /\ col6 stf i j = 0 /\ col6a stf i j = 0 /\ col7 stf i j = 0
      /\ col8 stf i j = 0)
  /\ h = 0
  /\ out = if negb (metric st =? 0)%Z
           then [Height_microns (filename 6) 0; Height_microns (filename 7) 0;
                 Errors_acceptable]
           else [Height_micro_inches (filename 6) 0;
                 Height_micro_inches (filename 7) 0; Errors_acceptable].
Proof.
  intros H Z0 C. unfold col2, col3, col4, col5, col6, col6a, col7, col8 in *.
  destruct (main_col3 sscanf_f fs st stf out h H) as (sr & Hr & Ef & _ & K1 & _).
  destruct (main_inr_height sscanf_f fs st stf out h H) as (sr' & Hr' & _ & Eh).
  assert (sr' = sr) by congruence. subst sr'. clear Hr'.
  apply main_inr in H. destruct H as (sr' & Hr' & _ & Eo & Nf & B & Msr & _).
  assert (sr' = sr) by congruence. subst sr'. clear Hr'.
  pose proof (read_files_inr sscanf_f fs 8 0 st sr Hr) as (_ & _ & _ & _ & W).
  assert (Zr : zero_past_column2 sr).
  { intros i c j _ H1. rewrite W by exact H1. rewrite Z0. symmetry.
    apply int_zero. }
  assert (Zp : zero_past_column2 (for_up first_four_columns 0 7 sr)).
  { apply first_pass_flat; [exact Zr | |].
    - intros i Hi. specialize (B i Hi). lia.
    - intros i j Hi Hj. rewrite <- !K1. apply C; [exact Hi|].
      rewrite Nf. exact Hj. }
  apply solve_lines_flat in Zp.
  destruct (solve_lines_globals sr) as (_ & MS & _).
  destruct (normalize_spec (solve_lines sr)) as (_ & MN & _).
  cbv zeta in MN. rewrite <- Ef in MN.
  revert Ef Eh Zp MS MN. generalize (solve_lines sr). intros s Ef Eh Zp MS MN.
  pose proof (normalize_flat s Zp) as Zf. rewrite <- Ef in Zf.
  split; [|split].
  - intros i j. repeat split; apply zero_ws; (exact Zf || lia).
  - rewrite Eh, (return_low_and_high_point_flat s Zp). rationals.
    cbn [fst snd]. ring.
  - rewrite Eo, (do_moody_consistency_checks_flat stf Zf).
    replace (metric stf) with (metric st) by congruence. reflexivity.
Qed.
End ExactFlat.

(** ** Concrete plates: the laws at work and the refuted readings *)

Module Runs.
Import Sample.

Lemma is_inr_inv {X Y : Type} (r : X + Y) :
  is_inr r = true -> exists y, r = inr y.
Proof. destruct r as [x|y]; [discriminate|]. intros _. now exists y. Qed.


Lemma all_parse_check {A : CArith} (sscanf_f : string -> option float)
      (bufs : list string) :
  forallb (fun buf => is_some (sscanf_f (skip_space (guarantee_newline buf)))) (data_lines bufs)
  = true ->
  all_parse sscanf_f bufs.
Proof.
  intros H. unfold all_parse. apply Forall_forall. intros buf Hin.
  rewrite forallb_forall in H. specialize (H buf Hin).
  destruct (sscanf_f (skip_space (guarantee_newline buf))); [discriminate|discriminate].
Qed.

Section IEEE_runs.
Local Existing Instance IEEE.arith.

(** C5, refuted as stated.  With the readings 5, 7, 9 the code gives
    col3[2] = 7 - 5 = 2, not col2[2] - col2[0] = 7 - 0 = 7. *)
Lemma column3_not_relative_to_row0 :
  match read_data sscanf_int steps 0 start with
  | inr sr =>
      col3 (first_four_columns 0 sr) 0 2 <> fsub (col2 sr 0 2) (col2 sr 0 0)
  | inl _ => False
  end.
Proof. vm_compute. discriminate. Qed.



(** C9, refuted as stated.  A file of exactly MAX_STATIONS-2 = 126
    readings is not accepted: the 126th reading meets the guard
    [lines_read>=MAX_STATIONS-2] and the run stops with the
    too-many-stations error; 125 readings are the most that are
    accepted. *)
Lemma file_of_126_readings_rejected :
  List.length (data_lines (text (repeat "0"%string 126))) = MAX_STATIONS - 2
  /\ match read_data sscanf_int (zeros 126) 0 start with
     | inl e => e = Too_many_stations 126 "NW_SE.txt"
     | inr _ => False
     end
  /\ is_inr (read_data sscanf_int (zeros 125) 0 start) = true.
Proof. vm_compute. repeat split. Qed.


(** In binary32 the two ends of a diagonal agree only up to rounding:
    with the readings 0, 4000019, 9333269 they come out as 4666634.5
    and 4666634. *)
Remark diagonal_ends_round_apart :
  match read_files sscanf_int wide 8 0 start with
  | inr sr =>
      let D := diagonals_solved sr in
      SFeqb (col6 D 0 0) (col6 D 0 (num_dat D 0)) = false
  | inl _ => False
  end.
Proof. vm_compute. reflexivity. Qed.
End IEEE_runs.

(** C8, refuted as stated.  With the readings 0, 10, 20 on a diagonal the
    code gives col6 = 10, 0, 0, 10, so (col6[0] + col6[3])/2 = 10 while
    middle(col6) = 0; the numbers are the same in binary32 and in exact
    arithmetic. *)
Lemma diagonal_ends_not_symmetric :
  match read_files (A:=IEEE.arith) sscanf_int ramp 8 0 (after_config true 66)
  with
  | inr sr => ~ ends_symmetric_about_middle (diagonals_solved sr) 0
  | inl _ => False
  end
  /\ match read_files (A:=Exact.arith) sscanf_int ramp 8 0
                      (after_config true 66)
     with
     | inr sr => ~ ends_symmetric_about_middle (diagonals_solved sr) 0
     | inl _ => False
     end.
Proof.
  split.
  - vm_compute. discriminate.
  - vm_compute. intros H. discriminate H.
Qed.

(** *** The laws at concrete inputs *)

Section Witnesses.
Local Existing Instance IEEE.arith.

Lemma shift_lines_redistributes_witness :
  let st := blank 3 in
  1 <= 1 <= num_dat st 2 - 1
  /\ (let N := num_dat st 2 in
      let st' := shift_lines 2 st in
      let c := fdiv (fsub (col5 st 2 0) (col5 st' 2 N))
                    (float_of_int (Z.of_nat N)) in
      col5 st' 2 N = fsub (col6 st 2 N) (col4 st 2 N)
      /\ col5 st' 2 1 = fadd (col5 st' 2 (1 + 1)) c
      /\ col6 st' 2 1 = fadd (col5 st' 2 1) (col4 st' 2 1)
      /\ col4 st' 2 1 = col4 st 2 1
      /\ col5 st' 2 0 = col5 st 2 0
      /\ col6 st' 2 N = col6 st 2 N).
Proof.
  intros st.
  assert (H : 1 <= 1 <= num_dat st 2 - 1) by (simpl; lia).
  split; [exact H | exact (shift_lines_redistributes 2 st 1 H)].
Defined.

Lemma diagonal_correction_columns_witness :
  let st := blank 3 in
  2 <= num_dat st 0
  /\ (let N := num_dat st 0 in
      let a :=
        to_float (ddiv (dmul (dlit (-1) 1) (to_double (col4 st 0 N)))
                       (double_of_int (Z.of_nat N))) in
      let b :=
        to_float (dsub (dmul (dlit 5 10) (to_double (col4 st 0 N)))
                       (to_double (middle N (col4 st 0)))) in
      let st' := diagonal_correction 0 st in
      col5 st' 0 2 = fadd (fmul a (float_of_int (Z.of_nat 2))) b
      /\ col6 st' 0 2 = fadd (col4 st' 0 2) (col5 st' 0 2)
      /\ col4 st' 0 2 = col4 st 0 2).
Proof.
  intros st.
  assert (H : 2 <= num_dat st 0) by (simpl; lia).
  split; [exact H | exact (diagonal_correction_columns 0 st 2 H)].
Defined.

Lemma ramp_runs : is_inr (main sscanf_int ramp start) = true.
Proof. vm_compute. reflexivity. Qed.

Lemma ramp_final :
  let r := main sscanf_int ramp start in
  r = inr (fst (fst (final r)), snd (fst (final r)), snd (final r)).
Proof.
  intros r. subst r.
  destruct (is_inr_inv _ ramp_runs) as [[[s o] h] E]. rewrite E. reflexivity.
Qed.


Lemma seeds_survive_shift_witness :
  let r := main sscanf_int ramp start in
  let stf := fst (fst (final r)) in
  let out := snd (fst (final r)) in
  let h := snd (final r) in
  r = inr (stf, out, h)
  /\ (let N := num_dat stf in
      (forall w s,
          col6 (shift_lines w s) w 0 = col6 s w 0
          /\ col6 (shift_lines w s) w (num_dat s w) = col6 s w (num_dat s w))
      /\ col6 stf 2 0 = col6 stf 1 0
      /\ col6 stf 3 0 = col6 stf 1 0
      /\ col6 stf 4 (N 4) = col6 stf 1 (N 1)
      /\ col6 stf 5 (N 5) = col6 stf 1 (N 1)
      /\ col6 stf 2 (N 2) = col6 stf 0 0
      /\ col6 stf 5 0 = col6 stf 0 0
      /\ col6 stf 3 (N 3) = col6 stf 0 (N 0)
      /\ col6 stf 4 0 = col6 stf 0 (N 0)
      /\ col6 stf 6 0 = mid_value stf 3 5
      /\ col6 stf 6 (N 6) = mid_value stf 5 5
      /\ col6 stf 7 0 = mid_value stf 2 5
      /\ col6 stf 7 (N 7) = mid_value stf 4 5).
Proof.
  intros r stf out h.
  split; [exact ramp_final
         | exact (seeds_survive_shift sscanf_int ramp start stf out h
                                      ramp_final)].
Defined.

Lemma steps_read : is_inr (read_data sscanf_int steps 0 start) = true.
Proof. vm_compute. reflexivity. Qed.

Lemma steps_state :
  read_data sscanf_int steps 0 start
  = inr (read_state (read_data sscanf_int steps 0 start)).
Proof.
  destruct (is_inr_inv _ steps_read) as [s E]. rewrite E. reflexivity.
Qed.

Lemma column3_relative_to_first_reading_witness :
  let sr := read_state (read_data sscanf_int steps 0 start) in
  read_data sscanf_int steps 0 start = inr sr
  /\ exists (bufs : list string) (readings : list float),
      steps 0 = Some bufs
      /\ parsed sscanf_int bufs = map Some readings
      /\ num_dat sr 0 = List.length readings
      /\ (forall k, k < num_dat sr 0 ->
            col2 sr 0 (k + 1) = nth k readings (float_of_int 0))
      /\ col2 sr 0 0 = col2 start 0 0
      /\ (forall j, 1 <= j <= num_dat sr 0 ->
            col3 (first_four_columns 0 sr) 0 j
            = fsub (col2 sr 0 j) (col2 sr 0 1))
      /\ col3 (first_four_columns 0 sr) 0 0 = col3 sr 0 0.
Proof.
  intros sr.
  split; [exact steps_state
         | exact (column3_relative_to_first_reading sscanf_int steps 0 start sr
                                                    steps_state)].
Defined.

Lemma full_file_parses :
  all_parse sscanf_int (text (repeat "0"%string (MAX_STATIONS - 2))).
Proof. apply all_parse_check. vm_compute. reflexivity. Qed.

Lemma read_data_accepts_3_to_125_witness :
  let bufs := text (repeat "0"%string (MAX_STATIONS - 2)) in
  let N := List.length (data_lines bufs) in
  zeros (MAX_STATIONS - 2) 0 = Some bufs
  /\ all_parse sscanf_int bufs
  /\ (MAX_STATIONS - 3 = 125 /\ MAX_STATIONS - 2 = 126
      /\ (3 <= N <= MAX_STATIONS - 3 ->
          exists st',
            read_data sscanf_int (zeros (MAX_STATIONS - 2)) 0 start = inr st'
            /\ num_dat st' 0 = N
            /\ N + 1 <= MAX_STATIONS - 2)
      /\ (N < 3 \/ MAX_STATIONS - 3 < N ->
          exists e,
            read_data sscanf_int (zeros (MAX_STATIONS - 2)) 0 start = inl e
            /\ fatal_names e = filename 0)
      /\ (N = MAX_STATIONS - 2 ->
          read_data sscanf_int (zeros (MAX_STATIONS - 2)) 0 start
          = inl (Too_many_stations (MAX_STATIONS - 2) (filename 0)))).
Proof.
  intros bufs N.
  assert (H1 : zeros (MAX_STATIONS - 2) 0 = Some bufs) by reflexivity.
  split; [exact H1|]. split; [exact full_file_parses|].
  exact (read_data_accepts_3_to_125 sscanf_int (zeros (MAX_STATIONS - 2)) 0
                                    bufs start H1 full_file_parses).
Defined.



End Witnesses.

Section ExactWitnesses.
Local Existing Instance Exact.arith.
Local Open Scope Qc_scope.
Import Exact ExactLaws.


Lemma diagonal_endpoints_equal_witness :
  let st := blank 3 in
  (0 <= 1)%nat /\ (1 <= num_dat st 0)%nat
  /\ (let D := diagonals_solved st in
      let N := num_dat D 0 in
      col6 D 0 0 = col6 D 0 N
      /\ col6 D 0 0 = half * col4 D 0 N - middle N (col4 D 0)).
Proof.
  intros st.
  assert (H1 : (0 <= 1)%nat) by lia.
  assert (H2 : (1 <= num_dat st 0)%nat) by (simpl; lia).
  split; [exact H1|]. split; [exact H2|].
  exact (diagonal_endpoints_equal st 0 H1 H2).
Defined.

Lemma diagonal_middle_zero_witness :
  let st := blank 3 in
  (1 <= 1)%nat /\ (1 <= num_dat st 1)%nat
  /\ (let D := diagonals_solved st in
      let N := num_dat D 1 in
      mid_value D 1 5 = 0
      /\ half * (col6 D 1 0 + col6 D 1 N)
         = mid_value D 1 5 + (half * col4 D 1 N - middle N (col4 D 1))).
Proof.
  intros st.
  assert (H1 : (1 <= 1)%nat) by lia.
  assert (H2 : (1 <= num_dat st 1)%nat) by (simpl; lia).
  split; [exact H1|]. split; [exact H2|].
  exact (diagonal_middle_zero st 1 H1 H2).
Defined.
End ExactWitnesses.
End Runs.

(** ** More concrete runs: the further laws at work *)

Module MoreRuns.
Import Sample Fixtures Runs.

Lemma failure_inv {X Y : Type} (r : X + Y) (e : X) :
  failure r = Some e -> r = inl e.
Proof. destruct r as [x|y]; [intros [= ->]; reflexivity | discriminate]. Qed.

Lemma failed_inv {A : CArith} (r : exit_failure + results) :
  is_inr r = false -> r = inl (failed r).
Proof. destruct r; [reflexivity | discriminate]. Qed.

Lemma written_inv {A : CArith} (p : option point) :
  is_some p = true ->
  p = Some (fst (fst (written p)), snd (fst (written p)), snd (written p)).
Proof.
  destruct p as [[[x y] z]|]; [reflexivity | discriminate].
Qed.

(** Binary32 holds every station number exactly. *)
Lemma binary32_station_numbers (n : Z) :
  (1 <= n <= Z.of_nat MAX_STATIONS)%Z ->
  IEEELib.truncate (@float_of_int IEEE.arith n) = n.
Proof.
  intros Hn.
  assert (Hall : forallb
                   (fun k => (IEEELib.truncate
                                (IEEE.of_int IEEE.prec32 IEEE.emax32
                                             (Z.of_nat k))
                              =? Z.of_nat k)%Z)
                   (seq 1 MAX_STATIONS) = true)
    by (vm_compute; reflexivity).
  rewrite forallb_forall in Hall.
  specialize (Hall (Z.to_nat n)).
  rewrite Z2Nat.id in Hall by lia.
  apply Z.eqb_eq. apply Hall. apply in_seq. unfold MAX_STATIONS in *. lia.
Qed.

Lemma lines_cases (P : nat -> Prop) :
  P 0 -> P 1 -> P 2 -> P 3 -> P 4 -> P 5 -> P 6 -> P 7 ->
  forall i, i <= 7 -> P i.
Proof.
  intros H0 H1 H2 H3 H4 H5 H6 H7 i Hi.
  do 8 (destruct i as [|i]; [assumption|]). lia.
Qed.

Section IEEE_witnesses.
Local Existing Instance IEEE.arith.

Lemma commented_parses : all_parse sscanf_int commented.
Proof. apply all_parse_check. vm_compute. reflexivity. Qed.


Lemma read_data_outcome_by_count_witness :
  let fs : files := fun _ => Some commented in
  fs 0 = Some commented
  /\ all_parse sscanf_int commented
  /\ (let n := List.length (data_lines commented) in
      (n < 3 ->
       read_data sscanf_int fs 0 start = inl (Too_few_lines n (filename 0)))
      /\ (3 <= n <= 125 ->
          exists st', read_data sscanf_int fs 0 start = inr st'
                      /\ num_dat st' 0 = n)
      /\ (126 <= n ->
          read_data sscanf_int fs 0 start
          = inl (Too_many_stations 126 (filename 0)))).
Proof.
  intros fs.
  assert (H1 : fs 0 = Some commented) by reflexivity.
  split; [exact H1|]. split; [exact commented_parses|].
  exact (read_data_outcome_by_count sscanf_int fs 0 commented start H1
                                    commented_parses).
Defined.


Lemma read_data_ignores_comments_witness :
  let fs : files := fun _ => Some commented in
  let fs' : files := fun _ => Some (data_lines commented) in
  fs 1 = Some commented
  /\ fs' 1 = Some (data_lines commented)
  /\ all_parse sscanf_int commented
  /\ read_data sscanf_int fs 1 start = read_data sscanf_int fs' 1 start.
Proof.
  intros fs fs'.
  assert (H1 : fs 1 = Some commented) by reflexivity.
  assert (H2 : fs' 1 = Some (data_lines commented)) by reflexivity.
  split; [exact H1|]. split; [exact H2|]. split; [exact commented_parses|].
  exact (read_data_ignores_comments sscanf_int fs fs' 1 commented start H1 H2
                                    commented_parses).
Defined.

Lemma read_data_footprint_witness :
  let sr := read_state (read_data sscanf_int steps 0 start) in
  read_data sscanf_int steps 0 start = inr sr
  /\ (3 <= num_dat sr 0 <= 125
      /\ (forall i, i <> 0 -> num_dat sr i = num_dat start i)
      /\ metric sr = metric start
      /\ foot_spacing sr = foot_spacing start
      /\ (forall i c j, ~ (i = 0 /\ c = 1 /\ 1 <= j <= num_dat sr 0) ->
             ws sr i c j = ws start i c j)).
Proof.
  intros sr.
  split; [exact steps_state
         | exact (read_data_footprint sscanf_int steps 0 start sr steps_state)].
Defined.


Lemma read_config_file_needs_data_line_witness :
  data_lines empty_config = []
  /\ read_config_file sscanf_flag_int (Some empty_config) initial_state
     = inl (Config_must_specify config_fname).
Proof.
  assert (H1 : data_lines empty_config = []) by (vm_compute; reflexivity).
  split; [exact H1|].
  exact (read_config_file_needs_data_line sscanf_flag_int empty_config
                                          initial_state H1).
Defined.

Lemma metric_config_read :
  is_inr (read_config_file sscanf_flag_int (Some metric_config) initial_state)
  = true.
Proof. vm_compute. reflexivity. Qed.

Lemma metric_config_state :
  read_config_file sscanf_flag_int (Some metric_config) initial_state
  = inr (configured (read_config_file sscanf_flag_int (Some metric_config)
                                      initial_state)).
Proof.
  destruct (is_inr_inv _ metric_config_read) as [s E]. rewrite E. reflexivity.
Qed.

Lemma read_config_file_sets_units_witness :
  let st' := configured (read_config_file sscanf_flag_int (Some metric_config)
                                          initial_state) in
  read_config_file sscanf_flag_int (Some metric_config) initial_state
  = inr st'
  /\ ((metric st' = 1%Z \/ metric st' = 0%Z)
      /\ ws st' = ws initial_state
      /\ num_dat st' = num_dat initial_state
      /\ exists bufs line flag,
           Some metric_config = Some bufs /\ In line bufs
           /\ sscanf_flag_int (skip_space (guarantee_newline line))
              = Some (flag, foot_spacing st')
           /\ (metric st' = 1%Z <-> is_M flag = true)
           /\ (metric st' = 0%Z <-> is_I flag = true)).
Proof.
  intros st'.
  split; [exact metric_config_state
         | exact (read_config_file_sets_units sscanf_flag_int
                    (Some metric_config) initial_state st'
                    metric_config_state)].
Defined.

Lemma main_writes_inside_worksheets_witness :
  let r := main sscanf_int ramp start in
  let stf := fst (fst (final r)) in
  let out := snd (fst (final r)) in
  let h := snd (final r) in
  r = inr (stf, out, h)
  /\ ((forall i, i <= 7 -> 3 <= num_dat stf i <= 125)
      /\ (forall i c j, ~ on_worksheet stf i c j ->
             ws stf i c j = ws start i c j)
      /\ (forall i c j, ~ (i < 8 /\ c < 9 /\ j < MAX_STATIONS) ->
             ws stf i c j = ws start i c j)).
Proof.
  intros r stf out h.
  split; [exact ramp_final
         | exact (main_writes_inside_worksheets sscanf_int ramp start stf out h
                                                ramp_final)].
Defined.

Lemma main_keeps_readings_witness :
  let r := main sscanf_int ramp start in
  let stf := fst (fst (final r)) in
  let out := snd (fst (final r)) in
  let h := snd (final r) in
  r = inr (stf, out, h)
  /\ exists sr,
       read_files sscanf_int ramp 8 0 start = inr sr
       /\ num_dat stf = num_dat sr
       /\ metric stf = metric start
       /\ (forall i j, col2 stf i j = col2 sr i j)
       /\ (forall i j, i <= 7 -> j <= num_dat stf i ->
              col1 stf i j = float_of_int (Z.of_nat j + 1)).
Proof.
  intros r stf out h.
  split; [exact ramp_final
         | exact (main_keeps_readings sscanf_int ramp start stf out h
                                      ramp_final)].
Defined.

Lemma corner_heights_agree_witness :
  let r := main sscanf_int ramp start in
  let stf := fst (fst (final r)) in
  let out := snd (fst (final r)) in
  let h := snd (final r) in
  r = inr (stf, out, h)
  /\ (let N := num_dat stf in
      let same_height i j i' j' :=
        col7 stf i j = col7 stf i' j' /\ col8 stf i j = col8 stf i' j' in
      same_height NE_NW 0 NE_SW 0
      /\ same_height NE_SE 0 NE_SW 0
      /\ same_height SE_SW (N SE_SW) NE_SW (N NE_SW)
      /\ same_height NW_SW (N NW_SW) NE_SW (N NE_SW)
      /\ same_height NE_NW (N NE_NW) NW_SE 0
      /\ same_height NW_SW 0 NW_SE 0
      /\ same_height NE_SE (N NE_SE) NW_SE (N NW_SE)
      /\ same_height SE_SW 0 NW_SE (N NW_SE)).
Proof.
  intros r stf out h.
  split; [exact ramp_final
         | exact (corner_heights_agree sscanf_int ramp start stf out h
                                       ramp_final)].
Defined.

Lemma solved_lines_recurrence_witness :
  let r := main sscanf_int ramp start in
  let stf := fst (fst (final r)) in
  let out := snd (fst (final r)) in
  let h := snd (final r) in
  r = inr (stf, out, h)
  /\ ((forall w j, w <= 1 -> j <= num_dat stf w ->
          col6 stf w j = fadd (col4 stf w j) (col5 stf w j))
      /\ forall w, 2 <= w <= 7 ->
           let N := num_dat stf w in
           let c := fdiv (fsub (col5 stf w 0) (col5 stf w N))
                         (float_of_int (Z.of_nat N)) in
           col4 stf w 0 = to_float (dlit 0 1)
           /\ col5 stf w 0 = col6 stf w 0
           /\ col5 stf w N = fsub (col6 stf w N) (col4 stf w N)
           /\ forall j, 1 <= j <= N - 1 ->
                col5 stf w j = fadd (col5 stf w (j + 1)) c
                /\ col6 stf w j = fadd (col5 stf w j) (col4 stf w j)).
Proof.
  intros r stf out h.
  split; [exact ramp_final
         | exact (solved_lines_recurrence sscanf_int ramp start stf out h
                                          ramp_final)].
Defined.

Lemma bump_final :
  let r := main sscanf_int bump start in
  r = inr (fst (fst (final r)), snd (fst (final r)), snd (final r)).
Proof.
  intros r. subst r.
  assert (Hrun : is_inr (main sscanf_int bump start) = true)
    by (vm_compute; reflexivity).
  destruct (is_inr_inv _ Hrun) as [[[s o] h] E]. rewrite E. reflexivity.
Qed.

Lemma binary32_center_middle_zero_witness :
  let r := main sscanf_int bump start in
  let stf := fst (fst (final r)) in
  let out := snd (fst (final r)) in
  let h := snd (final r) in
  r = inr (stf, out, h)
  /\ 6 <= 6 <= 7
  /\ num_dat stf 6 mod 2 = 0
  /\ IEEE.is_number (mid_value stf 6 5) = true
  /\ mid_value stf 6 8 = S754_zero false.
Proof.
  intros r stf out h.
  assert (H2 : 6 <= 6 <= 7) by lia.
  assert (H3 : num_dat stf 6 mod 2 = 0) by (vm_compute; reflexivity).
  assert (H4 : IEEE.is_number (mid_value stf 6 5) = true)
    by (vm_compute; reflexivity).
  split; [exact bump_final|]. split; [exact H2|]. split; [exact H3|].
  split; [exact H4|].
  exact (IEEEPlate.binary32_center_middle_zero sscanf_int bump start stf out h
           6 bump_final H2 H3 H4).
Defined.

Lemma print_table_shows_worksheet_witness :
  let r := main sscanf_int ramp start in
  let stf := fst (fst (final r)) in
  let out := snd (fst (final r)) in
  let h := snd (final r) in
  (forall n, (1 <= n <= Z.of_nat MAX_STATIONS)%Z ->
     IEEELib.truncate (float_of_int n) = n)
  /\ r = inr (stf, out, h)
  /\ 6 <= 7
  /\ (let '(name, heading, rows) := print_table IEEELib.truncate stf 6 in
      name = filename 6
      /\ List.length rows = num_dat stf 6 + 1
      /\ (forall j, j <= num_dat stf 6 ->
            nth_error rows j
            = Some (Z.of_nat j + 1,
                    [col2 stf 6 j; col3 stf 6 j; col4 stf 6 j; col5 stf 6 j;
                     col6 stf 6 j]
                    ++ (if is_center 6 then [col6a stf 6 j] else [])
                    ++ [col7 stf 6 j; col8 stf 6 j])%Z)
      /\ (heading = if negb (metric start =? 0)%Z
                    then (if is_center 6 then h4 else h3)
                    else (if is_center 6 then h2 else h1))
      /\ foot_spacing stf
         = to_float (dmul (to_double (foot_spacing start))
                          (if negb (metric start =? 0)%Z
                           then dlit 1000 1 else dlit 100000 1))).
Proof.
  intros r stf out h.
  assert (H3 : 6 <= 7) by lia.
  split; [exact binary32_station_numbers|]. split; [exact ramp_final|].
  split; [exact H3|].
  exact (print_table_shows_worksheet sscanf_int IEEELib.truncate ramp start
           stf out h 6 binary32_station_numbers ramp_final H3).
Defined.

(** A buffer of [MAX_LINELEN]-1 blanks ends in the newline that the
    loops put into its last byte: it is skipped like a blank line, in a
    data file and in the configuration file alike. *)
Remark full_blank_buffer_skipped :
  comment_or_end (skip_space (guarantee_newline full_blank_buffer)) = true
  /\ match read_data sscanf_int blank_first 0 start with
     | inr sr =>
         num_dat sr 0 = 3
         /\ map (col2 sr 0) [1; 2; 3]
            = map (fun n => float_of_int n) [42; 7; 8]%Z
     | inl _ => False
     end
  /\ match read_config_file sscanf_flag_int (Some blank_first_config)
                            initial_state with
     | inr st => metric st = 1%Z /\ foot_spacing st = float_of_int 66
     | inl _ => False
     end.
Proof. vm_compute. repeat split. Qed.

(** The first file that cannot be opened stops the whole program, and
    the error names it. *)
Remark missing_file_stops_run :
  match moody sscanf_flag_int sscanf_int IEEELib.sqrt IEEELib.dadd
              IEEELib.truncate IEEELib.truncate all_writable
              (Some metric_config) one_missing with
  | inl (In_read_data e) => e = Unable_to_open "NE_SE.txt"
  | _ => False
  end.
Proof. vm_compute. reflexivity. Qed.



Lemma moody_stops :
  let run := moody sscanf_flag_int sscanf_int IEEELib.sqrt IEEELib.dadd
                   IEEELib.truncate IEEELib.truncate dat_refused
                   (Some metric_config) ramp in
  run = inl (failed run).
Proof.
  intros run. subst run. apply failed_inv. vm_compute. reflexivity.
Qed.

Lemma moody_failure_names_file_witness :
  let run := moody sscanf_flag_int sscanf_int IEEELib.sqrt IEEELib.dadd
                   IEEELib.truncate IEEELib.truncate dat_refused
                   (Some metric_config) ramp in
  run = inl (failed run)
  /\ match failed run with
     | In_read_config_file c =>
         read_config_file sscanf_flag_int (Some metric_config) initial_state
         = inl c
     | In_read_data d =>
         exists st k s,
           read_config_file sscanf_flag_int (Some metric_config)
                            initial_state = inr st
           /\ k <= 7
           /\ read_files sscanf_int ramp k 0 st = inr s
           /\ read_data sscanf_int ramp k s = inl d
           /\ fatal_names d = filename k
     | In_output_gnuplot p stf warnings out printed =>
         exists st sr h,
           read_config_file sscanf_flag_int (Some metric_config)
                            initial_state = inr st
           /\ read_files sscanf_int ramp 8 0 st = inr sr
           /\ main sscanf_int ramp st = inr (stf, out, h)
           /\ warnings = do_consistency_checks IEEELib.sqrt sr
           /\ printed = map (print_table IEEELib.truncate stf) (seq 0 8)
           /\ ((p = Unable_to_write_cmd "gnuplot.cmd"
                /\ dat_refused "gnuplot.cmd" = false)
               \/ (p = Unable_to_write_dat
                         "gnuplot.dat"
                         (gnuplot_cmd IEEELib.dadd IEEELib.truncate stf h)
                   /\ dat_refused "gnuplot.cmd" = true
                   /\ dat_refused "gnuplot.dat" = false))
           /\ (plot_fatal_names p = "gnuplot.cmd"%string
               \/ plot_fatal_names p = "gnuplot.dat"%string)
     end.
Proof.
  intros run.
  split; [exact moody_stops
         | exact (moody_failure_names_file
                    sscanf_flag_int sscanf_int IEEELib.sqrt IEEELib.dadd
                    IEEELib.truncate IEEELib.truncate dat_refused
                    (Some metric_config) ramp (failed run) moody_stops)].
Defined.


Lemma raised_final :
  let r := main sscanf_int raised start in
  r = inr (fst (fst (final r)), snd (fst (final r)), snd (final r)).
Proof.
  intros r. subst r.
  assert (Hrun : is_inr (main sscanf_int raised start) = true)
    by (vm_compute; reflexivity).
  destruct (is_inr_inv _ Hrun) as [[[s o] h] E]. rewrite E. reflexivity.
Qed.

Lemma later_columns_depend_on_column3_witness :
  let r1 := main sscanf_int ramp start in
  let r2 := main sscanf_int raised start in
  let stf1 := fst (fst (final r1)) in
  let out1 := snd (fst (final r1)) in
  let h1 := snd (final r1) in
  let stf2 := fst (fst (final r2)) in
  let out2 := snd (fst (final r2)) in
  let h2 := snd (final r2) in
  r1 = inr (stf1, out1, h1)
  /\ r2 = inr (stf2, out2, h2)
  /\ (forall i, i <= 7 -> num_dat stf2 i = num_dat stf1 i)
  /\ (forall i j, i <= 7 -> 2 <= j <= num_dat stf1 i ->
         col3 stf2 i j = col3 stf1 i j)
  /\ (agree_past_column3 stf1 stf2 /\ out2 = out1 /\ h2 = h1).
Proof.
  intros r1 r2 stf1 out1 h1 stf2 out2 h2.
  assert (N : forall i, i <= 7 -> num_dat stf2 i = num_dat stf1 i)
    by (apply lines_cases; vm_compute; reflexivity).
  assert (N3 : forall i, i <= 7 -> num_dat stf1 i = 3)
    by (apply lines_cases; vm_compute; reflexivity).
  assert (C : forall i j, i <= 7 -> 2 <= j <= num_dat stf1 i ->
                col3 stf2 i j = col3 stf1 i j).
  { intros i j Hi Hj. rewrite (N3 i Hi) in Hj.
    assert (Hj3 : j <= 3) by lia. clear Hj. revert j Hj3. revert i Hi.
    apply (lines_cases (fun i => forall j, j <= 3 ->
                          col3 stf2 i j = col3 stf1 i j));
      intros j Hj;
      (do 4 (destruct j as [|j]; [vm_compute; reflexivity|])); lia. }
  split; [exact ramp_final|]. split; [exact raised_final|].
  split; [exact N|]. split; [exact C|].
  exact (later_columns_depend_on_column3 sscanf_int ramp raised start
           stf1 stf2 out1 out2 h1 h2 ramp_final raised_final N C).
Defined.
End IEEE_witnesses.

Section Exact_witnesses.
Local Existing Instance Exact.arith.
Local Open Scope Qc_scope.
Import Exact ExactLaws ExactPlate ExactPlot ExactLib ExactDependence
  ExactFlat.

Lemma ramp_final_exact :
  let r := main sscanf_int ramp start in
  r = inr (fst (fst (final r)), snd (fst (final r)), snd (final r)).
Proof.
  intros r. subst r.
  assert (Hrun : is_inr (main sscanf_int ramp start) = true)
    by (vm_compute; reflexivity).
  destruct (is_inr_inv _ Hrun) as [[[s o] h] E]. rewrite E. reflexivity.
Qed.

Lemma start_spacing : 0 <= foot_spacing start.
Proof. apply Qcle_alt. vm_compute. discriminate. Qed.

Lemma mid_value_of_line_witness :
  (forall j, (j <= num_dat sloped 0)%nat ->
     ws sloped 0 3 j = Q2Qc 2 + Q2Qc 3 * rat j)
  /\ mid_value sloped 0 3 = Q2Qc 2 + Q2Qc 3 * (half * rat (num_dat sloped 0)).
Proof.
  assert (H : forall j, (j <= num_dat sloped 0)%nat ->
                ws sloped 0 3 j = Q2Qc 2 + Q2Qc 3 * rat j)
    by (intros j Hj; reflexivity).
  split; [exact H | exact (mid_value_of_line sloped 0 3 (Q2Qc 2) (Q2Qc 3) H)].
Defined.

Lemma shift_lines_interpolates_witness :
  let st := blank 3 in
  (1 <= num_dat st 2)%nat
  /\ (1 <= num_dat st 2)%nat
  /\ (let N := num_dat st 2 in
      let st' := shift_lines 2 st in
      let c := (col5 st 2 0 - col5 st' 2 N) / rat N in
      col5 st' 2 1 = col5 st 2 0 - rat 1 * c
      /\ col5 st' 2 N = col6 st 2 N - col4 st 2 N).
Proof.
  intros st.
  assert (H1 : (1 <= num_dat st 2)%nat) by (simpl; lia).
  split; [exact H1|]. split; [exact H1|].
  exact (shift_lines_interpolates 2 st 1 H1 H1).
Defined.

Lemma worksheet_column6_sum_witness :
  let r := main sscanf_int ramp start in
  let stf := fst (fst (final r)) in
  let out := snd (fst (final r)) in
  let h := snd (final r) in
  r = inr (stf, out, h)
  /\ (2 <= 7)%nat
  /\ (3 <= num_dat stf 2)%nat
  /\ col6 stf 2 3 = col4 stf 2 3 + col5 stf 2 3.
Proof.
  intros r stf out h.
  assert (H2 : (2 <= 7)%nat) by lia.
  assert (H3 : (3 <= num_dat stf 2)%nat) by (vm_compute; lia).
  split; [exact ramp_final_exact|]. split; [exact H2|]. split; [exact H3|].
  exact (worksheet_column6_sum sscanf_int ramp start stf out h 2 3
                               ramp_final_exact H2 H3).
Defined.

Lemma heights_above_lowest_witness :
  let r := main sscanf_int ramp start in
  let stf := fst (fst (final r)) in
  let out := snd (fst (final r)) in
  let h := snd (final r) in
  r = inr (stf, out, h)
  /\ ((forall i j, (i <= 7)%nat -> (j <= num_dat stf i)%nat ->
          0 <= col7 stf i j)
      /\ (exists i j, (i <= 7)%nat /\ (j <= num_dat stf i)%nat
                      /\ col7 stf i j = 0)
      /\ (exists i j, (i <= 7)%nat /\ (j <= num_dat stf i)%nat
                      /\ col8 stf i j = h)
      /\ (0 <= foot_spacing start ->
          forall i j, (i <= 7)%nat -> (j <= num_dat stf i)%nat ->
            0 <= col8 stf i j /\ col8 stf i j <= h)).
Proof.
  intros r stf out h.
  split; [exact ramp_final_exact
         | exact (heights_above_lowest sscanf_int ramp start stf out h
                                       ramp_final_exact)].
Defined.

Lemma ramp_point_written :
  is_some (plotted (fst (fst (final (main sscanf_int ramp start)))) 6 1)
  = true.
Proof. vm_compute. reflexivity. Qed.

Lemma plot_inside_box_witness :
  let r := main sscanf_int ramp start in
  let stf := fst (fst (final r)) in
  let out := snd (fst (final r)) in
  let h := snd (final r) in
  let p := written (plotted stf 6 1) in
  r = inr (stf, out, h)
  /\ 0 <= foot_spacing start
  /\ h < int INT_MAX
  /\ (6 <= 7)%nat
  /\ plotted stf 6 1 = Some (fst (fst p), snd (fst p), snd p)
  /\ (let c := gnuplot_cmd ExactLib.dadd ExactLib.truncate stf h in
      splot_ranges c = (max_x stf, max_y stf, zrange c)
      /\ (0 <= fst (fst p) /\ fst (fst p) <= int (max_x stf))
      /\ (0 <= snd (fst p) /\ snd (fst p) <= int (max_y stf))
      /\ (0 <= snd p /\ snd p < int (zrange c))).
Proof.
  intros r stf out h p.
  assert (H2 : h < int INT_MAX) by (apply Qclt_alt; vm_compute; reflexivity).
  assert (H3 : (6 <= 7)%nat) by lia.
  pose proof (written_inv _ ramp_point_written) as H4.
  split; [exact ramp_final_exact|]. split; [exact start_spacing|].
  split; [exact H2|]. split; [exact H3|]. split; [exact H4|].
  exact (plot_inside_box sscanf_int ramp start stf out h 6 1
           (fst (fst p)) (snd (fst p)) (snd p)
           ramp_final_exact start_spacing H2 H3 H4).
Defined.

(** Past [INT_MAX] the conversion [(int)(1.0+biggest)] is no longer the
    integer part: with one reading of 10^11 arcseconds on every line the
    height of the plate is above [INT_MAX] and gnuplot.cmd asks for
    [zrange [0:-2147483648]]. *)
Remark zrange_past_int :
  match main sscanf_int tall start with
  | inr (stf, _, h) =>
      Qcltb (int INT_MAX) h = true
      /\ zrange (gnuplot_cmd ExactLib.dadd ExactLib.truncate stf h)
         = (-2147483648)%Z
  | inl _ => False
  end.
Proof. vm_compute. repeat split. Qed.

Lemma plot_corners_meet_witness :
  let r := main sscanf_int ramp start in
  let stf := fst (fst (final r)) in
  let out := snd (fst (final r)) in
  let h := snd (final r) in
  r = inr (stf, out, h)
  /\ (let N := num_dat stf in
      let X := int (max_x stf) in
      let Y := int (max_y stf) in
      (plotted stf NE_SW 0 = Some (X, Y, col8 stf NE_SW 0)
       /\ plotted stf NE_NW 0 = plotted stf NE_SW 0
       /\ plotted stf NE_SE 0 = plotted stf NE_SW 0)
      /\ (plotted stf NE_SW (N NE_SW) = Some (0, 0, col8 stf NE_SW (N NE_SW))
          /\ plotted stf SE_SW (N SE_SW) = plotted stf NE_SW (N NE_SW)
          /\ plotted stf NW_SW (N NW_SW) = plotted stf NE_SW (N NE_SW))
      /\ (plotted stf NW_SE 0 = Some (0, Y, col8 stf NW_SE 0)
          /\ plotted stf NE_NW (N NE_NW) = plotted stf NW_SE 0
          /\ plotted stf NW_SW 0 = plotted stf NW_SE 0)
      /\ (plotted stf NW_SE (N NW_SE)
          = Some (X, 0, col8 stf NW_SE (N NW_SE))
          /\ plotted stf NE_SE (N NE_SE) = plotted stf NW_SE (N NW_SE)
          /\ plotted stf SE_SW 0 = plotted stf NW_SE (N NW_SE))).
Proof.
  intros r stf out h.
  split; [exact ramp_final_exact
         | exact (plot_corners_meet sscanf_int ramp start stf out h
                                    ramp_final_exact)].
Defined.

Lemma plot_labels_match_lines_witness :
  let st := blank 3 in
  let biggest : float := 0 in
  (forall i, (2 <= i <= 7)%nat -> (1 <= num_dat st i)%nat)
  /\ (let c := gnuplot_cmd ExactLib.dadd ExactLib.truncate st biggest in
      let X := int (max_x st) in
      let Y := int (max_y st) in
      (Y < snd (fst (label_N c))
       /\ forall j, (j <= num_dat st NE_NW)%nat ->
            exists x z, plotted st NE_NW j = Some (x, Y, z))
      /\ (snd (fst (label_S c)) < 0
          /\ forall j, (j <= num_dat st SE_SW)%nat ->
               exists x z, plotted st SE_SW j = Some (x, 0, z))
      /\ (X < fst (fst (label_E c))
          /\ forall j, (j <= num_dat st NE_SE)%nat ->
               exists y z, plotted st NE_SE j = Some (X, y, z))
      /\ (fst (fst (label_W c)) < 0
          /\ forall j, (j <= num_dat st NW_SW)%nat ->
               exists y z, plotted st NW_SW j = Some (0, y, z))).
Proof.
  intros st biggest.
  assert (H : forall i, (2 <= i <= 7)%nat -> (1 <= num_dat st i)%nat)
    by (intros i Hi; simpl; lia).
  split; [exact H | exact (plot_labels_match_lines st biggest H)].
Defined.

Lemma raised_final_exact :
  let r := main sscanf_int raised start in
  r = inr (fst (fst (final r)), snd (fst (final r)), snd (final r)).
Proof.
  intros r. subst r.
  assert (Hrun : is_inr (main sscanf_int raised start) = true)
    by (vm_compute; reflexivity).
  destruct (is_inr_inv _ Hrun) as [[[s o] h] E]. rewrite E. reflexivity.
Qed.

Lemma level_final_exact :
  let r := main sscanf_int level start in
  r = inr (fst (fst (final r)), snd (fst (final r)), snd (final r)).
Proof.
  intros r. subst r.
  assert (Hrun : is_inr (main sscanf_int level start) = true)
    by (vm_compute; reflexivity).
  destruct (is_inr_inv _ Hrun) as [[[s o] h] E]. rewrite E. reflexivity.
Qed.

Lemma readings_offset_invariance_witness :
  let r1 := main sscanf_int ramp start in
  let r2 := main sscanf_int raised start in
  let stf1 := fst (fst (final r1)) in
  let out1 := snd (fst (final r1)) in
  let h1 := snd (final r1) in
  let stf2 := fst (fst (final r2)) in
  let out2 := snd (fst (final r2)) in
  let h2 := snd (final r2) in
  let k := fun i : nat => if (i <=? 1)%nat then Q2Qc 5 else Q2Qc 7 in
  r1 = inr (stf1, out1, h1)
  /\ r2 = inr (stf2, out2, h2)
  /\ (forall i, (i <= 7)%nat -> num_dat stf2 i = num_dat stf1 i)
  /\ (forall i j, (i <= 7)%nat -> (1 <= j <= num_dat stf1 i)%nat ->
         col2 stf2 i j = col2 stf1 i j + k i)
  /\ ((forall i j, (i <= 7)%nat -> (1 <= j <= num_dat stf1 i)%nat ->
          col3 stf2 i j = col3 stf1 i j)
      /\ agree_past_column3 stf1 stf2 /\ out2 = out1 /\ h2 = h1).
Proof.
  intros r1 r2 stf1 out1 h1 stf2 out2 h2 k.
  assert (N : forall i, (i <= 7)%nat -> num_dat stf2 i = num_dat stf1 i)
    by (apply lines_cases; vm_compute; reflexivity).
  assert (N3 : forall i, (i <= 7)%nat -> num_dat stf1 i = 3%nat)
    by (apply lines_cases; vm_compute; reflexivity).
  assert (C : forall i j, (i <= 7)%nat -> (1 <= j <= num_dat stf1 i)%nat ->
                col2 stf2 i j = col2 stf1 i j + k i).
  { intros i j Hi Hj. rewrite (N3 i Hi) in Hj.
    assert (Hj3 : (j - 1 <= 2)%nat) by lia.
    replace j with (S (j - 1)) by lia. clear Hj.
    revert Hj3. generalize (j - 1)%nat. clear j. intros j Hj. revert Hj.
    revert j. revert i Hi.
    apply (lines_cases (fun i => forall j, (j <= 2)%nat ->
                          col2 stf2 i (S j) = col2 stf1 i (S j) + k i));
      intros j Hj;
      (do 3 (destruct j as [|j];
             [apply Qc_is_canon; vm_compute; reflexivity|])); lia. }
  split; [exact ramp_final_exact|]. split; [exact raised_final_exact|].
  split; [exact N|]. split; [exact C|].
  exact (readings_offset_invariance sscanf_int ramp raised start
           stf1 stf2 out1 out2 h1 h2 k
           ramp_final_exact raised_final_exact N C).
Defined.

Lemma level_plate_witness :
  let r := main sscanf_int level start in
  let stf := fst (fst (final r)) in
  let out := snd (fst (final r)) in
  let h := snd (final r) in
  r = inr (stf, out, h)
  /\ (forall i c j, ws start i c j = 0)
  /\ (forall i j, (i <= 7)%nat -> (1 <= j <= num_dat stf i)%nat ->
         col2 stf i j = col2 stf i 1)
  /\ ((forall i j,
          col3 stf i j = 0 /\ col4 stf i j = 0 /\ col5 stf i j = 0
          /\ col6 stf i j = 0 /\ col6a stf i j = 0 /\ col7 stf i j = 0
          /\ col8 stf i j = 0)
      /\ h = 0
      /\ out = if negb (metric start =? 0)%Z
               then [Height_microns (filename 6) 0;
                     Height_microns (filename 7) 0; Errors_acceptable]
               else [Height_micro_inches (filename 6) 0;
                     Height_micro_inches (filename 7) 0; Errors_acceptable]).
Proof.
  intros r stf out h.
  assert (Z : forall i c j, ws start i c j = 0) by (intros i c j; reflexivity).
  assert (N3 : forall i, (i <= 7)%nat -> num_dat stf i = 3%nat)
    by (apply lines_cases; vm_compute; reflexivity).
  assert (C : forall i j, (i <= 7)%nat -> (1 <= j <= num_dat stf i)%nat ->
                col2 stf i j = col2 stf i 1).
  { intros i j Hi Hj. rewrite (N3 i Hi) in Hj.
    assert (Hj3 : (j - 1 <= 2)%nat) by lia.
    replace j with (S (j - 1)) by lia. clear Hj.
    revert Hj3. generalize (j - 1)%nat. clear j. intros j Hj. revert Hj.
    revert j. revert i Hi.
    apply (lines_cases (fun i => forall j, (j <= 2)%nat ->
                          col2 stf i (S j) = col2 stf i 1));
      intros j Hj;
      (do 3 (destruct j as [|j];
             [apply Qc_is_canon; vm_compute; reflexivity|])); lia. }
  split; [exact level_final_exact|]. split; [exact Z|]. split; [exact C|].
  exact (level_plate sscanf_int level start stf out h level_final_exact Z C).
Defined.
End Exact_witnesses.
End MoreRuns.
